(** * RetailMind InsightOps: the analytics pipeline and the inventory ledger

    A shallow embedding of the Python back end
    ([app/models/database.py], [forecasting.py], [inventory_risk.py],
    [risk_engine.py], [pricing.py], [recommendations.py],
    [competitive_analyzer.py], [analyzer.py], [simulator.py],
    [app/services/product_service.py] and [simulator_service.py]) and
    the properties its specification states about it.

    Conventions.
    - Python [int] is [Z]; an integer that [sqlite3] binds to a
      statement has to fit in 64 bits ([Database.fits]).  SQLite
      INTEGER columns are [Z], TEXT columns are [string], a nullable
      column is an [option], and a DATE column holds a
      [Database.value], numbers and texts side by side.
    - Python [float] is the rational it stands for, a [Q], and its
      arithmetic is exact: the rounding of a double, about one part in
      [10^16] for each operation, is not modelled, nor is overflow.  A
      property that would turn on either (the sign of a difference
      that cancels, a tie of [round], a product beyond the largest
      double) is therefore stated over a bounded range of inputs and
      with a margin or a tolerance that the doubles keep as well.
      Where the code can meet a NaN (the mean or the deviation of too
      short a pandas Series) the value is a [pyfloat], which adds it.
      Equality of floats is [Qeq].
    - A Python exception is the left injection of [result].
    - The services pass the entries of a DataFrame on as they are: a
      [numpy.float64] divides by zero without raising, and is a
      [Numpy.float64]. *)

From Stdlib Require Import ZArith QArith Qround Qabs.
From Stdlib Require Import List String Ascii Bool Lia Lqa Permutation.
From Stdlib Require Import Sorting.Sorted.
Import ListNotations.

Local Open Scope Z_scope.

(** ** Python values and exceptions *)

Module Py.

(** The exceptions the modelled code can raise. *)
Inductive exn : Type :=
| ZeroDivisionError
| ValueError (msg : string)
| IndexError (msg : string)
| DatabaseError (msg : string).

(** [str(e)] *)
Definition str (e : exn) : string :=
  match e with
  | ZeroDivisionError => "float division by zero"%string
  | ValueError m => m
  | IndexError m => m
  | DatabaseError m => m
  end.

Definition result (A : Type) : Type := (exn + A)%type.

Definition ok {A} (a : A) : result A := inr a.
Definition raise {A} (e : exn) : result A := inl e.

Definition bind {A B} (r : result A) (k : A -> result B) : result B :=
  match r with
  | inl e => inl e
  | inr a => k a
  end.

Definition returns {A} (r : result A) : Prop :=
  exists a, r = inr a.

(** [[f(x) for x in l]], stopping at the first exception. *)
Fixpoint map_result {A B} (f : A -> result B) (l : list A) : result (list B) :=
  match l with
  | [] => ok []
  | x :: l' => bind (f x) (fun y => bind (map_result f l') (fun ys => ok (y :: ys)))
  end.

Local Open Scope Q_scope.

(** [a < b] *)
Definition ltb (a b : Q) : bool := negb (Qle_bool b a).

(** [max(a, b)] and [min(a, b)]: the first argument unless the second
    is strictly beyond it. *)
Definition max (a b : Q) : Q := if ltb a b then b else a.
Definition min (a b : Q) : Q := if ltb b a then b else a.

(** [a / b] on Python numbers: a zero divisor raises.  (The simulator
    is called with [float(...)] arguments by
    [RetailAnalyzer.get_simulation].) *)
Definition div (a b : Q) : result Q :=
  if Qeq_bool b 0 then raise ZeroDivisionError else ok (a / b).

(** [int(x)] truncates towards zero. *)
Definition int (x : Q) : Z := Z.quot (Qnum x) (Zpos (Qden x)).

(** The integer nearest to [x], ties to the even one. *)
Definition round_half_even (x : Q) : Z :=
  let f := Qfloor x in
  match Qcompare (x - inject_Z f) (1 # 2) with
  | Lt => f
  | Gt => (f + 1)%Z
  | Eq => if Z.even f then f else (f + 1)%Z
  end.

(** [round(x, ndigits)] *)
Definition round (x : Q) (ndigits : nat) : Q :=
  let s := inject_Z (10 ^ Z.of_nat ndigits) in
  inject_Z (round_half_even (x * s)) / s.

(** [abs(x)] *)
Definition abs (x : Q) : Q := Qabs x.

(** The square root, to sixteen decimal places from below; exact on
    the squares of rationals.  It stands for the correctly rounded
    [sqrt] behind [Series.std]. *)
Definition sqrt (x : Q) : Q :=
  let k := (10 ^ 16)%Z in
  Z.sqrt (Qnum x * Zpos (Qden x) * k * k) # (Qden x * Z.to_pos k).

(** A float that may be NaN. *)
Inductive pyfloat : Type :=
| Fin (q : Q)
| NaN.

(** Comparisons with a NaN are false. *)
Definition gt (a : pyfloat) (b : Q) : bool :=
  match a with
  | Fin q => ltb b q
  | NaN => false
  end.

Definition lt (a : pyfloat) (b : Q) : bool :=
  match a with
  | Fin q => ltb q b
  | NaN => false
  end.

Definition le (a : pyfloat) (b : Q) : bool :=
  match a with
  | Fin q => Qle_bool q b
  | NaN => false
  end.

Definition fmul (a : pyfloat) (b : Q) : pyfloat :=
  match a with
  | Fin q => Fin (q * b)
  | NaN => NaN
  end.

Definition fround (a : pyfloat) (ndigits : nat) : pyfloat :=
  match a with
  | Fin q => Fin (round q ndigits)
  | NaN => NaN
  end.

(** [int(x)] of a float. *)
Definition fint (a : pyfloat) : result Z :=
  match a with
  | Fin q => ok (int q)
  | NaN => raise (ValueError "cannot convert float NaN to integer")
  end.

End Py.

(** ** The product history: one row per product and day *)

Module Frame.

(** A [datetime] is its number of seconds since the epoch. *)
Record row : Type := mk_row {
  product : string;
  category : string;
  date : Z;
  sales : Z;
  inventory : Z;
  price : Q;
  expiry_date : option Z
}.

Definition seconds_per_day : Z := 86400.

(** [(a - b).days]: a timedelta counts whole days downwards. *)
Definition days_between (a b : Z) : Z := (a - b) / seconds_per_day.

(** [df.sort_values('date')], as a stable insertion sort. *)
Fixpoint insert_by_date (r : row) (l : list row) : list row :=
  match l with
  | [] => [r]
  | x :: l' =>
      if date r <=? date x then r :: x :: l' else x :: insert_by_date r l'
  end.

Definition sort_values_date (l : list row) : list row :=
  fold_right insert_by_date [] l.

(** [s.tail(n)] *)
Definition tail {A} (n : nat) (l : list A) : list A :=
  skipn (List.length l - n) l.

Local Open Scope Q_scope.

Definition sumZ (l : list Z) : Z := fold_right Z.add 0%Z l.

(** [s.mean()]: NaN on an empty Series. *)
Definition mean (l : list Z) : Py.pyfloat :=
  match l with
  | [] => Py.NaN
  | _ => Py.Fin (inject_Z (sumZ l) / inject_Z (Z.of_nat (List.length l)))
  end.

(** The mean of a Series known to hold a value. *)
Definition meanQ (l : list Z) : Q :=
  inject_Z (sumZ l) / inject_Z (Z.of_nat (List.length l)).

Definition sumQ (l : list Q) : Q := fold_right Qplus 0 l.

(** [s.std()], the sample standard deviation: NaN below two values. *)
Definition std (l : list Z) : Py.pyfloat :=
  match l with
  | [] | [_] => Py.NaN
  | _ =>
      let m := meanQ l in
      let ss := sumQ (map (fun x => (inject_Z x - m) * (inject_Z x - m)) l) in
      Py.Fin (Py.sqrt (ss / inject_Z (Z.of_nat (List.length l) - 1)))
  end.

(** [s.rolling(window=w, min_periods=1).mean()]: at each position the
    mean of the last [w] values up to it. *)
Definition rolling_mean (w : nat) (l : list Z) : list Q :=
  map (fun i => meanQ (tail w (firstn (S i) l))) (seq 0 (List.length l)).

End Frame.

(** ** The SQLite store and [log_transaction] *)

Module Database.

Import Py.

(** *** Schema ([init_db])

    The AUTOINCREMENT ids of the ledger and of the daily statistics and
    the defaulted timestamps, which [log_transaction] neither reads nor
    sets, are not kept. *)

Record product_row : Type := mk_product {
  p_id : Z;
  p_name : string;
  p_category : string;
  p_price : Q;
  p_current_inventory : Z
}.

(** A value as SQLite stores it.  The columns [expiry_date] and
    [entry_date] are declared DATE, which gives them NUMERIC affinity:
    a text that reads as a number is stored as that number (the text
    ['20250101'] as the integer 20250101), any other text, such as
    ['2025-01-01'], as it is.  A REAL is a number or an infinity.
    [merge_csv_data] stores the cell of the uploaded file up to its
    first blank, in whatever format the file has it. *)
Inductive value : Type :=
| Null
| Integer (z : Z)
| Real (x : Q)
| Infinity (negative : bool)
| Text (s : string)
| Blob (bytes : string).

Record batch_row : Type := mk_batch {
  b_id : Z;
  b_product_id : Z;
  b_quantity : Z;
  b_expiry_date : value;
  b_entry_date : value
}.

Record ledger_row : Type := mk_ledger {
  l_product_id : Z;
  l_transaction_type : string;
  l_quantity : Z;
  l_notes : string
}.

Record stats_row : Type := mk_stats {
  s_product_id : Z;
  s_date : string;
  s_sales : Z;
  s_inventory_snapshot : Z;
  s_price_snapshot : option Q
}.

(** A table is the list of its rows in rowid order. *)
Record db : Type := mk_db {
  products : list product_row;
  inventory_batches : list batch_row;
  inventory_ledger : list ledger_row;
  daily_stats : list stats_row
}.

(** *** SQLite's ordering of stored values

    [ORDER BY expiry_date ASC] sorts by storage class first: NULL, then
    INTEGER and REAL together by their numeric value, then TEXT, then
    BLOB; TEXT and BLOB are compared bytewise. *)

Definition rank (v : value) : Z :=
  match v with
  | Null => 0
  | Infinity true => 1
  | Integer _ | Real _ => 2
  | Infinity false => 3
  | Text _ => 4
  | Blob _ => 5
  end.

Definition number_of (v : value) : Q :=
  match v with
  | Integer z => inject_Z z
  | Real x => x
  | _ => 0
  end.

Definition bytes_of (v : value) : string :=
  match v with
  | Text s | Blob s => s
  | _ => EmptyString
  end.

Definition expiry_leb (a b : value) : bool :=
  match Z.compare (rank a) (rank b) with
  | Lt => true
  | Gt => false
  | Eq => Qle_bool (number_of a) (number_of b)
          && String.leb (bytes_of a) (bytes_of b)
  end.

(** [a] sorts strictly before [b]. *)
Definition expiry_lt (a b : value) : Prop :=
  expiry_leb b a = false.


(** [ORDER BY] as a stable insertion sort on the key. *)
Fixpoint insert_by_expiry (b : batch_row) (l : list batch_row) : list batch_row :=
  match l with
  | [] => [b]
  | x :: l' =>
      if expiry_leb (b_expiry_date b) (b_expiry_date x)
      then b :: x :: l'
      else x :: insert_by_expiry b l'
  end.

Definition order_by_expiry (l : list batch_row) : list batch_row :=
  fold_right insert_by_expiry [] l.

(** *** Dates as texts

    [str(expiry).split(' ')[0]] of a pandas Timestamp, like
    [strftime('%Y-%m-%d')], writes a day as four digits of year, two of
    month and two of day, joined by dashes. *)

Definition digit (n : Z) : ascii := ascii_of_N (Z.to_N (48 + n)).

Definition two_digits (n : Z) : string :=
  String (digit (n / 10)) (String (digit (n mod 10)) EmptyString).

Definition iso_date (year month day : Z) : string :=
  (two_digits (year / 100)
   ++ (two_digits (year mod 100)
       ++ ("-" ++ (two_digits month ++ ("-" ++ two_digits day)))))%string.

(** *** The statements [log_transaction] executes, on a table state *)

(** [SELECT id, current_inventory FROM products WHERE name = ?] with
    [fetchone()]. *)
Definition select_product (name : string) (d : db) : option (Z * Z) :=
  match find (fun r => String.eqb (p_name r) name) (products d) with
  | Some r => Some (p_id r, p_current_inventory r)
  | None => None
  end.

(** [UPDATE products SET current_inventory = ? WHERE id = ?] *)
Definition update_product_inventory (new_inv pid : Z) (d : db) : db :=
  mk_db
    (map (fun r =>
            if p_id r =? pid
            then mk_product (p_id r) (p_name r) (p_category r) (p_price r) new_inv
            else r)
         (products d))
    (inventory_batches d) (inventory_ledger d) (daily_stats d).

(** [INSERT INTO inventory_ledger (product_id, transaction_type,
    quantity, notes) VALUES (?, ?, ?, ?)] *)
Definition insert_ledger (pid : Z) (t_type : string) (change : Z)
    (notes : string) (d : db) : db :=
  mk_db (products d) (inventory_batches d)
        (inventory_ledger d ++ [mk_ledger pid t_type change notes])
        (daily_stats d).

(** [(SELECT price FROM products WHERE id = ?)] *)
Definition select_price (pid : Z) (d : db) : option Q :=
  match find (fun r => p_id r =? pid) (products d) with
  | Some r => Some (p_price r)
  | None => None
  end.

Definition stats_conflict (pid : Z) (date : string) (r : stats_row) : bool :=
  (s_product_id r =? pid) && String.eqb (s_date r) date.

(** [INSERT INTO daily_stats ... ON CONFLICT(product_id, date) DO UPDATE
    SET sales = sales + ?, inventory_snapshot = ?] *)
Definition upsert_daily_stats (pid : Z) (today : string) (sold new_inv : Z)
    (d : db) : db :=
  mk_db (products d) (inventory_batches d) (inventory_ledger d)
    (if existsb (stats_conflict pid today) (daily_stats d)
     then map (fun r =>
                 if stats_conflict pid today r
                 then mk_stats (s_product_id r) (s_date r) (s_sales r + sold)
                               new_inv (s_price_snapshot r)
                 else r)
              (daily_stats d)
     else daily_stats d ++ [mk_stats pid today sold new_inv (select_price pid d)]).

(** [SELECT id, quantity FROM inventory_batches WHERE product_id = ? AND
    quantity > 0 ORDER BY expiry_date ASC] with [fetchall()]. *)
Definition eligible (pid : Z) (b : batch_row) : bool :=
  (b_product_id b =? pid) && (0 <? b_quantity b).

Definition select_batches (pid : Z) (d : db) : list (Z * Z) :=
  map (fun b => (b_id b, b_quantity b))
      (order_by_expiry (filter (eligible pid) (inventory_batches d))).

(** [SET quantity = quantity - ?] on one row. *)
Definition take (deduct : Z) (b : batch_row) : batch_row :=
  mk_batch (b_id b) (b_product_id b) (b_quantity b - deduct)
           (b_expiry_date b) (b_entry_date b).

(** [UPDATE inventory_batches SET quantity = quantity - ? WHERE id = ?] *)
Definition deduct_batch (deduct bid : Z) (l : list batch_row) : list batch_row :=
  map (fun b => if b_id b =? bid then take deduct b else b) l.

Definition update_batch (deduct bid : Z) (d : db) : db :=
  mk_db (products d) (deduct_batch deduct bid (inventory_batches d))
        (inventory_ledger d) (daily_stats d).


(** The FIFO loop on the table alone, for a run in which every
    statement succeeds; [fifo_loop_no_faults] relates it to the loop
    on the connection. *)
Fixpoint fifo_deduct (batches : list (Z * Z)) (remaining_to_deduct : Z)
    (l : list batch_row) : list batch_row :=
  match batches with
  | [] => l
  | (bid, bqty) :: rest =>
      if remaining_to_deduct <=? 0 then l
      else
        let deduct := Z.min bqty remaining_to_deduct in
        fifo_deduct rest (remaining_to_deduct - deduct) (deduct_batch deduct bid l)
  end.

(** What the loop takes in all from the batch [bid]. *)
Fixpoint deducted (batches : list (Z * Z)) (remaining_to_deduct : Z)
    (bid : Z) : Z :=
  match batches with
  | [] => 0
  | (bid', bqty) :: rest =>
      if remaining_to_deduct <=? 0 then 0
      else
        let deduct := Z.min bqty remaining_to_deduct in
        (if bid' =? bid then deduct else 0)
        + deducted rest (remaining_to_deduct - deduct) bid
  end.

(** *** The connection

    [committed] is what the database file holds, [working] what the
    open transaction sees; [executed] counts the statements sent so
    far.  A fault plan says which statement, if any, SQLite refuses
    (locked database, I/O error, ...) and with what message. *)

Record conn : Type := mk_conn {
  committed : db;
  working : db;
  executed : nat
}.

Definition fault_plan : Type := nat -> option string.

Definition no_faults : fault_plan := fun _ => None.

(** A computation on a connection; the connection survives an
    exception, as the Python object does. *)
Definition M (A : Type) : Type := conn -> result A * conn.

Definition ret {A} (a : A) : M A := fun c => (ok a, c).

Definition mbind {A B} (m : M A) (k : A -> M B) : M B :=
  fun c =>
    match m c with
    | (inl e, c') => (inl e, c')
    | (inr a, c') => k a c'
    end.

Declare Scope db_scope.
Delimit Scope db_scope with db.
Notation "x <- m ;; k" := (mbind m (fun x => k))
  (at level 61, m at next level, right associativity) : db_scope.
Notation "m ;;; k" := (mbind m (fun _ => k))
  (at level 61, right associativity) : db_scope.

Section Connection.

Variable faults : fault_plan.

Definition tick (c : conn) : conn :=
  mk_conn (committed c) (working c) (S (executed c)).

(** [c.execute(...)] of a query. *)
Definition query {A} (q : db -> A) : M A :=
  fun c =>
    match faults (executed c) with
    | Some msg => (raise (DatabaseError msg), tick c)
    | None => (ok (q (working c)), tick c)
    end.

(** [c.execute(...)] of a write. *)
Definition execute (w : db -> db) : M unit :=
  fun c =>
    match faults (executed c) with
    | Some msg => (raise (DatabaseError msg), tick c)
    | None => (ok tt, mk_conn (committed c) (w (working c)) (S (executed c)))
    end.

(** [conn.commit()] *)
Definition commit : M unit :=
  fun c =>
    match faults (executed c) with
    | Some msg => (raise (DatabaseError msg), tick c)
    | None => (ok tt, mk_conn (working c) (working c) (S (executed c)))
    end.

(** [conn.rollback()] *)
Definition rollback (c : conn) : conn :=
  mk_conn (committed c) (committed c) (executed c).

(** [get_db_connection()] and [conn.close()]: closing drops whatever
    was not committed. *)
Definition connect (d : db) : conn := mk_conn d d 0.

Definition close (c : conn) : db := committed c.

(** *** [log_transaction] *)

Inductive outcome : Type :=
| Error (error : string)
| Success (new_inventory : Z).

Local Open Scope db_scope.

(** The [for b in batches] loop of the FIFO update. *)
Fixpoint fifo_loop (batches : list (Z * Z)) (remaining_to_deduct : Z) : M unit :=
  match batches with
  | [] => ret tt
  | (bid, bqty) :: rest =>
      if remaining_to_deduct <=? 0 then ret tt
      else
        let deduct := Z.min bqty remaining_to_deduct in
        execute (update_batch deduct bid) ;;;
        fifo_loop rest (remaining_to_deduct - deduct)
  end.

(** The body of the [try]. *)
Definition log_transaction_try (product_name : string) (quantity : Z)
    (t_type today : string) : M outcome :=
  row <- query (select_product product_name) ;;
  match row with
  | None => ret (Error "Product not found"%string)
  | Some (pid, current_inv) =>
      let sale := String.eqb t_type "SALE"%string in
      let change := if sale then - quantity else quantity in
      let new_inv := Z.max 0 (current_inv + change) in
      execute (update_product_inventory new_inv pid) ;;;
      execute (insert_ledger pid t_type change ("Manual " ++ t_type)%string) ;;;
      execute (upsert_daily_stats pid today (if sale then quantity else 0) new_inv) ;;;
      (if sale
       then batches <- query (select_batches pid) ;;
            fifo_loop batches quantity
       else ret tt) ;;;
      commit ;;;
      ret (Success new_inv)
  end.

(** [log_transaction(product_name, quantity, t_type)] run against the
    database [d] on the day [today]; it yields the returned dictionary
    and the database as the next connection finds it. *)
Definition log_transaction (today : string) (d : db) (product_name : string)
    (quantity : Z) (t_type : string) : outcome * db :=
  match log_transaction_try product_name quantity t_type today (connect d) with
  | (inr out, c) => (out, close c)
  | (inl e, c) => (Error (str e), close (rollback c))
  end.

(** *** What a run did, read off the two connections around it *)

Definition failed {A} (r : result A) : nat :=
  match r with inl _ => 1%nat | inr _ => 0%nat end.

(** The statements a run sent all succeeded, except the last one when
    the run raised; what it raised is what SQLite answered to that
    statement. *)
Definition traced {A} (m : M A) : Prop :=
  forall c r c', m c = (r, c') ->
    (executed c <= executed c')%nat
    /\ (forall j, (executed c <= j < executed c' - failed r)%nat ->
         faults j = None)
    /\ (forall e, r = inl e ->
         exists msg, e = DatabaseError msg
                     /\ (executed c < executed c')%nat
                     /\ faults (executed c' - 1)%nat = Some msg).

(** The run committed nothing. *)
Definition quiet {A} (m : M A) : Prop :=
  forall c r c', m c = (r, c') -> committed c' = committed c.

(** The run committed nothing if it raised. *)
Definition safe {A} (m : M A) : Prop :=
  forall c e c', m c = (inl e, c') -> committed c' = committed c.

End Connection.

(** *** Binding the parameters

    [sqlite3] hands a Python [int] to SQLite as a 64-bit INTEGER and
    raises OverflowError, before the statement is sent, for one that
    does not fit; inside the [try] this is one more refusal of the
    statement.  [product_name], [t_type] and [today] are texts, and the
    ids and quantities the FIFO statements bind come from INTEGER
    columns ([deduct] lies between 0 and one of them), so only the
    three writes that carry [quantity] can fail to bind. *)

Definition fits (z : Z) : bool := (- 2 ^ 63 <=? z) && (z <? 2 ^ 63).

Definition too_large : string :=
  "Python int too large to convert to SQLite INTEGER".

(** The integers a call binds to its statement number [statement],
    counted from 0. *)
Definition bound_integers (d : db) (product_name : string) (quantity : Z)
    (t_type : string) (statement : nat) : list Z :=
  match select_product product_name d with
  | None => []
  | Some (pid, current_inv) =>
      let sale := String.eqb t_type "SALE"%string in
      let change := if sale then - quantity else quantity in
      let new_inv := Z.max 0 (current_inv + change) in
      let sold := if sale then quantity else 0 in
      match statement with
      | 1%nat => [new_inv; pid]
      | 2%nat => [pid; change]
      | 3%nat => [pid; sold; new_inv; pid; sold; new_inv]
      | _ => []
      end
  end.

(** The fault plan of a call that SQLite itself refuses nothing. *)
Definition binding (d : db) (product_name : string) (quantity : Z)
    (t_type : string) : fault_plan :=
  fun statement =>
    if forallb fits (bound_integers d product_name quantity t_type statement)
    then None
    else Some too_large.

End Database.

(** ** Risk and expiry levels shared by the classifiers *)

Module Risk.

Inductive level : Type :=
| HIGH_RISK
| MEDIUM_RISK
| OPPORTUNITY
| STABLE.

Definition level_eqb (a b : level) : bool :=
  match a, b with
  | HIGH_RISK, HIGH_RISK | MEDIUM_RISK, MEDIUM_RISK
  | OPPORTUNITY, OPPORTUNITY | STABLE, STABLE => true
  | _, _ => false
  end.

End Risk.

Module Expiry.

Inductive level : Type :=
| NONE
| MEDIUM
| HIGH
| CRITICAL.

End Expiry.

(** ** [forecast_demand] *)

Module Forecasting.

Import Py Frame.

Local Open Scope Q_scope.

Inductive tier : Type :=
| HIGH
| MEDIUM
| LOW.

Record forecast : Type := mk_forecast {
  forecast_days : list Z;
  demand_trend_pct : Q;
  confidence_score : Q;
  confidence_tier : tier;
  last_7d_avg : pyfloat
}.

(** [np.polyfit(np.arange(len(y)), y, 1)[0]]: the slope of the
    least-squares line through the points [(i, y_i)].  numpy solves
    for it in doubles, so that what it returns for a level series is
    a slope of the order of [1e-16] rather than 0: the trend reported
    after rounding is the same, the truncated projection of a day
    need not be. *)
Definition polyfit_slope (y : list Z) : Q :=
  let n := Z.of_nat (List.length y) in
  let x := map Z.of_nat (seq 0 (List.length y)) in
  let sx := sumZ x in
  let sy := sumZ y in
  let sxy := sumZ (map (fun p => (fst p * snd p)%Z) (combine x y)) in
  let sxx := sumZ (map (fun a => (a * a)%Z) x) in
  inject_Z (n * sxy - sx * sy) / inject_Z (n * sxx - sx * sx).

(** The trend of the last 14 observations, in percent of their mean. *)
Definition trend_pct_of (s : list Z) : Q :=
  let recent := tail 14 s in
  if (7 <=? List.length recent)%nat then
    let slope := polyfit_slope recent in
    let avg_sales := meanQ recent in
    if ltb 0 avg_sales then (slope / Py.max avg_sales 1) * 100 else 0
  else 0.

(** The coefficient of variation of the whole history. *)
Definition volatility_of (s : list Z) : Q :=
  match std s, mean s with
  | Fin sd, Fin m =>
      if ltb 0 sd then if ltb 0 m then sd / m else 0 else 0
  | _, _ => 0
  end.

Definition confidence_of (volatility : Q) : Q :=
  Py.max (1 # 10) (1 - Py.min volatility (1 # 2)).

Definition tier_of (confidence : Q) : tier :=
  if ltb (7 # 10) confidence then HIGH
  else if ltb (4 # 10) confidence then MEDIUM
  else LOW.

(** [x.iloc[-1] if not df.empty else df['sales'].mean()] *)
Definition last_avg_of (s : list Z) : pyfloat :=
  match rev (rolling_mean 7 s) with
  | a :: _ => Fin a
  | [] => mean s
  end.

(** A float is false when it is zero; a NaN is true. *)
Definition truthy (a : pyfloat) : bool :=
  match a with
  | Fin q => negb (Qeq_bool q 0)
  | NaN => true
  end.

Definition forecast_demand (product_data : list row) : result forecast :=
  let product_data := sort_values_date product_data in
  let s := map sales product_data in
  let trend_pct := trend_pct_of s in
  let volatility := volatility_of s in
  let confidence := confidence_of volatility in
  let last_avg := last_avg_of s in
  bind
    (map_result
       (fun i =>
          let forecast_value :=
            fmul last_avg (1 + (trend_pct / 100) * inject_Z i / 7) in
          bind (fint forecast_value) (fun v => ok (Z.max 1 v)))
       [1; 2; 3; 4; 5; 6; 7]%Z)
    (fun days =>
       ok (mk_forecast days
             (round trend_pct 1)
             (round confidence 2)
             (tier_of confidence)
             (if truthy last_avg then fround last_avg 1 else Fin 0))).

End Forecasting.

(** ** [assess_inventory_risk] *)

Module InventoryRisk.

Import Py Frame.

Local Open Scope Q_scope.

(** The sentence templates of [reason], with the numbers they print;
    [expiry_warning] is the day count of the warning appended to it,
    and [expiry_date_of] the date the ['expiry_date'] entry prints. *)
Inductive reason_text : Type :=
| Balanced (days_of_stock : Q)
| ImmediateClearance (days_to_expiry : Z)
| Overstocked (days_of_stock : Q)
| HighInventory (days_of_stock : Q)
| LowStock (days_of_stock : Q)
| LowInventory (days_of_stock : Q).

Record assessment : Type := mk_assessment {
  risk_level : Risk.level;
  days_of_stock : Q;
  reason : reason_text;
  expiry_warning : option Z;
  current_inventory : Z;
  avg_daily_sales : pyfloat;
  expiry_date_of : option Z;
  expiry_risk : Expiry.level
}.

(** [df.iloc[-1]] *)
Definition iloc_last (df : list row) : result row :=
  match rev df with
  | r :: _ => ok r
  | [] => raise (IndexError "single positional indexer is out-of-bounds")
  end.

Definition expiry_level_of (days_to_expiry : Z) : Expiry.level :=
  if (days_to_expiry <=? 1)%Z then Expiry.CRITICAL
  else if (days_to_expiry <=? 3)%Z then Expiry.HIGH
  else if (days_to_expiry <=? 7)%Z then Expiry.MEDIUM
  else Expiry.NONE.

(** [now] is the reading of [datetime.now()] used when no
    [current_date] is passed. *)
Definition assess_inventory_risk (now : Z) (product_data : list row)
    (forecast_info : Forecasting.forecast) (current_date : option Z)
    : result assessment :=
  bind (iloc_last product_data) (fun latest =>
    let current_date :=
      match current_date with Some c => c | None => now end in
    let current_inventory := inventory latest in
    let avg_daily_sales := Forecasting.last_7d_avg forecast_info in
    let days_of_stock :=
      match avg_daily_sales with
      | Fin a => if ltb 0 a then inject_Z current_inventory / a else 999
      | NaN => 999
      end in
    let demand_trend := Forecasting.demand_trend_pct forecast_info in
    let days_to_expiry :=
      option_map (fun e => days_between e current_date) (expiry_date latest) in
    let expiry_risk_level :=
      match days_to_expiry with
      | Some d => expiry_level_of d
      | None => Expiry.NONE
      end in
    let '(risk, why) :=
      match expiry_risk_level, days_to_expiry with
      | Expiry.CRITICAL, Some d => (Risk.HIGH_RISK, ImmediateClearance d)
      | _, _ =>
          if ltb 21 days_of_stock && ltb demand_trend (-5)
          then (Risk.HIGH_RISK, Overstocked days_of_stock)
          else if ltb 14 days_of_stock && ltb demand_trend 0
          then (Risk.MEDIUM_RISK, HighInventory days_of_stock)
          else if ltb days_of_stock 3 && ltb 10 demand_trend
          then (Risk.OPPORTUNITY, LowStock days_of_stock)
          else if ltb days_of_stock 7 && ltb 5 demand_trend
          then (Risk.OPPORTUNITY, LowInventory days_of_stock)
          else (Risk.STABLE, Balanced days_of_stock)
      end in
    ok (mk_assessment risk
          (round days_of_stock 1)
          why
          match expiry_risk_level with
          | Expiry.HIGH | Expiry.MEDIUM => days_to_expiry
          | _ => None
          end
          current_inventory
          (fround avg_daily_sales 1)
          (expiry_date latest)
          expiry_risk_level)).

End InventoryRisk.

(** ** [RiskOpportunityEngine.classify_product_v2] *)

Module RiskEngine.

Import Py Frame.

Local Open Scope Z_scope.

(** The entries of the [metrics] dictionary the classifier reads. *)
Record metrics : Type := mk_metrics {
  current_avg : pyfloat;
  trend_7d : pyfloat;
  volatility : pyfloat;
  days_of_stock : pyfloat;
  stockout_risk : pyfloat;
  expiry_date : option Z;
  date : Z
}.

Inductive stockout : Type :=
| IMMINENT
| SOON
| SAFE.

(** The colour, icon and arrow entries of the returned dictionary only
    restate [risk_level] and [trend_7d] for display and are left out;
    [expiry_message] keeps the level and the day count its text
    prints. *)
Record classification : Type := mk_classification {
  risk_level : Risk.level;
  priority : Z;
  risk_score : Z;
  opportunity_score : Z;
  days_of_stock_1d : pyfloat;
  stockout_status : stockout;
  expiry_message : option (Expiry.level * Z);
  recommended_action : string;
  avg_daily_sales : pyfloat;
  expiry_risk : Expiry.level
}.

(** [_get_recommended_action]: the first entry of the category's list. *)
Definition get_recommended_action (category : Risk.level) : string :=
  match category with
  | Risk.HIGH_RISK => "Discount by 15-20% to clear excess stock"
  | Risk.OPPORTUNITY => "Increase inventory to meet demand"
  | Risk.MEDIUM_RISK => "Monitor closely for 7 days"
  | Risk.STABLE => "Maintain current levels"
  end.

(** The expiry check: the level, the points added to [risk_score] and
    the message. *)
Definition expiry_check (m : metrics)
    : Expiry.level * Z * option (Expiry.level * Z) :=
  match expiry_date m with
  | None => (Expiry.NONE, 0, None)
  | Some e =>
      let days_to_expiry := days_between e (date m) in
      if days_to_expiry <=? 1
      then (Expiry.CRITICAL, 100, Some (Expiry.CRITICAL, days_to_expiry))
      else if days_to_expiry <=? 3
      then (Expiry.HIGH, 50, Some (Expiry.HIGH, days_to_expiry))
      else if days_to_expiry <=? 7
      then (Expiry.MEDIUM, 20, Some (Expiry.MEDIUM, days_to_expiry))
      else (Expiry.NONE, 0, Some (Expiry.NONE, days_to_expiry))
  end.

Definition points (cond : bool) (n : Z) : Z := if cond then n else 0.

Definition risk_score_of (m : metrics) : Z :=
  snd (fst (expiry_check m))
  + points (lt (trend_7d m) (-10)%Q) 30
  + points (gt (days_of_stock m) 25%Q) 25
  + points (gt (stockout_risk m) (3 # 10)%Q) 20
  + points (gt (volatility m) (4 # 10)%Q) 15.

Definition opportunity_score_of (m : metrics) (forecast_growth : Q) : Z :=
  points (gt (trend_7d m) 15%Q) 30
  + points (lt (days_of_stock m) 7%Q) 25
  + points (ltb 10%Q forecast_growth) 20
  + points (lt (volatility m) (2 # 10)%Q && gt (trend_7d m) 5%Q) 15.

(** The decision table, with the priority of each row. *)
Definition categorize (risk opportunity : Z) : Risk.level * Z :=
  if (60 <=? risk) && (opportunity <? 30) then (Risk.HIGH_RISK, 1)
  else if (60 <=? opportunity) && (risk <? 30) then (Risk.OPPORTUNITY, 1)
  else if opportunity <? risk then (Risk.MEDIUM_RISK, 2)
  else if risk <? opportunity then (Risk.STABLE, 2)
  else (Risk.STABLE, 3).

Definition classify_product_v2 (m : metrics) (forecast_growth : Q)
    : classification :=
  let '(expiry_risk_level, _, message) := expiry_check m in
  let risk := risk_score_of m in
  let opportunity := opportunity_score_of m forecast_growth in
  let '(category, prio) := categorize risk opportunity in
  let status :=
    if le (days_of_stock m) 3%Q then IMMINENT
    else if le (days_of_stock m) 7%Q then SOON
    else SAFE in
  mk_classification category prio risk opportunity
    (fround (days_of_stock m) 1)
    status
    message
    (get_recommended_action category)
    (fround (current_avg m) 1)
    expiry_risk_level.

End RiskEngine.

(** ** [WhatIfSimulator] *)

Module Simulator.

Import Py.

Local Open Scope Q_scope.

Inductive advice : Type :=
| INCREASE
| DECREASE
| HOLD
| RUN
| MODIFY
| MATCH_PRICE
| MONITOR
| RUN_CAMPAIGN
| REDUCE_COST.

Record price_change : Type := mk_price_change {
  price_change_pct : Q;
  demand_change_pct : Q;
  new_demand : Z;
  forecast_new : Z;
  revenue_change_pct : Q;
  price_recommendation : advice
}.

Record promotion : Type := mk_promotion {
  discount_pct : Q;
  lift_pct : Q;
  predicted_daily_sales : Z;
  revenue_impact : Q;
  is_profitable : bool;
  promotion_recommendation : advice
}.

Record inventory_change : Type := mk_inventory_change {
  stock_change_pct : Q;
  stockout_risk_reduction : Q;
  holding_cost_change : Q;
  lost_sales_risk_pct : Q;
  inventory_recommendation : advice
}.

Record competitor_move : Type := mk_competitor_move {
  competitor_drop_pct : Q;
  demand_impact_pct : Q;
  revenue_impact_pct : Q;
  competitor_recommendation : advice
}.

Record marketing : Type := mk_marketing {
  ad_spend : Q;
  traffic_lift_pct : Q;
  daily_revenue_increase : Q;
  break_even_days : Q;
  marketing_recommendation : advice
}.

Definition default_elasticity : Q := 1.

Definition simulate_price_impact (current_price new_price current_demand
    forecast_demand : Q) (elasticity : option Q) : result price_change :=
  let elasticity :=
    match elasticity with Some e => e | None => default_elasticity end in
  bind (div (new_price - current_price) current_price) (fun ratio =>
    let price_change_pct := ratio * 100 in
    let demand_change_pct := - elasticity * price_change_pct in
    let new_demand := current_demand * (1 + demand_change_pct / 100) in
    let forecast_new := forecast_demand * (1 + demand_change_pct / 100) in
    let current_revenue := current_demand * current_price in
    let new_revenue := new_demand * new_price in
    let revenue_change_pct :=
      if ltb 0 current_revenue
      then (new_revenue - current_revenue) / current_revenue * 100
      else 0 in
    ok (mk_price_change
          (round price_change_pct 1)
          (round demand_change_pct 1)
          (int (Py.max 0 new_demand))
          (int (Py.max 0 forecast_new))
          (round revenue_change_pct 1)
          (if ltb 0 revenue_change_pct then INCREASE
           else if ltb revenue_change_pct (-5) then DECREASE
           else HOLD))).

Definition simulate_promotion (current_price discount_pct : Q)
    (duration_days : Z) (current_daily_sales : Q) : result promotion :=
  let lift_pct := discount_pct * 2 in
  let predicted_daily_sales := current_daily_sales * (1 + lift_pct / 100) in
  let total_sales_units := predicted_daily_sales * inject_Z duration_days in
  let discounted_price := current_price * (1 - discount_pct / 100) in
  let total_revenue := total_sales_units * discounted_price in
  let baseline_revenue :=
    current_daily_sales * inject_Z duration_days * current_price in
  let revenue_change := total_revenue - baseline_revenue in
  ok (mk_promotion
        discount_pct
        (discount_pct * 2)
        (int predicted_daily_sales)
        (round revenue_change 2)
        (ltb 0 revenue_change)
        (if ltb 0 revenue_change then RUN else MODIFY)).

Definition simulate_inventory_change (current_stock_days new_stock_days
    current_demand price : Q) : result inventory_change :=
  bind (div (new_stock_days - current_stock_days) current_stock_days)
    (fun ratio =>
    let stock_change_pct := ratio * 100 in
    let stockout_risk_reduction :=
      if ltb 0 stock_change_pct
      then Py.min 40 (abs stock_change_pct * (8 # 10))
      else 0 in
    let holding_cost_impact :=
      (new_stock_days - current_stock_days) * current_demand * price
      * (1 # 1000) in
    let lost_sales_risk :=
      if ltb new_stock_days 7 && Qle_bool 7 current_stock_days
      then (7 - new_stock_days) * 5
      else 0 in
    ok (mk_inventory_change
          (round stock_change_pct 1)
          (round stockout_risk_reduction 1)
          (round holding_cost_impact 2)
          (round lost_sales_risk 1)
          (if ltb 0 stock_change_pct && ltb 20 stockout_risk_reduction
           then INCREASE
           else if ltb stock_change_pct 0 && ltb 10 holding_cost_impact
           then DECREASE
           else HOLD))).

Definition simulate_competitor_move (current_price competitor_price_drop_pct
    current_demand : Q) (elasticity : option Q) : result competitor_move :=
  let elasticity :=
    match elasticity with Some e => e | None => 1 # 2 end in
  let demand_drop_pct := competitor_price_drop_pct * elasticity in
  ok (mk_competitor_move
        competitor_price_drop_pct
        (- round demand_drop_pct 1)
        (- round demand_drop_pct 1)
        (if ltb 10 demand_drop_pct then MATCH_PRICE else MONITOR)).

Definition simulate_marketing_campaign (current_price current_daily_sales
    ad_spend expected_lift_pct : Q) : result marketing :=
  let new_daily_sales := current_daily_sales * (1 + expected_lift_pct / 100) in
  let daily_revenue_lift :=
    (new_daily_sales - current_daily_sales) * current_price in
  bind (if ltb 0 daily_revenue_lift
        then div ad_spend daily_revenue_lift
        else ok 999)
    (fun break_even_days =>
    ok (mk_marketing
          ad_spend
          expected_lift_pct
          (round daily_revenue_lift 2)
          (round break_even_days 1)
          (if ltb break_even_days 7 then RUN_CAMPAIGN else REDUCE_COST))).

End Simulator.

(** ** [SimulatorService.simulate_global_scenario]: the product sample *)

Module SimulatorService.

(** [products[a:b]] for [0 <= a]. *)
Definition slice {A} (a b : nat) (l : list A) : list A :=
  firstn (b - a) (skipn a l).

(** The segment filter: [products] is [get_all_products()], the sorted
    list of product names. *)
Definition segment_filter (segment : string) (products : list string)
    : list string :=
  let n := List.length products in
  if String.eqb segment "high_risk" then firstn (n / 3) products
  else if String.eqb segment "opportunity"
  then slice (n / 3) (2 * n / 3) products
  else products.

(** [target_products = products[:50]] *)
Definition target_products (segment : string) (products : list string)
    : list string :=
  firstn 50 (segment_filter segment products).

(** The filter as the specification words it: a segment keeps the
    products whose risk classification is the segment's.  [risk_of] is
    the classification the analysis assigns to a product. *)
Definition spec_segment_filter (risk_of : string -> Risk.level)
    (segment : string) (products : list string) : list string :=
  if String.eqb segment "high_risk"
  then filter (fun p => Risk.level_eqb (risk_of p) Risk.HIGH_RISK) products
  else if String.eqb segment "opportunity"
  then filter (fun p => Risk.level_eqb (risk_of p) Risk.OPPORTUNITY) products
  else products.

End SimulatorService.

(** ** What a ledger write amounts to *)

Module Ledger.

Import Database.

(** The database a call of [log_transaction] commits when no statement
    fails, for a product found with id [pid] and inventory [i]; it is
    related to the call by [LedgerFacts.log_transaction_all_or_nothing]. *)
Definition written (today : string) (d : db) (pid i q : Z) (t_type : string)
    : db :=
  let sale := String.eqb t_type "SALE" in
  let change := if sale then - q else q in
  let new_inv := Z.max 0 (i + change) in
  let d3 :=
    upsert_daily_stats pid today (if sale then q else 0) new_inv
      (insert_ledger pid t_type change ("Manual " ++ t_type)%string
         (update_product_inventory new_inv pid d)) in
  if sale
  then mk_db (products d3)
             (fifo_deduct (select_batches pid d) q (inventory_batches d))
             (inventory_ledger d3) (daily_stats d3)
  else d3.

(** The stock held by the batches of a product that hold any: the sum
    [log_transaction]'s FIFO query ranges over. *)
Definition batch_total (pid : Z) (l : list batch_row) : Z :=
  Frame.sumZ (map b_quantity (filter (eligible pid) l)).

(** The key of the UNIQUE(product_id, date) constraint. *)
Definition stats_key (r : stats_row) : Z * string :=
  (s_product_id r, s_date r).


End Ledger.

(** ** [RiskOpportunityEngine.calculate_metrics] *)

Module RiskMetrics.

Import Py Frame.

Local Open Scope Q_scope.

(** [s.mean()] and [s.std()] of a Series of floats. *)
Definition meanF (l : list Q) : pyfloat :=
  match l with
  | [] => NaN
  | _ => Fin (sumQ l / inject_Z (Z.of_nat (List.length l)))
  end.

Definition stdF (l : list Q) : pyfloat :=
  match l with
  | [] | [_] => NaN
  | _ =>
      let m := sumQ l / inject_Z (Z.of_nat (List.length l)) in
      let ss := sumQ (map (fun x => (x - m) * (x - m)) l) in
      Fin (Py.sqrt (ss / inject_Z (Z.of_nat (List.length l) - 1)))
  end.

(** [a / b] for a divisor known to be a positive number. *)
Definition fdiv (a : pyfloat) (b : Q) : pyfloat :=
  match a with
  | Fin q => Fin (q / b)
  | NaN => NaN
  end.

(** [_calculate_trend(data, days)]: the mean of the last [days] sales
    against the mean of the [days] before them, in percent. *)
Definition calculate_trend (s : list Z) (days : nat) : Q :=
  if (List.length s <? days)%nat then 0
  else
    let recent := tail days s in
    let older :=
      if (days * 2 <=? List.length s)%nat
      then firstn days (skipn (List.length s - days * 2) s)
      else firstn days s in
    match older with
    | [] => 0
    | _ =>
        if Qeq_bool (meanQ older) 0 then 0
        else (meanQ recent - meanQ older) / meanQ older * 100
    end.

(** [_calculate_stockout_risk(recent_data)].  The deviation plus
    [1e-6] is positive, so the z-score is a number whenever the
    deviation is one; [min(1, x)] and [max(0, x)] keep their first
    argument when [x] is a NaN. *)
Definition calculate_stockout_risk (recent : list row) : Q :=
  let sales_std := std (map sales recent) in
  let sales_mean := mean (map sales recent) in
  let inventory_mean := mean (map inventory recent) in
  match sales_mean with
  | Fin sm =>
      if Qeq_bool sm 0 then 0
      else
        match sales_std, inventory_mean with
        | Fin sd, Fin im =>
            let z_score := (im - sm) / (sd + (1 # 1000000)) in
            Py.max 0 (Py.min 1 ((1 # 2) - (2 # 10) * z_score))
        | _, _ => Py.max 0 1
        end
  | NaN => Py.max 0 1
  end.

(** The entries of the dictionary beside those the classifier reads. *)
Record metrics_dict : Type := mk_metrics_dict {
  product_of : string;
  trend_30d : Q;
  price_stability : pyfloat;
  core : RiskEngine.metrics
}.

(** [df[col].iloc[0]] and [df[col].iloc[-1]] *)
Definition iloc_first (df : list row) : result row :=
  match df with
  | r :: _ => ok r
  | [] => raise (IndexError "single positional indexer is out-of-bounds")
  end.

Definition calculate_metrics (product_data : list row) : result metrics_dict :=
  let recent := tail 30 product_data in
  bind (InventoryRisk.iloc_last product_data) (fun latest =>
  let sales_mean := mean (map sales recent) in
  let sales_std := std (map sales recent) in
  bind (iloc_first product_data) (fun first =>
  bind (InventoryRisk.iloc_last recent) (fun last_recent =>
  let positive := gt sales_mean 0 in
  let price_mean := meanF (map price recent) in
  ok (mk_metrics_dict
        (product first)
        (calculate_trend (map sales recent) 30)
        (match price_mean with
         | Fin pm =>
             if ltb 0 pm
             then match fdiv (stdF (map price recent)) pm with
                  | Fin v => Fin (1 - v)
                  | NaN => NaN
                  end
             else Fin 1
         | NaN => Fin 1
         end)
        (RiskEngine.mk_metrics
           sales_mean
           (Fin (calculate_trend (map sales recent) 7))
           (match sales_mean with
            | Fin sm => if positive then fdiv sales_std sm else Fin 0
            | NaN => Fin 0
            end)
           (match sales_mean with
            | Fin sm =>
                if positive then Fin (inject_Z (inventory last_recent) / sm)
                else Fin 999
            | NaN => Fin 999
            end)
           (Fin (calculate_stockout_risk recent))
           (expiry_date latest)
           (date latest)))))).

End RiskMetrics.

(** ** [recommend_pricing] *)

Module Pricing.

Import Py Frame.

Local Open Scope Q_scope.

Inductive action : Type :=
| INCREASE
| DECREASE
| HOLD.

(** A numpy quotient: dividing by a zero mean gives an infinity or a
    NaN instead of raising. *)
Inductive npfloat : Type :=
| Number (q : Q)
| Infinity
| NotANumber.

(** The two entries of the [inventory_risk] dictionary the function
    reads; both [assess_inventory_risk] and [classify_product_v2]
    provide them. *)
Record risk_view : Type := mk_risk_view {
  risk_level : Risk.level;
  days_of_stock : pyfloat
}.

Definition of_assessment (a : InventoryRisk.assessment) : risk_view :=
  mk_risk_view (InventoryRisk.risk_level a) (Fin (InventoryRisk.days_of_stock a)).

Definition of_classification (c : RiskEngine.classification) : risk_view :=
  mk_risk_view (RiskEngine.risk_level c) (RiskEngine.days_of_stock_1d c).

Record pricing : Type := mk_pricing {
  pricing_action : action;
  reason : string;
  current_price : Q;
  suggested_price : Q;
  suggested_change_pct : Z;
  price_volatility : npfloat
}.

(** [np.std(a)], the population deviation, and [np.mean(a)] of at
    least two prices. *)
Definition np_mean (l : list Q) : Q :=
  sumQ l / inject_Z (Z.of_nat (List.length l)).

Definition np_std (l : list Q) : Q :=
  let m := np_mean l in
  Py.sqrt (sumQ (map (fun x => (x - m) * (x - m)) l)
           / inject_Z (Z.of_nat (List.length l))).

Definition np_div (a b : Q) : npfloat :=
  if Qeq_bool b 0
  then if Qeq_bool a 0 then NotANumber else Infinity
  else Number (a / b).

Definition np_gt (a : npfloat) (b : Q) : bool :=
  match a with
  | Number q => ltb b q
  | Infinity => true
  | NotANumber => false
  end.

Definition np_round (a : npfloat) (ndigits : nat) : npfloat :=
  match a with
  | Number q => Number (round q ndigits)
  | other => other
  end.

Definition recommend_pricing (product_data : list row)
    (forecast_info : Forecasting.forecast) (inventory_risk : risk_view)
    : result pricing :=
  let price_history := tail 7 (map price product_data) in
  bind (match rev price_history with
        | p :: _ => ok p
        | [] => raise (IndexError "single positional indexer is out-of-bounds")
        end) (fun current_price =>
  let price_volatility :=
    if (1 <? List.length price_history)%nat
    then np_div (np_std price_history) (np_mean price_history)
    else Number 0 in
  let demand_trend := Forecasting.demand_trend_pct forecast_info in
  let risk := risk_level inventory_risk in
  let days := days_of_stock inventory_risk in
  let '(act, why, suggested_change_pct) :=
    if Risk.level_eqb risk Risk.HIGH_RISK && gt days 21
    then (DECREASE,
          "High overstock risk - consider promotional pricing to clear inventory"%string,
          (-10)%Z)
    else if Risk.level_eqb risk Risk.OPPORTUNITY && ltb 15 demand_trend
    then (INCREASE,
          "Strong demand with low inventory - opportunity for margin improvement"%string,
          5%Z)
    else if ltb 10 demand_trend && lt days 10
    then (INCREASE,
          "Growing demand with limited stock - small price increase recommended"%string,
          3%Z)
    else if ltb demand_trend (-10) && gt days 14
    then (DECREASE,
          "Falling demand with excess stock - consider price reduction"%string,
          (-7)%Z)
    else if ltb (Py.abs demand_trend) 5 && gt days 7 && lt days 14
    then (HOLD,
          "Stable market conditions - maintain current pricing"%string, 0%Z)
    else if np_gt price_volatility (15 # 100)
    then (HOLD,
          "Recent price volatility - maintain stability before changing"%string,
          0%Z)
    else (HOLD,
          "Market conditions are balanced - no price change needed"%string,
          0%Z) in
  ok (mk_pricing act why current_price
        (round (current_price * (1 + inject_Z suggested_change_pct / 100)) 2)
        suggested_change_pct
        (np_round price_volatility 3))).

End Pricing.

(** ** [generate_recommendation] *)

Module Recommendations.

Import Py.

Local Open Scope Q_scope.

(** The entries of the [inventory_risk] dictionary the function reads. *)
Record risk_view : Type := mk_risk_view {
  risk_level : Risk.level;
  expiry_risk : Expiry.level;
  days_of_stock : pyfloat
}.

Definition of_assessment (a : InventoryRisk.assessment) : risk_view :=
  mk_risk_view (InventoryRisk.risk_level a) (InventoryRisk.expiry_risk a)
    (Fin (InventoryRisk.days_of_stock a)).

Definition of_classification (c : RiskEngine.classification) : risk_view :=
  mk_risk_view (RiskEngine.risk_level c) (RiskEngine.expiry_risk c)
    (RiskEngine.days_of_stock_1d c).






End Recommendations.

(** ** [analyze_competition] *)

Module Competition.

Import Py.

Local Open Scope Q_scope.



End Competition.

(** ** The analysis of one product *)

Module Analysis.

Import Py Frame.




End Analysis.

(** ** numpy scalars *)

Module Numpy.

Import Py.

Local Open Scope Q_scope.

(** A [numpy.float64].  The services hand the simulator the entries of
    a DataFrame, and on those a division by zero gives an infinity or
    a NaN where a Python float raises.  Zero carries no sign here. *)
Inductive float64 : Type :=
| Real (q : Q)
| Inf
| NegInf
| Nan.

Definition sign (q : Q) : comparison := Qcompare q 0.

(** The infinity of a sign; the sign of zero gives the NaN of [0 * inf]
    and [0 / 0]. *)
Definition signed (c : comparison) : float64 :=
  match c with
  | Gt => Inf
  | Lt => NegInf
  | Eq => Nan
  end.

Definition opp (x : float64) : float64 :=
  match x with
  | Real a => Real (- a)
  | Inf => NegInf
  | NegInf => Inf
  | Nan => Nan
  end.

Definition add (x y : float64) : float64 :=
  match x, y with
  | Real a, Real b => Real (a + b)
  | Nan, _ | _, Nan => Nan
  | Inf, NegInf | NegInf, Inf => Nan
  | Inf, _ | _, Inf => Inf
  | NegInf, _ | _, NegInf => NegInf
  end.

Definition sub (x y : float64) : float64 := add x (opp y).

Definition mul (x y : float64) : float64 :=
  match x, y with
  | Real a, Real b => Real (a * b)
  | Nan, _ | _, Nan => Nan
  | Real a, Inf | Inf, Real a => signed (sign a)
  | Real a, NegInf | NegInf, Real a => signed (CompOpp (sign a))
  | Inf, Inf | NegInf, NegInf => Inf
  | Inf, NegInf | NegInf, Inf => NegInf
  end.

Definition div (x y : float64) : float64 :=
  match x, y with
  | Real a, Real b => if Qeq_bool b 0 then signed (sign a) else Real (a / b)
  | Nan, _ | _, Nan => Nan
  | Real _, Inf | Real _, NegInf => Real 0
  | Inf, Real b => if ltb b 0 then NegInf else Inf
  | NegInf, Real b => if ltb b 0 then Inf else NegInf
  | Inf, Inf | Inf, NegInf | NegInf, Inf | NegInf, NegInf => Nan
  end.

(** [x > q] and [x < q]: a comparison with a NaN is false. *)
Definition gt (x : float64) (q : Q) : bool :=
  match x with
  | Real a => ltb q a
  | Inf => true
  | NegInf | Nan => false
  end.

Definition lt (x : float64) (q : Q) : bool :=
  match x with
  | Real a => ltb a q
  | NegInf => true
  | Inf | Nan => false
  end.

(** [max(0, x)]: the builtin keeps its first argument unless the second
    is greater, so a NaN gives 0. *)
Definition max0 (x : float64) : float64 :=
  if gt x 0 then x else Real 0.

(** [round(x, ndigits)] *)
Definition round (x : float64) (ndigits : nat) : float64 :=
  match x with
  | Real a => Real (Py.round a ndigits)
  | other => other
  end.

(** Equality of floats, [Qeq] on the finite ones. *)
Definition same (x y : float64) : Prop :=
  match x, y with
  | Real a, Real b => a == b
  | Inf, Inf | NegInf, NegInf | Nan, Nan => True
  | _, _ => False
  end.

End Numpy.

(** ** [SimulatorService]: the per-product simulations and the
    store-wide scenario *)

Module StoreSimulation.

Import Py Frame.

Local Open Scope Q_scope.

(** What the body of the scenario loop can raise beside the exceptions
    of the models. *)
Inductive error : Type :=
| Raised (e : exn)
| KeyError (key : string)
| OverflowError
| TypeError.

Definition outcome (A : Type) : Type := (error + A)%type.

Definition done {A} (a : A) : outcome A := inr a.
Definition fail {A} (e : error) : outcome A := inl e.

Definition andthen {A B} (r : outcome A) (k : A -> outcome B) : outcome B :=
  match r with
  | inl e => inl e
  | inr a => k a
  end.

Definition python {A} (r : result A) : outcome A :=
  match r with
  | inl e => inl (Raised e)
  | inr a => inr a
  end.

(** The values of a result dictionary. *)
Inductive value : Type :=
| Str (s : string)
| Float (x : Numpy.float64)
| Int (z : Z)
| Flag (b : bool).

Definition dict : Type := list (string * value).

(** [d[key]] *)
Fixpoint getitem (d : dict) (key : string) : outcome value :=
  match d with
  | [] => fail (KeyError key)
  | (k, v) :: d' => if String.eqb k key then done v else getitem d' key
  end.

(** [d[key] = v] *)
Fixpoint setitem (d : dict) (key : string) (v : value) : dict :=
  match d with
  | [] => [(key, v)]
  | (k, w) :: d' =>
      if String.eqb k key then (k, v) :: d' else (k, w) :: setitem d' key v
  end.

(** A dictionary display [{k1: v1, ..., **rest}]: a later entry replaces
    an earlier one of the same key. *)
Definition literal (items : list (string * value)) : dict :=
  fold_left (fun d kv => setitem d (fst kv) (snd kv)) items [].

(** A value as an operand of [+], [*] and [/] with a float. *)
Definition number (v : value) : outcome Numpy.float64 :=
  match v with
  | Str _ => fail TypeError
  | Float x => done x
  | Int z => done (Numpy.Real (inject_Z z))
  | Flag b => done (Numpy.Real (if b then 1 else 0))
  end.

(** [int(x)] *)
Definition to_int (x : Numpy.float64) : outcome Z :=
  match x with
  | Numpy.Real a => done (int a)
  | Numpy.Inf | Numpy.NegInf => fail OverflowError
  | Numpy.Nan =>
      fail (Raised (ValueError "cannot convert float NaN to integer"))
  end.

Definition advice_name (a : Simulator.advice) : string :=
  match a with
  | Simulator.INCREASE => "INCREASE"
  | Simulator.DECREASE => "DECREASE"
  | Simulator.HOLD => "HOLD"
  | Simulator.RUN => "RUN"
  | Simulator.MODIFY => "MODIFY"
  | Simulator.MATCH_PRICE => "MATCH_PRICE"
  | Simulator.MONITOR => "MONITOR"
  | Simulator.RUN_CAMPAIGN => "RUN_CAMPAIGN"
  | Simulator.REDUCE_COST => "REDUCE_COST"
  end.

(** [WhatIfSimulator.simulate_price_impact] as the service runs it: the
    current price and demand are numpy scalars, so a zero price gives
    non-finite percentages instead of a ZeroDivisionError. *)
Definition price_impact (current_price new_price current_demand
    forecast_demand elasticity : Q) : outcome (list (string * value)) :=
  let price_change_pct :=
    Numpy.mul
      (Numpy.div (Numpy.Real (new_price - current_price))
         (Numpy.Real current_price))
      (Numpy.Real 100) in
  let demand_change_pct :=
    Numpy.mul (Numpy.Real (- elasticity)) price_change_pct in
  let factor :=
    Numpy.add (Numpy.Real 1)
      (Numpy.div demand_change_pct (Numpy.Real 100)) in
  let new_demand := Numpy.mul (Numpy.Real current_demand) factor in
  let forecast_new := Numpy.mul (Numpy.Real forecast_demand) factor in
  let current_revenue := current_demand * current_price in
  let new_revenue := Numpy.mul new_demand (Numpy.Real new_price) in
  let revenue_change_pct :=
    if ltb 0 current_revenue
    then Numpy.mul
           (Numpy.div (Numpy.sub new_revenue (Numpy.Real current_revenue))
              (Numpy.Real current_revenue))
           (Numpy.Real 100)
    else Numpy.Real 0 in
  andthen (to_int (Numpy.max0 new_demand)) (fun new_demand =>
  andthen (to_int (Numpy.max0 forecast_new)) (fun forecast_new =>
  done [("scenario", Str "price_change");
        ("price_change_pct", Float (Numpy.round price_change_pct 1));
        ("demand_change_pct", Float (Numpy.round demand_change_pct 1));
        ("new_demand", Int new_demand);
        ("forecast_new", Int forecast_new);
        ("revenue_change_pct", Float (Numpy.round revenue_change_pct 1));
        ("recommendation",
         Str (if Numpy.gt revenue_change_pct 0 then "INCREASE"
              else if Numpy.lt revenue_change_pct (-5) then "DECREASE"
              else "HOLD"))]%string)).

Definition promotion_items (r : Simulator.promotion)
    : list (string * value) :=
  [("scenario", Str "promotion");
   ("discount_pct", Float (Numpy.Real (Simulator.discount_pct r)));
   ("lift_pct", Float (Numpy.Real (Simulator.lift_pct r)));
   ("predicted_daily_sales", Int (Simulator.predicted_daily_sales r));
   ("revenue_impact", Float (Numpy.Real (Simulator.revenue_impact r)));
   ("is_profitable", Flag (Simulator.is_profitable r));
   ("recommendation",
    Str (advice_name (Simulator.promotion_recommendation r)))]%string.

Definition marketing_items (r : Simulator.marketing)
    : list (string * value) :=
  [("scenario", Str "marketing");
   ("ad_spend", Float (Numpy.Real (Simulator.ad_spend r)));
   ("traffic_lift_pct", Float (Numpy.Real (Simulator.traffic_lift_pct r)));
   ("daily_revenue_increase",
    Float (Numpy.Real (Simulator.daily_revenue_increase r)));
   ("break_even_days", Float (Numpy.Real (Simulator.break_even_days r)));
   ("recommendation",
    Str (advice_name (Simulator.marketing_recommendation r)))]%string.

Section Service.

(** [self.data_service.get_product_data]: the rows of a product in date
    order, or a ValueError for a name it does not know.  The frame is
    cached, so two calls for one name give the same rows. *)
Variable get_product_data : string -> result (list row).

(** [product_data['sales'].tail(7).mean()] *)
Definition recent_demand (product_data : list row) : Q :=
  meanQ (tail 7 (map sales product_data)).

Definition simulate_price_change (product_name : string) (new_price : Q)
    : outcome dict :=
  andthen (python (get_product_data product_name)) (fun product_data =>
  andthen (python (InventoryRisk.iloc_last product_data)) (fun latest =>
  let current_price := price latest in
  let current_demand := recent_demand product_data in
  andthen (python (Forecasting.forecast_demand product_data))
    (fun forecast_info =>
  let forecast_demand :=
    inject_Z (sumZ (Forecasting.forecast_days forecast_info)) / 7 in
  andthen (price_impact current_price new_price current_demand
             forecast_demand (12 # 10)) (fun result =>
  done (literal
          ([("product_name", Str product_name);
            ("current_price", Float (Numpy.Real current_price));
            ("new_price", Float (Numpy.Real new_price))]%string
           ++ result)))))).

Definition simulate_promotion (product_name : string) (discount_pct : Q)
    (duration_days : Z) : outcome dict :=
  andthen (python (get_product_data product_name)) (fun product_data =>
  andthen (python (InventoryRisk.iloc_last product_data)) (fun latest =>
  let current_price := price latest in
  let current_daily_sales := recent_demand product_data in
  andthen (python (Simulator.simulate_promotion current_price discount_pct
                     duration_days current_daily_sales)) (fun result =>
  done (literal
          ([("product_name", Str product_name);
            ("current_price", Float (Numpy.Real current_price))]%string
           ++ promotion_items result))))).

Definition simulate_marketing_campaign (product_name : string)
    (ad_spend expected_lift_pct : Q) : outcome dict :=
  andthen (python (get_product_data product_name)) (fun product_data =>
  andthen (python (InventoryRisk.iloc_last product_data)) (fun latest =>
  let current_price := price latest in
  let current_daily_sales := recent_demand product_data in
  andthen (python (Simulator.simulate_marketing_campaign current_price
                     current_daily_sales ad_spend expected_lift_pct))
    (fun result =>
  done (literal
          (("product_name", Str product_name)%string
           :: marketing_items result))))).

(** The running totals of [simulate_global_scenario]. *)
Record totals : Type := mk_totals {
  total_rev_delta : Numpy.float64;
  total_rev_base : Numpy.float64;
  total_demand_delta : Numpy.float64;
  total_demand_base : Numpy.float64;
  marketing_daily_lift : Numpy.float64
}.

Definition no_totals : totals :=
  mk_totals (Numpy.Real 0) (Numpy.Real 0) (Numpy.Real 0) (Numpy.Real 0)
    (Numpy.Real 0).

Definition add_rev_delta (x : Numpy.float64) (t : totals) : totals :=
  mk_totals (Numpy.add (total_rev_delta t) x) (total_rev_base t)
    (total_demand_delta t) (total_demand_base t) (marketing_daily_lift t).

Definition add_rev_base (x : Numpy.float64) (t : totals) : totals :=
  mk_totals (total_rev_delta t) (Numpy.add (total_rev_base t) x)
    (total_demand_delta t) (total_demand_base t) (marketing_daily_lift t).

Definition add_demand_delta (x : Numpy.float64) (t : totals) : totals :=
  mk_totals (total_rev_delta t) (total_rev_base t)
    (Numpy.add (total_demand_delta t) x) (total_demand_base t)
    (marketing_daily_lift t).

Definition add_demand_base (x : Numpy.float64) (t : totals) : totals :=
  mk_totals (total_rev_delta t) (total_rev_base t) (total_demand_delta t)
    (Numpy.add (total_demand_base t) x) (marketing_daily_lift t).

Definition add_daily_lift (x : Numpy.float64) (t : totals) : totals :=
  mk_totals (total_rev_delta t) (total_rev_base t) (total_demand_delta t)
    (total_demand_base t) (Numpy.add (marketing_daily_lift t) x).

(** One statement of a [try] body whose handler is [continue]: when it
    raises, the product is left with the totals as they stand. *)
Definition attempt {A} (r : outcome A) (t : totals) (k : A -> totals)
    : totals :=
  match r with
  | inl _ => t
  | inr a => k a
  end.

(** The query parameters after [float(params.get(key, 0))] and
    [int(params.get('duration_days', 1))]: a finite number, or the
    ValueError of a text that is no number.  (The texts [inf] and
    [nan], which [float] reads as well, are left out.) *)
Record params : Type := mk_params {
  segment : string;
  pct_change : outcome Q;
  discount_pct : outcome Q;
  duration_days : outcome Z;
  ad_spend : outcome Q;
  lift_pct : outcome Q
}.

(** [res[key]] as a number. *)
Definition entry (res : dict) (key : string) : outcome Numpy.float64 :=
  andthen (getitem res key) number.

Definition price_change_step (ps : params) (p : string) (t : totals)
    : totals :=
  attempt (pct_change ps) t (fun pct =>
  attempt (python (get_product_data p)) t (fun p_data =>
  attempt (python (InventoryRisk.iloc_last p_data)) t (fun latest =>
  let curr_price := price latest in
  let new_price := curr_price * (1 + pct / 100) in
  attempt (simulate_price_change p new_price) t (fun res =>
  attempt (entry res "current_demand") t (fun current_demand =>
  attempt (entry res "current_price") t (fun current_price =>
  let base_rev :=
    Numpy.mul (Numpy.mul current_demand current_price) (Numpy.Real 30) in
  attempt (entry res "projected_demand") t (fun projected_demand =>
  attempt (entry res "new_price") t (fun new_price =>
  let new_rev :=
    Numpy.mul (Numpy.mul projected_demand new_price) (Numpy.Real 30) in
  let t := add_rev_base base_rev t in
  let t := add_rev_delta (Numpy.sub new_rev base_rev) t in
  let t :=
    add_demand_base (Numpy.mul current_demand (Numpy.Real 30)) t in
  add_demand_delta
    (Numpy.mul (Numpy.sub projected_demand current_demand) (Numpy.Real 30))
    t)))))))).

Definition promotion_step (ps : params) (p : string) (t : totals)
    : totals :=
  attempt (discount_pct ps) t (fun discount_pct =>
  attempt (duration_days ps) t (fun duration =>
  attempt (simulate_promotion p discount_pct duration) t (fun res =>
  attempt (entry res "revenue_impact") t (fun impact =>
  let t := add_rev_delta impact t in
  attempt (python (get_product_data p)) t (fun p_data =>
  let daily := recent_demand p_data in
  attempt (python (InventoryRisk.iloc_last p_data)) t (fun latest =>
  let price := price latest in
  let t :=
    add_rev_base (Numpy.Real (daily * price * inject_Z duration)) t in
  let base_demand := daily * inject_Z duration in
  attempt (entry res "lift_pct") t (fun lift_pct =>
  let lift :=
    Numpy.mul (Numpy.div lift_pct (Numpy.Real 100))
      (Numpy.Real base_demand) in
  let t := add_demand_base (Numpy.Real base_demand) t in
  add_demand_delta lift t))))))).

Definition marketing_step (ps : params) (p : string) (t : totals)
    : totals :=
  attempt (ad_spend ps) t (fun _ =>
  attempt (lift_pct ps) t (fun lift_pct =>
  attempt (simulate_marketing_campaign p 0 lift_pct) t (fun res =>
  attempt (entry res "daily_revenue_increase") t (fun increase =>
  add_daily_lift increase t)))).

(** The body of [for p in target_products]. *)
Definition scenario_step (scenario : string) (ps : params) (t : totals)
    (p : string) : totals :=
  if String.eqb scenario "price_change" then price_change_step ps p t
  else if String.eqb scenario "promotion" then promotion_step ps p t
  else if String.eqb scenario "marketing" then marketing_step ps p t
  else t.

Inductive verdict : Type :=
| POSITIVE
| NEGATIVE.

Record summary : Type := mk_summary {
  total_revenue_change : Numpy.float64;
  revenue_change_pct : Numpy.float64;
  demand_change_pct : Numpy.float64;
  net_profit_impact : option Numpy.float64;
  action : verdict
}.

Record report : Type := mk_report {
  products_impacted : nat;
  summary_of : summary
}.

(** [products] is [self.data_service.get_all_products()]. *)
Definition simulate_global_scenario (scenario : string) (ps : params)
    (products : list string) : outcome report :=
  let target_products :=
    SimulatorService.target_products (segment ps) products in
  let t := fold_left (scenario_step scenario ps) target_products no_totals in
  andthen
    (if String.eqb scenario "marketing"
     then
       andthen (ad_spend ps) (fun ad_spend =>
       let total_rev_delta :=
         Numpy.mul (marketing_daily_lift t) (Numpy.Real 30) in
       let net_profit_impact :=
         Numpy.sub total_rev_delta (Numpy.Real ad_spend) in
       andthen (lift_pct ps) (fun lift_pct =>
       done (mk_summary
               total_rev_delta
               (Numpy.round
                  (Numpy.mul
                     (Numpy.div total_rev_delta
                        (Numpy.Real (if ltb 0 ad_spend then ad_spend else 1)))
                     (Numpy.Real 100)) 1)
               (Numpy.Real lift_pct)
               (Some net_profit_impact)
               (if Numpy.gt net_profit_impact 0 then POSITIVE
                else NEGATIVE))))
     else
       let rev_pct :=
         if Numpy.gt (total_rev_base t) 0
         then Numpy.mul (Numpy.div (total_rev_delta t) (total_rev_base t))
                (Numpy.Real 100)
         else Numpy.Real 0 in
       let demand_pct :=
         if Numpy.gt (total_demand_base t) 0
         then Numpy.mul
                (Numpy.div (total_demand_delta t) (total_demand_base t))
                (Numpy.Real 100)
         else Numpy.Real 0 in
       done (mk_summary
               (Numpy.round (total_rev_delta t) 2)
               (Numpy.round rev_pct 1)
               (Numpy.round demand_pct 1)
               None
               (if Numpy.gt (total_rev_delta t) 0 then POSITIVE
                else NEGATIVE)))
    (fun s => done (mk_report (List.length target_products) s)).

(** What one product adds to the totals of a scenario: the entry of
    its own simulation, and nothing when the product has no rows. *)
Definition promotion_impact (discount_pct : Q) (duration : Z) (p : string)
    : Q :=
  match get_product_data p with
  | inr product_data =>
      match InventoryRisk.iloc_last product_data with
      | inr latest =>
          let daily := recent_demand product_data in
          round
            (daily * (1 + discount_pct * 2 / 100) * inject_Z duration
             * (price latest * (1 - discount_pct / 100))
             - daily * inject_Z duration * price latest) 2
      | inl _ => 0
      end
  | inl _ => 0
  end.

Definition marketing_lift (lift_pct : Q) (p : string) : Q :=
  match get_product_data p with
  | inr product_data =>
      match InventoryRisk.iloc_last product_data with
      | inr latest =>
          let daily := recent_demand product_data in
          round ((daily * (1 + lift_pct / 100) - daily) * price latest) 2
      | inl _ => 0
      end
  | inl _ => 0
  end.

End Service.

End StoreSimulation.

(** ** A small store, used to run the definitions *)

Module Samples.

Import Database.

Definition milk : product_row := mk_product 1 "Milk" "Dairy" (5 # 2) 5.
Definition pasta : product_row := mk_product 2 "Pasta" "Grocery" (6 # 5) 40.

Definition milk_late : batch_row :=
  mk_batch 1 1 3 (Text "2025-01-10") (Text "2025-01-01").
Definition milk_early : batch_row :=
  mk_batch 2 1 2 (Text "2025-01-05") (Text "2025-01-02").
Definition pasta_stock : batch_row :=
  mk_batch 3 2 40 Null (Text "2025-01-01").

Definition store : db :=
  mk_db [milk; pasta] [milk_late; milk_early; pasta_stock] [] [].



(** SQLite refuses the third statement of the call, the ledger insert. *)
Definition ledger_insert_fails : fault_plan :=
  fun n => if (n =? 2)%nat then Some "database is locked"%string else None.

(** Three days of sales: 2, 3 and 4 units. *)
Definition day (n sold stock : Z) : Frame.row :=
  Frame.mk_row "Milk" "Dairy" (n * Frame.seconds_per_day) sold stock (5 # 2)
    None.

Definition three_days : list Frame.row := [day 0 2 30; day 1 3 20; day 2 4 10].

(** A forecast whose seven-day average is 3 units a day. *)
Definition three_a_day : Forecasting.forecast :=
  Forecasting.mk_forecast [3; 3; 3; 3; 3; 3; 3] 0 1 Forecasting.HIGH
    (Py.Fin 3).

(** A product that expires the next day while its sales rise by 20%
    a week. *)
Definition expiring_but_selling : RiskEngine.metrics :=
  RiskEngine.mk_metrics (Py.Fin 12) (Py.Fin 20) (Py.Fin (3 # 10))
    (Py.Fin 10) (Py.Fin 0) (Some Frame.seconds_per_day) 0.

(** A catalogue of three products of which only the second is at high
    risk. *)
Definition catalogue : list string := ["Apples"; "Bread"; "Cheese"]%string.

Definition catalogue_risk (p : string) : Risk.level :=
  if String.eqb p "Bread" then Risk.HIGH_RISK
  else if String.eqb p "Cheese" then Risk.OPPORTUNITY
  else Risk.STABLE.

(** A day's row of a product that expires the next day. *)
Definition last_day_before_expiry : Frame.row :=
  Frame.mk_row "Milk" "Dairy" 0 5 100 (5 # 2) (Some Frame.seconds_per_day).

(** Falling sales, long stock, volatile demand and a likely stock-out,
    one day from expiry. *)
Definition every_risk_at_once : RiskEngine.metrics :=
  RiskEngine.mk_metrics (Py.Fin 2) (Py.Fin (-20)) (Py.Fin (1 # 2))
    (Py.Fin 40) (Py.Fin (1 # 2)) (Some Frame.seconds_per_day) 0.

(** A week in which nothing was sold. *)
Definition idle_week : list Frame.row :=
  map (fun n => day n 0 50) [0; 1; 2; 3; 4; 5; 6; 7].



(** A data service that knows two products, and a catalogue that lists
    a third one without rows. *)
Definition shelf (name : string) : Py.result (list Frame.row) :=
  if String.eqb name "Milk" then Py.ok three_days
  else if String.eqb name "Pasta"
  then Py.ok [Frame.mk_row "Pasta" "Grocery" 0 10 40 (6 # 5) None]
  else Py.raise
         (Py.ValueError ("Product '" ++ name ++ "' not found in data")).

Definition shelf_names : list string := ["Milk"; "Pasta"; "Rice"]%string.


Definition campaign : StoreSimulation.params :=
  StoreSimulation.mk_params "all" (inr 0%Q) (inr 0%Q) (inr 1)
    (inr 100%Q) (inr 5%Q).

End Samples.

(** * Properties *)

(** ** Python arithmetic *)

Module PyFacts.

Import Py.

Local Open Scope Q_scope.

Lemma ltb_lt (a b : Q) : ltb a b = true <-> a < b.
Proof.
  unfold ltb. rewrite negb_true_iff.
  split.
  - intros H. apply Qnot_le_lt. intros Hle.
    apply Qle_bool_iff in Hle. congruence.
  - intros H. destruct (Qle_bool b a) eqn:E; [| reflexivity].
    apply Qle_bool_iff in E. lra.
Qed.

Lemma ltb_ge (a b : Q) : ltb a b = false <-> b <= a.
Proof.
  unfold ltb. rewrite negb_false_iff. apply Qle_bool_iff.
Qed.



Lemma div_nonzero (a b : Q) : ~ b == 0 -> div a b = ok (a / b).
Proof.
  intros Hb. unfold div.
  destruct (Qeq_bool b 0) eqn:E; [| reflexivity].
  apply Qeq_bool_iff in E. contradiction.
Qed.


(** *** Rounding *)

Lemma floor_unique (x : Q) (k : Z) :
  inject_Z k <= x -> x < inject_Z (k + 1) -> Qfloor x = k.
Proof.
  intros Hle Hlt.
  pose proof (Qfloor_le x) as H1. pose proof (Qlt_floor x) as H2.
  assert (Ha : (Qfloor x < k + 1)%Z).
  { rewrite Zlt_Qlt. lra. }
  assert (Hb : (k < Qfloor x + 1)%Z).
  { rewrite Zlt_Qlt. lra. }
  lia.
Qed.

Lemma round_half_even_comp (x y : Q) :
  x == y -> round_half_even x = round_half_even y.
Proof.
  intros H. unfold round_half_even.
  rewrite (Qfloor_comp x y H).
  assert (Hc : Qcompare (x - inject_Z (Qfloor y)) (1 # 2)
               = Qcompare (y - inject_Z (Qfloor y)) (1 # 2)).
  { apply Qcompare_comp; [rewrite H; reflexivity | reflexivity]. }
  now rewrite Hc.
Qed.

Lemma round_half_even_ge_floor (x : Q) : (Qfloor x <= round_half_even x)%Z.
Proof.
  unfold round_half_even.
  destruct (Qcompare _ _); [destruct (Z.even _) | |]; lia.
Qed.

Lemma round_half_even_lower (x : Q) (k : Z) :
  inject_Z k <= x -> (k <= round_half_even x)%Z.
Proof.
  intros H. pose proof (round_half_even_ge_floor x) as Hf.
  pose proof (Qfloor_resp_le _ _ H) as Hk. rewrite Qfloor_Z in Hk. lia.
Qed.

Ltac push_inject :=
  repeat rewrite inject_Z_plus in *;
  repeat rewrite inject_Z_opp in *;
  change (inject_Z 1) with 1 in *;
  change (inject_Z (-1)) with (- (1)) in *.

Lemma floor_opp_integer (x : Q) :
  x == inject_Z (Qfloor x) -> Qfloor (- x) = (- Qfloor x)%Z.
Proof.
  intros Hx. apply floor_unique; push_inject; lra.
Qed.

Lemma floor_opp_fraction (x : Q) :
  inject_Z (Qfloor x) < x -> Qfloor (- x) = (- Qfloor x - 1)%Z.
Proof.
  intros Hx. pose proof (Qlt_floor x) as Hlt.
  apply floor_unique; unfold Z.sub; push_inject; lra.
Qed.

(** Rounding to even is symmetric about zero. *)
Lemma round_half_even_opp (x : Q) :
  round_half_even (- x) = (- round_half_even x)%Z.
Proof.
  pose proof (Qfloor_le x) as Hle. pose proof (Qlt_floor x) as Hlt.
  destruct (Qlt_le_dec (inject_Z (Qfloor x)) x) as [Hstrict | Hint].
  - unfold round_half_even. rewrite (floor_opp_fraction x Hstrict).
    set (f := Qfloor x) in *.
    assert (Hfrac : - x - inject_Z (- f - 1) == 1 - (x - inject_Z f)).
    { unfold Z.sub. push_inject. ring. }
    rewrite (Qcompare_comp _ _ Hfrac _ _ (Qeq_refl (1 # 2))).
    destruct (Qcompare_spec (x - inject_Z f) (1 # 2)) as [He | Hl | Hgt];
      destruct (Qcompare_spec (1 - (x - inject_Z f)) (1 # 2))
        as [He' | Hl' | Hgt']; try lra; try lia.
    replace (- f - 1)%Z with (- (f + 1))%Z by lia.
    rewrite Z.even_opp, Z.even_add. simpl.
    destruct (Z.even f); simpl; lia.
  - assert (Hx : x == inject_Z (Qfloor x)) by lra.
    unfold round_half_even. rewrite (floor_opp_integer x Hx).
    set (f := Qfloor x) in *.
    assert (Hfrac : - x - inject_Z (- f) == x - inject_Z f).
    { push_inject. lra. }
    rewrite (Qcompare_comp _ _ Hfrac _ _ (Qeq_refl (1 # 2))).
    destruct (Qcompare_spec (x - inject_Z f) (1 # 2)) as [He | Hl | Hgt];
      try lra; try lia.
Qed.

Lemma scale_positive (n : nat) : 0 < inject_Z (10 ^ Z.of_nat n).
Proof.
  change 0 with (inject_Z 0). rewrite <- Zlt_Qlt.
  apply Z.pow_pos_nonneg; lia.
Qed.

Lemma round_comp (x y : Q) (n : nat) : x == y -> round x n == round y n.
Proof.
  intros H. unfold round.
  rewrite (round_half_even_comp (x * inject_Z (10 ^ Z.of_nat n))
             (y * inject_Z (10 ^ Z.of_nat n))); [reflexivity |].
  now rewrite H.
Qed.

Lemma round_opp (x : Q) (n : nat) : round (- x) n == - round x n.
Proof.
  unfold round. pose proof (scale_positive n) as Hs.
  rewrite (round_half_even_comp (- x * inject_Z (10 ^ Z.of_nat n))
             (- (x * inject_Z (10 ^ Z.of_nat n)))) by ring.
  rewrite round_half_even_opp, inject_Z_opp.
  field. lra.
Qed.

(** Rounding does not go below a bound that is itself a multiple of the
    rounding step. *)
Lemma round_lower (x : Q) (n : nat) (k : Z) :
  inject_Z k / inject_Z (10 ^ Z.of_nat n) <= x ->
  inject_Z k / inject_Z (10 ^ Z.of_nat n) <= round x n.
Proof.
  intros H. unfold round. pose proof (scale_positive n) as Hs.
  set (s := inject_Z (10 ^ Z.of_nat n)) in *.
  assert (Hk : inject_Z k <= x * s).
  { setoid_replace (inject_Z k) with (inject_Z k / s * s) by (field; lra).
    apply Qmult_le_compat_r; lra. }
  apply round_half_even_lower in Hk.
  rewrite Zle_Qle in Hk.
  unfold Qdiv. apply Qmult_le_compat_r; [exact Hk |].
  apply Qinv_le_0_compat. lra.
Qed.



End PyFacts.

(** ** The ledger write *)

Module DatabaseFacts.

Import Py Database.

(** *** Bytewise order of TEXT values *)





Lemma number_leb_total (x y : Q) : Qle_bool x y = true \/ Qle_bool y x = true.
Proof.
  rewrite !Qle_bool_iff.
  destruct (Qlt_le_dec x y) as [H | H]; [left; now apply Qlt_le_weak | now right].
Qed.


Lemma same_class_leb_total (a b : value) :
  rank a = rank b ->
  Qle_bool (number_of a) (number_of b)
  && String.leb (bytes_of a) (bytes_of b) = true
  \/ Qle_bool (number_of b) (number_of a)
     && String.leb (bytes_of b) (bytes_of a) = true.
Proof.
  intros Hrank.
  destruct (number_leb_total (number_of a) (number_of b)) as [Hn | Hn];
    destruct (String.leb_total (bytes_of a) (bytes_of b)) as [Hs | Hs];
    try (left; rewrite Hn, Hs; reflexivity);
    try (right; rewrite Hn, Hs; reflexivity);
    destruct a as [| z | x | [|] | s | s], b as [| z' | x' | [|] | t | t];
    try discriminate Hrank;
    cbn [number_of bytes_of] in *;
    try (left; rewrite Hn; reflexivity);
    try (right; rewrite Hn; reflexivity);
    try (left; rewrite Hs; reflexivity);
    try (right; rewrite Hs; reflexivity).
Qed.

Lemma expiry_leb_total (a b : value) :
  expiry_leb a b = true \/ expiry_leb b a = true.
Proof.
  unfold expiry_leb. rewrite (Z.compare_antisym (rank a) (rank b)).
  destruct (Z.compare (rank a) (rank b)) eqn:E; simpl; auto.
  apply Z.compare_eq in E. now apply same_class_leb_total.
Qed.


Lemma expiry_lt_leb (a b : value) :
  expiry_lt a b -> expiry_leb a b = true.
Proof.
  unfold expiry_lt. intros H.
  destruct (expiry_leb_total a b) as [Hab | Hba]; [exact Hab | congruence].
Qed.

(** *** [ORDER BY expiry_date ASC] sorts and keeps the rows *)

Lemma insert_by_expiry_perm (b : batch_row) (l : list batch_row) :
  Permutation (b :: l) (insert_by_expiry b l).
Proof.
  induction l as [| x l IH]; simpl.
  - apply Permutation_refl.
  - destruct (expiry_leb (b_expiry_date b) (b_expiry_date x)).
    + apply Permutation_refl.
    + eapply Permutation_trans; [apply perm_swap |].
      now apply perm_skip.
Qed.

Lemma order_by_expiry_perm (l : list batch_row) :
  Permutation l (order_by_expiry l).
Proof.
  induction l as [| b l IH]; simpl.
  - apply Permutation_refl.
  - eapply Permutation_trans; [| apply insert_by_expiry_perm].
    now apply perm_skip.
Qed.




(** *** The loop on the table *)


Lemma take_zero (b : batch_row) : take 0 b = b.
Proof. destruct b; unfold take; simpl. now rewrite Z.sub_0_r. Qed.

Lemma take_take (x y : Z) (b : batch_row) :
  take y (take x b) = take (x + y) b.
Proof. unfold take; simpl. f_equal. lia. Qed.

(** The loop subtracts from every row what [deducted] counts for its
    id. *)
Lemma fifo_deduct_spec (bs : list (Z * Z)) :
  forall (rem : Z) (l : list batch_row),
    fifo_deduct bs rem l = map (fun b => take (deducted bs rem (b_id b)) b) l.
Proof.
  induction bs as [| [bid bq] bs IH]; intros rem l; simpl.
  - rewrite <- (map_id l) at 1. apply map_ext. intros b. now rewrite take_zero.
  - destruct (rem <=? 0).
    + rewrite <- (map_id l) at 1. apply map_ext. intros b.
      now rewrite take_zero.
    + rewrite IH. unfold deduct_batch. rewrite map_map. apply map_ext.
      intros b. destruct (b_id b =? bid) eqn:E.
      * apply Z.eqb_eq in E. rewrite Z.eqb_sym, (proj2 (Z.eqb_eq _ _) E).
        simpl. apply take_take.
      * rewrite Z.eqb_sym, E. simpl. reflexivity.
Qed.

Lemma deducted_nonneg (bs : list (Z * Z)) :
  forall rem bid,
    Forall (fun p => 0 < snd p) bs -> 0 <= deducted bs rem bid.
Proof.
  induction bs as [| [b q] bs IH]; intros rem bid Hpos; simpl; [lia |].
  inversion Hpos as [| ? ? Hq Hrest]; subst. simpl in Hq.
  destruct (rem <=? 0) eqn:E; [lia |].
  apply Z.leb_gt in E.
  specialize (IH (rem - Z.min q rem) bid Hrest).
  destruct (b =? bid); lia.
Qed.


Lemma deducted_absent (bs : list (Z * Z)) :
  forall rem bid, ~ In bid (map fst bs) -> deducted bs rem bid = 0.
Proof.
  induction bs as [| [b q] bs IH]; intros rem bid Hnot; simpl; [reflexivity |].
  simpl in Hnot.
  destruct (rem <=? 0); [reflexivity |].
  destruct (b =? bid) eqn:E.
  - apply Z.eqb_eq in E. tauto.
  - rewrite IH; [lia | tauto].
Qed.

(** No batch gives more than it holds. *)
Lemma deducted_le (bs : list (Z * Z)) :
  forall rem bid q,
    NoDup (map fst bs) -> Forall (fun p => 0 < snd p) bs ->
    In (bid, q) bs -> deducted bs rem bid <= q.
Proof.
  induction bs as [| [b q'] bs IH]; intros rem bid q Hnd Hpos Hin; simpl;
    [contradiction |].
  inversion Hnd as [| ? ? Hnotin Hnd']; subst.
  inversion Hpos as [| ? ? Hq Hrest]; subst. simpl in Hq.
  destruct (rem <=? 0) eqn:E.
  - destruct Hin as [Heq | Hin].
    + inversion Heq; subst. lia.
    + pose proof (Forall_forall (fun p => 0 < snd p) bs) as [F _].
      specialize (F Hrest _ Hin). simpl in F. lia.
  - destruct Hin as [Heq | Hin].
    + inversion Heq; subst. rewrite Z.eqb_refl.
      rewrite deducted_absent by exact Hnotin. lia.
    + destruct (b =? bid) eqn:Eb.
      * apply Z.eqb_eq in Eb. subst b. exfalso. apply Hnotin.
        apply in_map_iff. now exists (bid, q).
      * specialize (IH (rem - Z.min q' rem) bid q Hnd' Hrest Hin). lia.
Qed.

(** *** Runs on a connection *)

Section Runs.

Variable faults : fault_plan.

Local Open Scope db_scope.

Lemma traced_ret {A} (a : A) : traced faults (ret a).
Proof.
  intros c r c' H. unfold ret in H. inversion H; subst. simpl.
  repeat split; try lia; intros; try lia; discriminate.
Qed.

Lemma traced_query {A} (q : db -> A) : traced faults (query faults q).
Proof.
  intros c r c' H. unfold query in H.
  destruct (faults (executed c)) as [msg |] eqn:E; inversion H; subst; simpl.
  - repeat split; try lia.
    intros e He. inversion He; subst. exists msg.
    repeat split; try lia. now rewrite Nat.sub_0_r.
  - repeat split; try lia; [| discriminate].
    intros j Hj. assert (j = executed c) by lia. now subst.
Qed.

Lemma traced_execute (w : db -> db) : traced faults (execute faults w).
Proof.
  intros c r c' H. unfold execute in H.
  destruct (faults (executed c)) as [msg |] eqn:E; inversion H; subst; simpl.
  - repeat split; try lia.
    intros e He. inversion He; subst. exists msg.
    repeat split; try lia. now rewrite Nat.sub_0_r.
  - repeat split; try lia; [| discriminate].
    intros j Hj. assert (j = executed c) by lia. now subst.
Qed.

Lemma traced_commit : traced faults (commit faults).
Proof.
  intros c r c' H. unfold commit in H.
  destruct (faults (executed c)) as [msg |] eqn:E; inversion H; subst; simpl.
  - repeat split; try lia.
    intros e He. inversion He; subst. exists msg.
    repeat split; try lia. now rewrite Nat.sub_0_r.
  - repeat split; try lia; [| discriminate].
    intros j Hj. assert (j = executed c) by lia. now subst.
Qed.

Lemma traced_bind {A B} (m : M A) (k : A -> M B) :
  traced faults m -> (forall a, traced faults (k a)) ->
  traced faults (mbind m k).
Proof.
  intros Hm Hk c r c' H. unfold mbind in H.
  destruct (m c) as [[e | a] c1] eqn:Em.
  - inversion H; subst.
    destruct (Hm _ _ _ Em) as (Hle1 & Hnone1 & Hcause1).
    repeat split; [exact Hle1 | exact Hnone1 |].
    intros e' He'. inversion He'; subst. now apply Hcause1.
  - destruct (Hm _ _ _ Em) as (Hle1 & Hnone1 & _).
    destruct (Hk a _ _ _ H) as (Hle2 & Hnone2 & Hcause2).
    simpl in Hnone1. repeat split; try lia.
    + intros j Hj.
      destruct (Nat.lt_ge_cases j (executed c1)) as [Hlt | Hge].
      * apply Hnone1. lia.
      * apply Hnone2. lia.
    + intros e He. destruct (Hcause2 e He) as (msg & -> & Hlt & Hf).
      exists msg. repeat split; try lia. exact Hf.
Qed.

Lemma traced_fifo_loop (bs : list (Z * Z)) :
  forall rem, traced faults (fifo_loop faults bs rem).
Proof.
  induction bs as [| [bid bq] bs IH]; intros rem; simpl.
  - apply traced_ret.
  - destruct (rem <=? 0); [apply traced_ret |].
    apply traced_bind; [apply traced_execute | intros _; apply IH].
Qed.

Lemma quiet_ret {A} (a : A) : quiet (ret a).
Proof. intros c r c' H. unfold ret in H. now inversion H. Qed.

Lemma quiet_query {A} (q : db -> A) : quiet (query faults q).
Proof.
  intros c r c' H. unfold query in H.
  destruct (faults (executed c)); inversion H; reflexivity.
Qed.

Lemma quiet_execute (w : db -> db) : quiet (execute faults w).
Proof.
  intros c r c' H. unfold execute in H.
  destruct (faults (executed c)); inversion H; reflexivity.
Qed.

Lemma quiet_bind {A B} (m : M A) (k : A -> M B) :
  quiet m -> (forall a, quiet (k a)) -> quiet (mbind m k).
Proof.
  intros Hm Hk c r c' H. unfold mbind in H.
  destruct (m c) as [[e | a] c1] eqn:Em.
  - inversion H; subst. exact (Hm _ _ _ Em).
  - rewrite (Hk a _ _ _ H). exact (Hm _ _ _ Em).
Qed.

Lemma quiet_fifo_loop (bs : list (Z * Z)) :
  forall rem, quiet (fifo_loop faults bs rem).
Proof.
  induction bs as [| [bid bq] bs IH]; intros rem; simpl.
  - apply quiet_ret.
  - destruct (rem <=? 0); [apply quiet_ret |].
    apply quiet_bind; [apply quiet_execute | intros _; apply IH].
Qed.

Lemma safe_of_quiet {A} (m : M A) : quiet m -> safe m.
Proof. intros Hq c e c' H. exact (Hq _ _ _ H). Qed.

Lemma safe_bind {A B} (m : M A) (k : A -> M B) :
  quiet m -> (forall a, safe (k a)) -> safe (mbind m k).
Proof.
  intros Hm Hk c e c' H. unfold mbind in H.
  destruct (m c) as [[e1 | a] c1] eqn:Em.
  - inversion H; subst. exact (Hm _ _ _ Em).
  - rewrite (Hk a _ _ _ H). exact (Hm _ _ _ Em).
Qed.

(** A commit is the last thing that can fail. *)
Lemma safe_commit_then_return {A} (a : A) :
  safe (commit faults ;;; ret a).
Proof.
  intros c e c' H. unfold mbind, commit, ret in H.
  destruct (faults (executed c)); inversion H; reflexivity.
Qed.

Lemma traced_log_transaction_try (name : string) (q : Z) (t today : string) :
  traced faults (log_transaction_try faults name q t today).
Proof.
  unfold log_transaction_try.
  apply traced_bind; [apply traced_query |].
  intros [[pid inv] |]; [| apply traced_ret].
  repeat (apply traced_bind; [apply traced_execute | intros _]).
  apply traced_bind.
  - destruct (String.eqb t "SALE"); [| apply traced_ret].
    apply traced_bind; [apply traced_query | intros bs].
    apply traced_fifo_loop.
  - intros _. apply traced_bind; [apply traced_commit |].
    intros _. apply traced_ret.
Qed.

Lemma safe_log_transaction_try (name : string) (q : Z) (t today : string) :
  safe (log_transaction_try faults name q t today).
Proof.
  unfold log_transaction_try.
  apply safe_bind; [apply quiet_query |].
  intros [[pid inv] |]; [| apply safe_of_quiet, quiet_ret].
  repeat (apply safe_bind; [apply quiet_execute | intros _]).
  apply safe_bind.
  - destruct (String.eqb t "SALE"); [| apply quiet_ret].
    apply quiet_bind; [apply quiet_query | intros bs].
    apply quiet_fifo_loop.
  - intros _. apply safe_commit_then_return.
Qed.

End Runs.

(** *** A run in which every statement succeeds *)

Lemma fifo_loop_no_faults (bs : list (Z * Z)) :
  forall (rem : Z) (c : conn),
  exists n,
    fifo_loop no_faults bs rem c =
    (inr tt,
     mk_conn (committed c)
       (mk_db (products (working c))
              (fifo_deduct bs rem (inventory_batches (working c)))
              (inventory_ledger (working c)) (daily_stats (working c)))
       n).
Proof.
  induction bs as [| [bid bq] bs IH]; intros rem c; simpl.
  - exists (executed c). destruct c as [cm [p b l s] n]. reflexivity.
  - destruct (rem <=? 0).
    + exists (executed c). destruct c as [cm [p b l s] n]. reflexivity.
    + unfold mbind, execute.
      change (no_faults (executed c)) with (@None string). cbv iota beta.
      destruct (IH (rem - Z.min bq rem)
                  (mk_conn (committed c)
                     (update_batch (Z.min bq rem) bid (working c))
                     (S (executed c)))) as [n Hn].
      exists n. rewrite Hn. reflexivity.
Qed.

(** The database a sale leaves behind. *)
Lemma log_transaction_sale_run (today : string) (d : db) (name : string)
    (q pid i : Z) :
  select_product name d = Some (pid, i) ->
  log_transaction no_faults today d name q "SALE" =
  (Success (Z.max 0 (i + - q)),
   let d3 :=
     upsert_daily_stats pid today q (Z.max 0 (i + - q))
       (insert_ledger pid "SALE" (- q) "Manual SALE"
          (update_product_inventory (Z.max 0 (i + - q)) pid d)) in
   mk_db (products d3)
         (fifo_deduct (select_batches pid d) q (inventory_batches d))
         (inventory_ledger d3) (daily_stats d3)).
Proof.
  intros Hsel.
  unfold log_transaction, log_transaction_try, mbind, query, execute,
    no_faults, connect.
  simpl. rewrite Hsel. simpl.
  match goal with
  | |- context [fifo_loop _ ?bs ?rem ?c] =>
      destruct (fifo_loop_no_faults bs rem c) as [n Hn]
  end.
  unfold no_faults in Hn. rewrite Hn. reflexivity.
Qed.

(** *** Looking a product up after its row was updated *)

Lemma select_product_updated (name : string) (new_inv : Z)
    (l : list product_row) (pid i : Z) :
  match find (fun r => String.eqb (p_name r) name) l with
  | Some r => Some (p_id r, p_current_inventory r)
  | None => None
  end = Some (pid, i) ->
  match
    find (fun r => String.eqb (p_name r) name)
      (map (fun r =>
              if p_id r =? pid
              then mk_product (p_id r) (p_name r) (p_category r) (p_price r)
                              new_inv
              else r) l)
  with
  | Some r => Some (p_id r, p_current_inventory r)
  | None => None
  end = Some (pid, new_inv).
Proof.
  induction l as [| r l IH]; simpl; [discriminate |].
  destruct (String.eqb (p_name r) name) eqn:En.
  - intros H. inversion H; subst. rewrite Z.eqb_refl. simpl.
    rewrite En. reflexivity.
  - intros H. destruct (p_id r =? pid); simpl; rewrite En; auto.
Qed.

(** *** Rows and ids of the batch table *)

Lemma eligible_subset (pid : Z) (l : list batch_row) (bid : Z) :
  In bid (map b_id (filter (eligible pid) l)) -> In bid (map b_id l).
Proof.
  rewrite !in_map_iff. intros (b & Hid & Hb).
  apply filter_In in Hb. exists b. tauto.
Qed.

Lemma eligible_ids_nodup (pid : Z) (l : list batch_row) :
  NoDup (map b_id l) -> NoDup (map b_id (filter (eligible pid) l)).
Proof.
  induction l as [| b l IH]; simpl; intros Hnd; [exact Hnd |].
  apply NoDup_cons_iff in Hnd. destruct Hnd as [Hfresh Hnd].
  destruct (eligible pid b); simpl; [| auto].
  apply NoDup_cons_iff. split; [| auto].
  intros Hin. apply Hfresh. now apply (eligible_subset pid).
Qed.

Lemma same_id_same_row (l : list batch_row) (b b' : batch_row) :
  NoDup (map b_id l) -> In b l -> In b' l -> b_id b = b_id b' -> b = b'.
Proof.
  induction l as [| x l IH]; simpl; intros Hnd Hb Hb' Hid; [contradiction |].
  inversion Hnd as [| ? ? Hnotin Hnd']; subst.
  destruct Hb as [-> | Hb], Hb' as [-> | Hb']; auto.
  - exfalso. apply Hnotin. rewrite Hid. now apply in_map.
  - exfalso. apply Hnotin. rewrite <- Hid. now apply in_map.
Qed.


Lemma select_batches_ids (pid : Z) (d : db) :
  NoDup (map b_id (inventory_batches d)) ->
  NoDup (map fst (select_batches pid d)).
Proof.
  intros Hnd. unfold select_batches. rewrite map_map. simpl.
  eapply Permutation_NoDup.
  - apply Permutation_map. apply order_by_expiry_perm.
  - now apply eligible_ids_nodup.
Qed.

Lemma select_batches_positive (pid : Z) (d : db) :
  Forall (fun p => 0 < snd p) (select_batches pid d).
Proof.
  unfold select_batches. apply Forall_forall. intros [bid bq] Hin.
  apply in_map_iff in Hin. destruct Hin as (b & Hb & Hin).
  inversion Hb; subst. simpl.
  eapply Permutation_in in Hin;
    [| apply Permutation_sym, order_by_expiry_perm].
  apply filter_In in Hin. destruct Hin as [_ He].
  unfold eligible in He. apply andb_true_iff in He.
  now apply Z.ltb_lt.
Qed.

Lemma select_batches_eligible (pid : Z) (d : db) (b : batch_row) :
  In b (inventory_batches d) -> eligible pid b = true ->
  In (b_id b, b_quantity b) (select_batches pid d).
Proof.
  intros Hin He. unfold select_batches.
  apply in_map_iff. exists b. split; [reflexivity |].
  eapply Permutation_in; [apply order_by_expiry_perm |].
  apply filter_In. tauto.
Qed.

Lemma select_batches_only_eligible (pid : Z) (d : db) (b : batch_row) :
  NoDup (map b_id (inventory_batches d)) ->
  In b (inventory_batches d) ->
  In (b_id b) (map fst (select_batches pid d)) ->
  eligible pid b = true.
Proof.
  intros Hnd Hin Hsel. unfold select_batches in Hsel.
  rewrite map_map in Hsel. simpl in Hsel.
  apply in_map_iff in Hsel. destruct Hsel as (b' & Hid & Hin').
  eapply Permutation_in in Hin';
    [| apply Permutation_sym, order_by_expiry_perm].
  apply filter_In in Hin'. destruct Hin' as [Hin' He].
  assert (b' = b) by (eapply same_id_same_row; eauto).
  now subst.
Qed.

Lemma mbind_returns {A B} (m : M A) (k : A -> M B) (c c' : conn) (b : B) :
  mbind m k c = (inr b, c') ->
  exists a c1, m c = (inr a, c1) /\ k a c1 = (inr b, c').
Proof.
  unfold mbind. destruct (m c) as [[e | a] c1]; [discriminate |].
  intros H. now exists a, c1.
Qed.

(** *** Runs under two fault plans that agree *)

Lemma mbind_same {A B} (m m' : M A) (k k' : A -> M B) (c : conn) :
  m c = m' c -> (forall a c1, k a c1 = k' a c1) ->
  mbind m k c = mbind m' k' c.
Proof.
  intros Hm Hk. unfold mbind. rewrite Hm.
  destruct (m' c) as [[e | a] c1]; [reflexivity | apply Hk].
Qed.

Section Plans.

Variables faults faults' : fault_plan.
Hypothesis same : forall k, faults k = faults' k.

Lemma query_same_plan {A} (q : db -> A) (c : conn) :
  query faults q c = query faults' q c.
Proof. unfold query. now rewrite same. Qed.

Lemma execute_same_plan (w : db -> db) (c : conn) :
  execute faults w c = execute faults' w c.
Proof. unfold execute. now rewrite same. Qed.

Lemma commit_same_plan (c : conn) : commit faults c = commit faults' c.
Proof. unfold commit. now rewrite same. Qed.

Lemma fifo_loop_same_plan (batches : list (Z * Z)) :
  forall rem c, fifo_loop faults batches rem c = fifo_loop faults' batches rem c.
Proof.
  induction batches as [| [bid bqty] rest IH]; intros rem c; simpl.
  - reflexivity.
  - destruct (rem <=? 0); [reflexivity |].
    apply mbind_same; [apply execute_same_plan | intros _ c1; apply IH].
Qed.

Lemma log_transaction_try_same_plan (name : string) (q : Z)
    (t today : string) (c : conn) :
  log_transaction_try faults name q t today c
  = log_transaction_try faults' name q t today c.
Proof.
  unfold log_transaction_try.
  apply mbind_same; [apply query_same_plan |].
  intros [[pid i] |] c1; [| reflexivity].
  cbv zeta.
  repeat (apply mbind_same; [apply execute_same_plan | intros _ ?c]).
  apply mbind_same.
  - destruct (String.eqb t "SALE"); [| reflexivity].
    apply mbind_same; [apply query_same_plan |].
    intros batches c5. apply fifo_loop_same_plan.
  - intros _ c5. apply mbind_same; [apply commit_same_plan | reflexivity].
Qed.

Lemma log_transaction_same_plan (today : string) (d : db) (name : string)
    (q : Z) (t : string) :
  log_transaction faults today d name q t
  = log_transaction faults' today d name q t.
Proof.
  unfold log_transaction. now rewrite log_transaction_try_same_plan.
Qed.

End Plans.

(** *** Binding *)

Lemma fits_range (z : Z) : fits z = true <-> - 2 ^ 63 <= z < 2 ^ 63.
Proof.
  unfold fits. rewrite andb_true_iff, Z.leb_le, Z.ltb_lt. reflexivity.
Qed.

(** A sale of fewer than [2^63] units binds. *)
Lemma sale_binds (d : db) (name : string) (q pid i : Z) :
  select_product name d = Some (pid, i) ->
  fits pid = true -> fits i = true -> 0 < q < 2 ^ 63 ->
  forall k, binding d name q "SALE" k = no_faults k.
Proof.
  intros Hsel Hpid Hi Hq k. unfold binding, bound_integers, no_faults.
  rewrite Hsel. cbn [String.eqb Ascii.eqb Bool.eqb andb].
  assert (Hnew : fits (Z.max 0 (i + - q)) = true).
  { apply fits_range. apply fits_range in Hi. lia. }
  assert (Hq' : fits q = true) by (apply fits_range; lia).
  assert (Hc : fits (- q) = true) by (apply fits_range; lia).
  destruct k as [| [| [| [| k]]]]; cbn [forallb];
    rewrite ?Hnew, ?Hpid, ?Hq', ?Hc; reflexivity.
Qed.

(** *** The claims on [log_transaction] *)

(** C1, as stated, fails for a quantity [sqlite3] cannot bind: a SALE
    of [2^63] units of a product holding 5 is refused when the daily
    statistics are written, the call returns the error and the
    inventory stays 5 instead of becoming [max(0, 5 - 2^63) = 0]. *)
Lemma sale_beyond_64_bits_is_refused :
  let run :=
    log_transaction (binding Samples.store "Milk" (2 ^ 63) "SALE")
      "2025-01-03" Samples.store "Milk" (2 ^ 63) "SALE" in
  run = (Error too_large, Samples.store)
  /\ select_product "Milk" (snd run) = Some (1, 5)
  /\ Z.max 0 (5 - 2 ^ 63) = 0.
Proof. vm_compute. repeat split. Qed.

(** C1, amended. When SQLite itself refuses nothing, a SALE of [q]
    units, [0 < q < 2^63], of a product holding [i] units returns and
    stores [max(0, i - q)] as the product's inventory, which is never
    negative, and appends one ledger row carrying the full signed
    quantity [-q], whether or not the clamp fired.  A SALE of [2^63]
    units or more cannot be bound: the call returns the error and
    leaves the database as it was. *)
Theorem log_transaction_sale_clamps_inventory :
  forall (today : string) (d : db) (name : string) (q pid i : Z),
    0 < q ->
    select_product name d = Some (pid, i) ->
    fits pid = true -> fits i = true ->
    let run :=
      log_transaction (binding d name q "SALE") today d name q "SALE" in
    (q < 2 ^ 63 ->
     fst run = Success (Z.max 0 (i - q))
     /\ select_product name (snd run) = Some (pid, Z.max 0 (i - q))
     /\ 0 <= Z.max 0 (i - q)
     /\ inventory_ledger (snd run)
        = inventory_ledger d ++ [mk_ledger pid "SALE" (- q) "Manual SALE"])
    /\ (2 ^ 63 <= q -> run = (Error too_large, d)).
Proof.
  intros today d name q pid i Hq Hsel Hpid Hi run. subst run. split.
  - intros Hlt.
    rewrite (log_transaction_same_plan _ no_faults
               (sale_binds d name q pid i Hsel Hpid Hi (conj Hq Hlt))).
    rewrite (log_transaction_sale_run today d name q pid i Hsel).
    replace (i + - q) with (i - q) by lia. simpl.
    repeat split.
    + unfold select_product in *. simpl.
      exact (select_product_updated name _ (products d) pid i Hsel).
    + lia.
  - intros Hge.
    assert (Hnew : fits (Z.max 0 (i + - q)) = true).
    { apply fits_range. apply fits_range in Hi. lia. }
    assert (Hq' : fits q = false).
    { destruct (fits q) eqn:E; [| reflexivity].
      apply fits_range in E. lia. }
    assert (B0 : binding d name q "SALE" 0%nat = None).
    { unfold binding, bound_integers. now rewrite Hsel. }
    assert (B1 : binding d name q "SALE" 1%nat = None).
    { unfold binding, bound_integers. rewrite Hsel.
      cbn [String.eqb Ascii.eqb Bool.eqb andb forallb].
      now rewrite Hnew, Hpid. }
    assert (B2 : binding d name q "SALE" 2%nat
                 = if fits (- q) then None else Some too_large).
    { unfold binding, bound_integers. rewrite Hsel.
      cbn [String.eqb Ascii.eqb Bool.eqb andb forallb].
      rewrite Hpid. now destruct (fits (- q)). }
    assert (B3 : binding d name q "SALE" 3%nat = Some too_large).
    { unfold binding, bound_integers. rewrite Hsel.
      cbn [String.eqb Ascii.eqb Bool.eqb andb forallb].
      now rewrite Hpid, Hq'. }
    unfold log_transaction, log_transaction_try, mbind, query, execute,
      connect.
    cbn [executed working committed tick ok raise]. rewrite B0, Hsel.
    cbn [executed working committed tick ok raise]. rewrite B1.
    cbn [executed working committed tick ok raise]. rewrite B2.
    destruct (fits (- q)); cbn [executed working committed tick ok raise].
    + rewrite B3. reflexivity.
    + reflexivity.
Qed.

Lemma log_transaction_sale_clamps_inventory_witness :
  let run :=
    log_transaction (binding Samples.store "Milk" 7 "SALE") "2025-01-03"
      Samples.store "Milk" 7 "SALE" in
  fst run = Success 0
  /\ select_product "Milk" (snd run) = Some (1, 0)
  /\ 0 <= 0
  /\ inventory_ledger (snd run) = [mk_ledger 1 "SALE" (-7) "Manual SALE"].
Proof.
  refine (proj1 (log_transaction_sale_clamps_inventory
                   "2025-01-03" Samples.store "Milk" 7 1 5 _ _ _ _) _).
  - lia.
  - reflexivity.
  - reflexivity.
  - reflexivity.
  - reflexivity.
Defined.

(** C2. Whatever statement of the ledger write SQLite refuses, the call
    returns the failure result carrying the message of that refusal,
    and the database is left exactly as it was: none of the product,
    ledger, daily-stats or batch writes made before the failure
    remains. *)
Theorem log_transaction_failure_rolls_back :
  forall (faults : fault_plan) (today : string) (d : db) (name : string)
         (q : Z) (t : string) (e : exn) (c' : conn),
    log_transaction_try faults name q t today (connect d) = (inl e, c') ->
    log_transaction faults today d name q t = (Error (str e), d)
    /\ exists k msg,
         e = DatabaseError msg /\ faults k = Some msg
         /\ forall j, (j < k)%nat -> faults j = None.
Proof.
  intros faults today d name q t e c' Hrun.
  split.
  - unfold log_transaction. rewrite Hrun. unfold close, rollback. simpl.
    now rewrite (safe_log_transaction_try faults name q t today _ _ _ Hrun).
  - destruct (traced_log_transaction_try faults name q t today _ _ _ Hrun)
      as (_ & Hnone & Hcause).
    destruct (Hcause e eq_refl) as (msg & -> & Hlt & Hf).
    exists (executed c' - 1)%nat, msg. repeat split; [exact Hf |].
    intros j Hj. apply Hnone. simpl in *. lia.
Qed.

Lemma log_transaction_failure_rolls_back_witness :
  log_transaction Samples.ledger_insert_fails "2025-01-03" Samples.store
    "Milk" 7 "SALE"
  = (Error "database is locked", Samples.store).
Proof.
  apply (log_transaction_failure_rolls_back
           Samples.ledger_insert_fails "2025-01-03" Samples.store
           "Milk" 7 "SALE" (DatabaseError "database is locked")
           (snd (log_transaction_try Samples.ledger_insert_fails
                   "Milk" 7 "SALE" "2025-01-03" (connect Samples.store)))).
  vm_compute. reflexivity.
Defined.

(** Every failure result, the one for an unknown product included,
    comes with an untouched database. *)
Lemma log_transaction_error_leaves_database :
  forall (faults : fault_plan) (today : string) (d : db) (name : string)
         (q : Z) (t msg : string),
    fst (log_transaction faults today d name q t) = Error msg ->
    snd (log_transaction faults today d name q t) = d.
Proof.
  intros faults today d name q t msg.
  unfold log_transaction.
  destruct (log_transaction_try faults name q t today (connect d))
    as [[e | out] c'] eqn:Hrun; simpl.
  - intros _. unfold close, rollback. simpl.
    now rewrite (safe_log_transaction_try faults name q t today _ _ _ Hrun).
  - intros Hout. subst out. unfold close.
    unfold log_transaction_try in Hrun.
    apply mbind_returns in Hrun. destruct Hrun as (row & c1 & Hq & Hrun).
    pose proof (quiet_query faults _ _ _ _ Hq) as Hc. simpl in Hc.
    destruct row as [[pid i] |].
    + repeat (apply mbind_returns in Hrun;
              destruct Hrun as (? & ? & _ & Hrun)).
      unfold ret in Hrun. inversion Hrun.
    + unfold ret in Hrun. injection Hrun as _ Hsame.
      rewrite <- Hsame. exact Hc.
Qed.

End DatabaseFacts.

(** ** The demand forecast *)

Module ForecastingFacts.

Import Py Frame Forecasting PyFacts.

Local Open Scope Q_scope.

Lemma insert_by_date_nonempty (r : row) (l : list row) :
  insert_by_date r l <> [].
Proof.
  destruct l as [| x l]; simpl; [discriminate |].
  destruct (date r <=? date x)%Z; discriminate.
Qed.

Lemma sort_values_date_nonempty (l : list row) :
  l <> [] -> sort_values_date l <> [].
Proof.
  destruct l as [| r l]; [congruence |].
  intros _. simpl. apply insert_by_date_nonempty.
Qed.

(** A history with a row has a last moving average. *)
Lemma last_avg_of_nonempty (s : list Z) :
  s <> [] -> exists a, last_avg_of s = Fin a.
Proof.
  intros Hs. unfold last_avg_of.
  destruct (rev (rolling_mean 7 s)) as [| a l] eqn:E.
  - exfalso. apply Hs.
    apply (f_equal (@List.length Q)) in E.
    rewrite length_rev in E. unfold rolling_mean in E.
    rewrite length_map, length_seq in E.
    now apply length_zero_iff_nil.
  - now exists a.
Qed.



(** C4. On an empty history the fallback baseline is the mean of an
    empty Series, a NaN, and [int()] of the first projected value
    raises [ValueError]: the call does not return a forecast. *)
Theorem forecast_demand_empty_history_raises :
  forecast_demand []
  = inl (ValueError "cannot convert float NaN to integer").
Proof. reflexivity. Qed.

(** What [forecast_demand] returns for a history with a row. *)
Lemma forecast_demand_returns (h : list row) :
  h <> [] ->
  exists days a,
    forecast_demand h =
    inr (mk_forecast days
           (round (trend_pct_of (map sales (sort_values_date h))) 1)
           (round (confidence_of
                     (volatility_of (map sales (sort_values_date h)))) 2)
           (tier_of (confidence_of
                       (volatility_of (map sales (sort_values_date h)))))
           (if truthy (Fin a) then fround (Fin a) 1 else Fin 0)).
Proof.
  intros Hh. unfold forecast_demand.
  assert (Hs : map sales (sort_values_date h) <> []).
  { intros E. apply map_eq_nil in E.
    now apply (sort_values_date_nonempty h Hh). }
  destruct (last_avg_of_nonempty _ Hs) as [a Ha].
  rewrite Ha. unfold map_result, fmul, fint, bind, ok.
  eexists. exists a. reflexivity.
Qed.




End ForecastingFacts.

(** ** Days of stock *)

Module InventoryRiskFacts.

Import Py Frame InventoryRisk PyFacts.

Local Open Scope Q_scope.

Lemma iloc_last_nonempty (h : list row) :
  h <> [] -> exists latest, iloc_last h = inr latest.
Proof.
  intros Hh. unfold iloc_last.
  destruct (rev h) as [| r l] eqn:E.
  - exfalso. apply Hh.
    apply (f_equal (@rev row)) in E. now rewrite rev_involutive in E.
  - now exists r.
Qed.





End InventoryRiskFacts.

(** ** The risk classifier *)

Module RiskEngineFacts.

Import Py Frame RiskEngine.

Local Open Scope Z_scope.

Lemma points_bounds (c : bool) (n : Z) : 0 <= n -> 0 <= points c n <= n.
Proof. intros Hn. unfold points. destruct c; lia. Qed.

(** What an expiry within a day does to the scores and to the
    classification: 100 points of risk, and HIGH_RISK unless the
    opportunity score reaches 30, in which case the third row of the
    decision table answers MEDIUM_RISK. *)
Lemma critical_expiry_classification (m : metrics) (forecast_growth : Q)
    (e : Z) :
  expiry_date m = Some e ->
  days_between e (date m) <= 1 ->
  let c := classify_product_v2 m forecast_growth in
  expiry_risk c = Expiry.CRITICAL
  /\ 100 <= risk_score c
  /\ (opportunity_score c < 30 -> risk_level c = Risk.HIGH_RISK)
  /\ (30 <= opportunity_score c -> risk_level c = Risk.MEDIUM_RISK).
Proof.
  intros He Hd c. subst c. unfold classify_product_v2.
  assert (Hcheck : expiry_check m
                   = (Expiry.CRITICAL, 100,
                      Some (Expiry.CRITICAL, days_between e (date m)))).
  { unfold expiry_check. rewrite He.
    apply Z.leb_le in Hd. now rewrite Hd. }
  assert (Hrisk : 100 <= risk_score_of m).
  { unfold risk_score_of. rewrite Hcheck. cbn [fst snd].
    pose proof (points_bounds (lt (trend_7d m) (-10)%Q) 30).
    pose proof (points_bounds (gt (days_of_stock m) 25%Q) 25).
    pose proof (points_bounds (gt (stockout_risk m) (3 # 10)%Q) 20).
    pose proof (points_bounds (gt (volatility m) (4 # 10)%Q) 15).
    lia. }
  assert (Hopp : opportunity_score_of m forecast_growth <= 90).
  { unfold opportunity_score_of.
    pose proof (points_bounds (gt (trend_7d m) 15%Q) 30).
    pose proof (points_bounds (lt (days_of_stock m) 7%Q) 25).
    pose proof (points_bounds (ltb 10%Q forecast_growth) 20).
    pose proof (points_bounds
                  (lt (volatility m) (2 # 10)%Q && gt (trend_7d m) 5%Q) 15).
    lia. }
  rewrite Hcheck.
  destruct (categorize (risk_score_of m)
              (opportunity_score_of m forecast_growth))
    as [category prio] eqn:Hcat.
  simpl. split; [reflexivity |]. split; [exact Hrisk |].
  unfold categorize in Hcat.
  assert (H60 : (60 <=? risk_score_of m) = true) by (apply Z.leb_le; lia).
  assert (H30 : (risk_score_of m <? 30) = false) by (apply Z.ltb_ge; lia).
  assert (Hlt : (opportunity_score_of m forecast_growth <? risk_score_of m)
                = true) by (apply Z.ltb_lt; lia).
  rewrite H60, H30, Hlt, andb_false_r in Hcat. simpl in Hcat.
  split; intros Ho.
  - apply Z.ltb_lt in Ho. rewrite Ho in Hcat. now inversion Hcat.
  - apply Z.ltb_ge in Ho. rewrite Ho in Hcat. now inversion Hcat.
Qed.

(** C6. A product one day from expiry whose weekly sales trend is +20%
    gets the 100 points and the CRITICAL expiry level, but its
    opportunity score of 30 keeps it out of the first row of the
    decision table: it is classified MEDIUM_RISK, not HIGH_RISK. *)
Theorem critical_expiry_classified_medium_risk :
  let c := classify_product_v2 Samples.expiring_but_selling 0 in
  days_between Frame.seconds_per_day 0 = 1
  /\ expiry_risk c = Expiry.CRITICAL
  /\ risk_score c = 100
  /\ opportunity_score c = 30
  /\ risk_level c = Risk.MEDIUM_RISK.
Proof. vm_compute. repeat split. Qed.

End RiskEngineFacts.

(** ** The what-if simulations *)

Module SimulatorFacts.

Import Py Simulator PyFacts.

Local Open Scope Q_scope.

(** Three of the five simulations divide by nothing that can be zero
    and always return. *)
Lemma simulate_promotion_returns
    (current_price discount : Q) (duration_days : Z) (daily_sales : Q) :
  returns (simulate_promotion current_price discount duration_days daily_sales).
Proof. eexists. reflexivity. Qed.

Lemma simulate_competitor_move_returns
    (current_price drop current_demand : Q) (elasticity : option Q) :
  returns (simulate_competitor_move current_price drop current_demand
             elasticity).
Proof. eexists. reflexivity. Qed.

Lemma simulate_marketing_campaign_returns
    (current_price daily_sales spend lift : Q) :
  returns (simulate_marketing_campaign current_price daily_sales spend lift).
Proof.
  unfold simulate_marketing_campaign.
  destruct (ltb 0 _) eqn:E.
  - apply ltb_lt in E. rewrite div_nonzero by lra. eexists. reflexivity.
  - eexists. reflexivity.
Qed.

(** The other two return exactly when their baseline is not zero. *)
Lemma simulate_price_impact_returns
    (current_price new_price current_demand forecast_demand : Q)
    (elasticity : option Q) :
  ~ current_price == 0 ->
  returns (simulate_price_impact current_price new_price current_demand
             forecast_demand elasticity).
Proof.
  intros H. unfold simulate_price_impact.
  rewrite div_nonzero by exact H. eexists. reflexivity.
Qed.

Lemma simulate_inventory_change_returns
    (current_stock_days new_stock_days current_demand price : Q) :
  ~ current_stock_days == 0 ->
  returns (simulate_inventory_change current_stock_days new_stock_days
             current_demand price).
Proof.
  intros H. unfold simulate_inventory_change.
  rewrite div_nonzero by exact H. eexists. reflexivity.
Qed.

(** C7. With zero days of stock on hand the inventory simulation, and
    with a current price of zero the price simulation, divide by that
    zero before anything else: they raise [ZeroDivisionError] whatever
    the other arguments are. *)
Theorem simulations_raise_on_zero_baseline :
  forall (new_stock_days current_demand price new_price forecast_demand : Q)
         (elasticity : option Q),
    simulate_inventory_change 0 new_stock_days current_demand price
    = inl ZeroDivisionError
    /\ simulate_price_impact 0 new_price current_demand forecast_demand
         elasticity
       = inl ZeroDivisionError.
Proof. intros. split; reflexivity. Qed.



End SimulatorFacts.

(** ** The catalogue-wide scenario *)

Module SimulatorServiceFacts.

Import SimulatorService.

(** Any segment other than the two named ones keeps every product. *)
Lemma segment_all_keeps_every_product (products : list string) :
  segment_filter "all" products = products.
Proof. reflexivity. Qed.

(** The two named segments are cut by position. *)
Lemma segment_high_risk_is_first_third (products : list string) :
  segment_filter "high_risk" products
  = firstn (List.length products / 3) products.
Proof. reflexivity. Qed.

Lemma segment_opportunity_is_second_third (products : list string) :
  segment_filter "opportunity" products
  = slice (List.length products / 3) (2 * List.length products / 3) products.
Proof. reflexivity. Qed.

(** C8. In a catalogue of three products of which only the second is
    classified HIGH_RISK, the high-risk segment of the global scenario
    is the first product, which is classified STABLE; the product at
    high risk is left out. *)
Theorem segment_filter_selects_by_position :
  target_products "high_risk" Samples.catalogue = ["Apples"%string]
  /\ spec_segment_filter Samples.catalogue_risk "high_risk" Samples.catalogue
     = ["Bread"%string]
  /\ Samples.catalogue_risk "Apples" = Risk.STABLE
  /\ target_products "high_risk" Samples.catalogue
     <> firstn 50 (spec_segment_filter Samples.catalogue_risk "high_risk"
                     Samples.catalogue).
Proof. vm_compute. repeat split. discriminate. Qed.

End SimulatorServiceFacts.

(** ** More on the ledger write *)

Module LedgerFacts.

Import Py Database Ledger DatabaseFacts.

(** *** Successful statements *)

Section Statements.

Variable faults : fault_plan.

Lemma query_returns {A} (q : db -> A) (c c' : conn) (a : A) :
  query faults q c = (inr a, c') ->
  a = q (working c) /\ working c' = working c /\ committed c' = committed c.
Proof.
  unfold query. destruct (faults (executed c)); [discriminate |].
  intros H. injection H as <- <-. auto.
Qed.

Lemma execute_returns (w : db -> db) (c c' : conn) (u : unit) :
  execute faults w c = (inr u, c') ->
  working c' = w (working c) /\ committed c' = committed c.
Proof.
  unfold execute. destruct (faults (executed c)); [discriminate |].
  intros H. injection H as _ <-. auto.
Qed.

Lemma commit_returns (c c' : conn) (u : unit) :
  commit faults c = (inr u, c') -> committed c' = working c.
Proof.
  unfold commit. destruct (faults (executed c)); [discriminate |].
  intros H. injection H as _ <-. reflexivity.
Qed.

(** A loop that ran to its end took from the table what the loop on
    the table alone takes. *)
Lemma fifo_loop_returns (bs : list (Z * Z)) :
  forall (rem : Z) (c c' : conn) (u : unit),
    fifo_loop faults bs rem c = (inr u, c') ->
    working c'
    = mk_db (products (working c))
            (fifo_deduct bs rem (inventory_batches (working c)))
            (inventory_ledger (working c)) (daily_stats (working c))
    /\ committed c' = committed c.
Proof.
  induction bs as [| [bid bq] bs IH]; intros rem c c' u; simpl.
  - unfold ret. intros H. injection H as _ <-.
    destruct (working c); auto.
  - destruct (rem <=? 0).
    + unfold ret. intros H. injection H as _ <-.
      destruct (working c); auto.
    + intros H. apply mbind_returns in H.
      destruct H as (u1 & c1 & Hx & Hloop).
      apply execute_returns in Hx. destruct Hx as [Hw Hc].
      apply IH in Hloop. destruct Hloop as [Hw' Hc'].
      rewrite Hw', Hc', Hw, Hc. simpl. auto.
Qed.

End Statements.

(** *** All or nothing *)

Lemma log_transaction_outcomes :
  forall (faults : fault_plan) (today : string) (d : db) (name : string)
         (q : Z) (t : string),
    (exists msg, log_transaction faults today d name q t = (Error msg, d))
    \/ (exists pid i,
          select_product name d = Some (pid, i)
          /\ log_transaction faults today d name q t
             = (Success
                  (Z.max 0 (i + (if String.eqb t "SALE" then - q else q))),
                written today d pid i q t)).
Proof.
  intros faults today d name q t.
  destruct (log_transaction faults today d name q t) as [out d'] eqn:Hrun.
  destruct out as [msg | n].
  - left. exists msg. f_equal.
    pose proof (log_transaction_error_leaves_database
                  faults today d name q t msg) as H.
    rewrite Hrun in H. simpl in H. auto.
  - right. unfold log_transaction in Hrun.
    destruct (log_transaction_try faults name q t today (connect d))
      as [[e | out] c'] eqn:Htry; [discriminate |].
    injection Hrun as -> <-.
    unfold log_transaction_try in Htry.
    apply mbind_returns in Htry. destruct Htry as (row & c1 & Hq & Htry).
    apply query_returns in Hq. destruct Hq as (-> & Hw1 & Hc1).
    change (working (connect d)) with d in *.
    change (committed (connect d)) with d in *.
    destruct (select_product name d) as [[pid i] |] eqn:Hsel;
      [| unfold ret, ok in Htry; discriminate].
    exists pid, i. split; [reflexivity |].
    apply mbind_returns in Htry. destruct Htry as (u2 & c2 & H2 & Htry).
    apply execute_returns in H2. destruct H2 as [Hw2 Hc2].
    apply mbind_returns in Htry. destruct Htry as (u3 & c3 & H3 & Htry).
    apply execute_returns in H3. destruct H3 as [Hw3 Hc3].
    apply mbind_returns in Htry. destruct Htry as (u4 & c4 & H4 & Htry).
    apply execute_returns in H4. destruct H4 as [Hw4 Hc4].
    apply mbind_returns in Htry. destruct Htry as (u5 & c5 & H5 & Htry).
    apply mbind_returns in Htry. destruct Htry as (u6 & c6 & H6 & Htry).
    apply commit_returns in H6.
    unfold ret in Htry. injection Htry as <- <-.
    unfold close. rewrite H6. f_equal.
    unfold written.
    destruct (String.eqb t "SALE") eqn:Hsale.
    + apply mbind_returns in H5. destruct H5 as (bs & c45 & Hb & Hloop).
      apply query_returns in Hb. destruct Hb as (-> & Hw45 & _).
      apply fifo_loop_returns in Hloop. destruct Hloop as [Hw5 _].
      rewrite Hw5, Hw45, Hw4, Hw3, Hw2, Hw1. reflexivity.
    + unfold ret in H5. injection H5 as _ <-.
      rewrite Hw4, Hw3, Hw2, Hw1. reflexivity.
Qed.

(** X1. Whatever statements SQLite refuses, a call of [log_transaction]
    ends in one of two ways: it returns a failure and the database is
    the one it found, or it returns success and the database is exactly
    the one a call without any failure writes. *)
Theorem log_transaction_all_or_nothing :
  forall (faults : fault_plan) (today : string) (d : db) (name : string)
         (q : Z) (t : string),
    (exists msg, log_transaction faults today d name q t = (Error msg, d))
    \/ (exists pid i,
          select_product name d = Some (pid, i)
          /\ log_transaction faults today d name q t
             = (Success
                  (Z.max 0 (i + (if String.eqb t "SALE" then - q else q))),
                written today d pid i q t)).
Proof. exact log_transaction_outcomes. Qed.

(** *** What a successful call wrote *)

Lemma log_transaction_success (faults : fault_plan) (today : string)
    (d : db) (name : string) (q : Z) (t : string) (n : Z) :
  fst (log_transaction faults today d name q t) = Success n ->
  exists pid i,
    select_product name d = Some (pid, i)
    /\ n = Z.max 0 (i + (if String.eqb t "SALE" then - q else q))
    /\ snd (log_transaction faults today d name q t)
       = written today d pid i q t.
Proof.
  intros Hn.
  destruct (log_transaction_outcomes faults today d name q t)
    as [[msg Herr] | (pid & i & Hsel & Hrun)].
  - rewrite Herr in Hn. discriminate.
  - rewrite Hrun in Hn |- *. simpl in Hn |- *. injection Hn as <-.
    exists pid, i. auto.
Qed.

Lemma written_products (today : string) (d : db) (pid i q : Z) (t : string) :
  products (written today d pid i q t)
  = products
      (update_product_inventory
         (Z.max 0 (i + (if String.eqb t "SALE" then - q else q))) pid d).
Proof. unfold written. destruct (String.eqb t "SALE"); reflexivity. Qed.

Lemma written_ledger (today : string) (d : db) (pid i q : Z) (t : string) :
  inventory_ledger (written today d pid i q t)
  = inventory_ledger d
    ++ [mk_ledger pid t (if String.eqb t "SALE" then - q else q)
          ("Manual " ++ t)%string].
Proof. unfold written. destruct (String.eqb t "SALE"); reflexivity. Qed.

Lemma written_stats (today : string) (d : db) (pid i q : Z) (t : string) :
  daily_stats (written today d pid i q t)
  = daily_stats
      (upsert_daily_stats pid today
         (if String.eqb t "SALE" then q else 0)
         (Z.max 0 (i + (if String.eqb t "SALE" then - q else q)))
         (update_product_inventory
            (Z.max 0 (i + (if String.eqb t "SALE" then - q else q))) pid d)).
Proof. unfold written. destruct (String.eqb t "SALE"); reflexivity. Qed.

Lemma written_batches (today : string) (d : db) (pid i q : Z) (t : string) :
  inventory_batches (written today d pid i q t)
  = if String.eqb t "SALE"
    then fifo_deduct (select_batches pid d) q (inventory_batches d)
    else inventory_batches d.
Proof. unfold written. destruct (String.eqb t "SALE"); reflexivity. Qed.

Lemma written_select_product (today : string) (d : db) (name : string)
    (pid i q : Z) (t : string) :
  select_product name d = Some (pid, i) ->
  select_product name (written today d pid i q t)
  = Some (pid, Z.max 0 (i + (if String.eqb t "SALE" then - q else q))).
Proof.
  intros Hsel. unfold select_product in *. rewrite written_products. simpl.
  exact (select_product_updated name _ (products d) pid i Hsel).
Qed.

(** X2. A successful transaction of any type other than SALE (a
    RESTOCK, an ADJUSTMENT) stores [max(0, i + q)] as the product's
    inventory and appends a ledger row with [+q], and it leaves the
    batch table exactly as it was: the units added are put in no
    batch. *)
Theorem restock_adds_stock_without_a_batch :
  forall (faults : fault_plan) (today : string) (d : db) (name : string)
         (q : Z) (t : string) (n : Z),
    t <> "SALE"%string ->
    fst (log_transaction faults today d name q t) = Success n ->
    let d' := snd (log_transaction faults today d name q t) in
    exists pid i,
      select_product name d = Some (pid, i)
      /\ n = Z.max 0 (i + q)
      /\ select_product name d' = Some (pid, n)
      /\ inventory_batches d' = inventory_batches d
      /\ inventory_ledger d'
         = inventory_ledger d ++ [mk_ledger pid t q ("Manual " ++ t)%string].
Proof.
  intros faults today d name q t n Ht Hn d'. subst d'.
  destruct (log_transaction_success faults today d name q t n Hn)
    as (pid & i & Hsel & Hval & Hdb).
  apply String.eqb_neq in Ht.
  rewrite Hdb. rewrite Ht in Hval. exists pid, i.
  split; [exact Hsel |]. split; [exact Hval |].
  rewrite (written_select_product today d name pid i q t Hsel),
    written_batches, written_ledger, Ht.
  subst n. auto.
Qed.

Lemma restock_adds_stock_without_a_batch_witness :
  let d' :=
    snd (log_transaction no_faults "2025-01-03" Samples.store "Milk" 12
           "RESTOCK") in
  exists pid i,
    select_product "Milk" Samples.store = Some (pid, i)
    /\ 17 = Z.max 0 (i + 12)
    /\ select_product "Milk" d' = Some (pid, 17)
    /\ inventory_batches d' = inventory_batches Samples.store
    /\ inventory_ledger d'
       = inventory_ledger Samples.store
         ++ [mk_ledger pid "RESTOCK" 12 "Manual RESTOCK"].
Proof.
  apply (restock_adds_stock_without_a_batch
           no_faults "2025-01-03" Samples.store "Milk" 12 "RESTOCK" 17).
  - discriminate.
  - reflexivity.
Defined.

(** X3. A product the store does not know is refused: the call returns
    a failure, ['Product not found'] when the lookup itself went
    through, and writes nothing. *)
Theorem unknown_product_is_refused :
  forall (faults : fault_plan) (today : string) (d : db) (name : string)
         (q : Z) (t : string),
    select_product name d = None ->
    exists msg,
      log_transaction faults today d name q t = (Error msg, d)
      /\ (faults 0%nat = None -> msg = "Product not found"%string).
Proof.
  intros faults today d name q t Hsel.
  destruct (log_transaction_outcomes faults today d name q t)
    as [[msg Herr] | (pid & i & Hsel' & _)]; [| congruence].
  exists msg. split; [exact Herr |].
  intros H0. revert Herr.
  unfold log_transaction, log_transaction_try, mbind, query, connect.
  simpl. rewrite H0, Hsel. unfold ret. simpl.
  intros H. now injection H as <-.
Qed.

Lemma unknown_product_is_refused_witness :
  exists msg,
    log_transaction no_faults "2025-01-03" Samples.store "Tea" 1 "SALE"
    = (Error msg, Samples.store)
    /\ (no_faults 0%nat = None -> msg = "Product not found"%string).
Proof.
  apply (unknown_product_is_refused
           no_faults "2025-01-03" Samples.store "Tea" 1 "SALE").
  reflexivity.
Defined.

(** *** Rows are kept *)

Lemma upsert_keys (pid : Z) (today : string) (sold new_inv : Z) (d : db) :
  map stats_key (daily_stats (upsert_daily_stats pid today sold new_inv d))
  = map stats_key (daily_stats d)
    ++ (if existsb (stats_conflict pid today) (daily_stats d)
        then [] else [(pid, today)]).
Proof.
  unfold upsert_daily_stats. simpl.
  destruct (existsb (stats_conflict pid today) (daily_stats d)).
  - rewrite app_nil_r, map_map. apply map_ext. intros r.
    destruct (stats_conflict pid today r); reflexivity.
  - rewrite map_app. reflexivity.
Qed.

(** X4. No call of [log_transaction], failed or not, deletes or
    re-identifies a row: products keep their id, name and price,
    batches their id, product, expiry and entry date, the ledger and
    the daily statistics keep every row they had and gain at most one. *)
Theorem log_transaction_keeps_rows :
  forall (faults : fault_plan) (today : string) (d : db) (name : string)
         (q : Z) (t : string),
    let d' := snd (log_transaction faults today d name q t) in
    map (fun r => (p_id r, p_name r, p_price r)) (products d')
    = map (fun r => (p_id r, p_name r, p_price r)) (products d)
    /\ map (fun b => (b_id b, b_product_id b, b_expiry_date b, b_entry_date b))
         (inventory_batches d')
       = map (fun b => (b_id b, b_product_id b, b_expiry_date b,
                        b_entry_date b))
           (inventory_batches d)
    /\ (exists rows, inventory_ledger d' = inventory_ledger d ++ rows
                     /\ (List.length rows <= 1)%nat)
    /\ (exists keys, map stats_key (daily_stats d')
                     = map stats_key (daily_stats d) ++ keys
                     /\ (List.length keys <= 1)%nat).
Proof.
  intros faults today d name q t d'. subst d'.
  destruct (log_transaction_outcomes faults today d name q t)
    as [[msg Herr] | (pid & i & Hsel & Hrun)].
  - rewrite Herr. simpl. repeat split.
    + exists []. rewrite app_nil_r. auto.
    + exists []. rewrite app_nil_r. auto.
  - rewrite Hrun. simpl. repeat split.
    + rewrite written_products. simpl. rewrite map_map. apply map_ext.
      intros r. destruct (p_id r =? pid); reflexivity.
    + rewrite written_batches. destruct (String.eqb t "SALE"); [| reflexivity].
      rewrite fifo_deduct_spec, map_map. reflexivity.
    + rewrite written_ledger. eexists. split; [reflexivity | simpl; lia].
    + rewrite written_stats, upsert_keys. simpl.
      eexists. split; [reflexivity |].
      destruct (existsb _ _); simpl; lia.
Qed.

(** *** The daily row *)





(** *** The stock left in the batches *)

Import Frame.

Lemma sumZ_app (l1 l2 : list Z) : sumZ (l1 ++ l2) = sumZ l1 + sumZ l2.
Proof. induction l1 as [| x l1 IH]; simpl; lia. Qed.

Lemma sumZ_perm (l1 l2 : list Z) : Permutation l1 l2 -> sumZ l1 = sumZ l2.
Proof. induction 1; simpl; lia. Qed.

Lemma sumZ_positive (bs : list (Z * Z)) :
  Forall (fun p => 0 < snd p) bs -> 0 <= sumZ (map snd bs).
Proof. induction 1; simpl; lia. Qed.

(** The loop takes the quantity asked for, or all there is. *)
Lemma deducted_in_all (bs : list (Z * Z)) :
  forall rem,
    NoDup (map fst bs) -> Forall (fun p => 0 < snd p) bs -> 0 <= rem ->
    sumZ (map (fun p => deducted bs rem (fst p)) bs)
    = Z.min rem (sumZ (map snd bs)).
Proof.
  induction bs as [| [b bq] bs IH]; intros rem Hnd Hpos Hrem; simpl.
  - lia.
  - inversion Hnd as [| ? ? Hfresh Hnd']; subst.
    inversion Hpos as [| ? ? Hbq Hpos']; subst. simpl in Hbq.
    pose proof (sumZ_positive bs Hpos') as Hsum.
    destruct (rem <=? 0) eqn:E.
    + apply Z.leb_le in E.
      assert (Hz : sumZ (map (fun _ : Z * Z => 0) bs) = 0).
      { clear. induction bs; simpl; lia. }
      rewrite Hz. lia.
    + apply Z.leb_gt in E. rewrite Z.eqb_refl.
      rewrite (deducted_absent bs _ b Hfresh).
      assert (Hrest :
                map (fun p =>
                       (if b =? fst p then Z.min bq rem else 0)
                       + deducted bs (rem - Z.min bq rem) (fst p)) bs
                = map (fun p => deducted bs (rem - Z.min bq rem) (fst p)) bs).
      { apply map_ext_in. intros p Hp.
        destruct (b =? fst p) eqn:Eb; [| lia].
        apply Z.eqb_eq in Eb. exfalso. apply Hfresh. rewrite Eb.
        now apply in_map. }
      rewrite Hrest, IH by (auto; lia). lia.
Qed.

(** Row by row, what is left of the eligible batches. *)
Lemma eligible_after (pid : Z) (ded : Z -> Z) (l : list batch_row) :
  Forall (fun b =>
            (eligible pid b = true -> 0 <= ded (b_id b) <= b_quantity b)
            /\ (eligible pid b = false -> ded (b_id b) = 0)) l ->
  batch_total pid (map (fun b => take (ded (b_id b)) b) l)
  = batch_total pid l
    - sumZ (map (fun b => ded (b_id b)) (filter (eligible pid) l)).
Proof.
  unfold batch_total.
  induction 1 as [| b l [Hyes Hno] _ IH]; simpl; [reflexivity |].
  destruct (eligible pid b) eqn:E.
  - specialize (Hyes eq_refl). simpl.
    change (eligible pid (take (ded (b_id b)) b))
      with ((b_product_id b =? pid) && (0 <? b_quantity b - ded (b_id b))).
    unfold eligible in E.
    apply andb_true_iff in E. destruct E as [Ep Eq]. rewrite Ep. simpl.
    destruct (0 <? b_quantity b - ded (b_id b)) eqn:El; simpl.
    + lia.
    + apply Z.ltb_ge in El. lia.
  - rewrite (Hno eq_refl), take_zero, E. exact IH.
Qed.

(** X6. With unique batch ids, a successful SALE of [q >= 0] units
    leaves in the batches of the product [max(0, S - q)] units, [S]
    being what they held: the loop takes the whole quantity or empties
    the batches.  If the batches held what the cached inventory said,
    they still do afterwards. *)
Theorem sale_leaves_batches_in_step :
  forall (faults : fault_plan) (today : string) (d : db) (name : string)
         (q n : Z),
    NoDup (map b_id (inventory_batches d)) ->
    0 <= q ->
    fst (log_transaction faults today d name q "SALE") = Success n ->
    let d' := snd (log_transaction faults today d name q "SALE") in
    exists pid i,
      select_product name d = Some (pid, i)
      /\ batch_total pid (inventory_batches d')
         = Z.max 0 (batch_total pid (inventory_batches d) - q)
      /\ (batch_total pid (inventory_batches d) = i ->
          batch_total pid (inventory_batches d') = n).
Proof.
  intros faults today d name q n Hnd Hq Hn d'. subst d'.
  destruct (log_transaction_success faults today d name q "SALE" n Hn)
    as (pid & i & Hsel & Hval & Hdb).
  simpl in Hval. rewrite Hdb. exists pid, i. split; [exact Hsel |].
  rewrite written_batches. simpl. rewrite fifo_deduct_spec.
  pose proof (select_batches_ids pid d Hnd) as Hids.
  pose proof (select_batches_positive pid d) as Hpos.
  rewrite (eligible_after pid (deducted (select_batches pid d) q)).
  - assert (Hperm : Permutation
                      (filter (eligible pid) (inventory_batches d))
                      (order_by_expiry
                         (filter (eligible pid) (inventory_batches d))))
      by apply order_by_expiry_perm.
    rewrite (sumZ_perm _ _
               (Permutation_map
                  (fun b => deducted (select_batches pid d) q (b_id b))
                  Hperm)).
    assert (Htaken :
              sumZ (map (fun b => deducted (select_batches pid d) q (b_id b))
                      (order_by_expiry
                         (filter (eligible pid) (inventory_batches d))))
              = Z.min q (batch_total pid (inventory_batches d))).
    { pose proof (deducted_in_all (select_batches pid d) q Hids Hpos Hq)
        as Hall.
      unfold select_batches in Hall at 2 3. rewrite !map_map in Hall.
      simpl in Hall. rewrite Hall. f_equal.
      unfold batch_total. symmetry. apply sumZ_perm.
      now apply Permutation_map. }
    rewrite Htaken. split; [lia |].
    intros Hi. lia.
  - apply Forall_forall. intros b Hin. split.
    + intros He. split.
      * now apply deducted_nonneg.
      * apply deducted_le; auto. now apply select_batches_eligible.
    + intros He. apply deducted_absent. intros Hsel'.
      rewrite (select_batches_only_eligible pid d b Hnd Hin Hsel') in He.
      discriminate.
Qed.

Lemma sale_leaves_batches_in_step_witness :
  let d' :=
    snd (log_transaction no_faults "2025-01-03" Samples.store "Milk" 3
           "SALE") in
  exists pid i,
    select_product "Milk" Samples.store = Some (pid, i)
    /\ batch_total pid (inventory_batches d')
       = Z.max 0 (batch_total pid (inventory_batches Samples.store) - 3)
    /\ (batch_total pid (inventory_batches Samples.store) = i ->
        batch_total pid (inventory_batches d') = 2).
Proof.
  apply (sale_leaves_batches_in_step
           no_faults "2025-01-03" Samples.store "Milk" 3 2).
  - repeat constructor; simpl; intuition congruence.
  - lia.
  - reflexivity.
Defined.

End LedgerFacts.

(** ** The FIFO queue of a sale *)

Module FifoFacts.

Import Py Frame Database DatabaseFacts Ledger LedgerFacts.

Local Open Scope Z_scope.



(** *** ISO dates under SQLite's order *)

Lemma iso_date_of_a_day : iso_date 2025 1 5 = "2025-01-05"%string.
Proof. reflexivity. Qed.

Lemma digit_compare (i j : Z) :
  0 <= i < 10 -> 0 <= j < 10 ->
  Ascii.compare (digit i) (digit j) = (i ?= j).
Proof.
  intros Hi Hj. unfold Ascii.compare, digit.
  rewrite !N_ascii_embedding.
  - rewrite Z2N.inj_compare by lia. apply Z.add_compare_mono_l.
  - change 256%N with (Z.to_N 256). apply Z2N.inj_lt; lia.
  - change 256%N with (Z.to_N 256). apply Z2N.inj_lt; lia.
Qed.

(** Two texts that begin with two digits compare as the two numbers,
    and as what follows when these are the same. *)
Lemma two_digits_compare (a b : Z) (s t : string) :
  0 <= a < 100 -> 0 <= b < 100 ->
  String.compare (two_digits a ++ s) (two_digits b ++ t)
  = match a ?= b with
    | Eq => String.compare s t
    | c => c
    end.
Proof.
  intros Ha Hb. unfold two_digits. cbn [append String.compare].
  rewrite (digit_compare (a / 10) (b / 10))
    by (split; [apply Z.div_pos | apply Z.div_lt_upper_bound]; lia).
  rewrite (digit_compare (a mod 10) (b mod 10))
    by (apply Z.mod_pos_bound; lia).
  pose proof (Z.div_mod a 10 ltac:(lia)) as Ea.
  pose proof (Z.div_mod b 10 ltac:(lia)) as Eb.
  pose proof (Z.mod_pos_bound a 10 ltac:(lia)) as Ma.
  pose proof (Z.mod_pos_bound b 10 ltac:(lia)) as Mb.
  destruct (Z.compare_spec (a / 10) (b / 10));
    destruct (Z.compare_spec (a mod 10) (b mod 10));
    destruct (Z.compare_spec a b); try reflexivity; exfalso; lia.
Qed.

(** Among the dates written as [YYYY-MM-DD] the order of SQLite is the
    order of the days. *)
Lemma iso_dates_sort_by_day (y m d y' m' d' : Z) :
  0 <= y < 10000 -> 0 <= m < 100 -> 0 <= d < 100 ->
  0 <= y' < 10000 -> 0 <= m' < 100 -> 0 <= d' < 100 ->
  (expiry_lt (Text (iso_date y m d)) (Text (iso_date y' m' d'))
   <-> y < y' \/ (y = y' /\ (m < m' \/ (m = m' /\ d < d')))).
Proof.
  intros Hy Hm Hd Hy' Hm' Hd'.
  unfold expiry_lt, expiry_leb. cbn [rank number_of bytes_of Z.compare].
  change (Qle_bool 0 0) with true. cbn [andb].
  unfold String.leb. rewrite String.compare_antisym.
  assert (Hc : String.compare (iso_date y m d) (iso_date y' m' d')
               = match y / 100 ?= y' / 100 with
                 | Eq =>
                     match y mod 100 ?= y' mod 100 with
                     | Eq =>
                         match m ?= m' with
                         | Eq => match d ?= d' with
                                 | Eq => Eq
                                 | c => c
                                 end
                         | c => c
                         end
                     | c => c
                     end
                 | c => c
                 end).
  { unfold iso_date.
    rewrite two_digits_compare
      by (split; [apply Z.div_pos | apply Z.div_lt_upper_bound]; lia).
    rewrite two_digits_compare by (apply Z.mod_pos_bound; lia).
    cbn [append String.compare]. change (Ascii.compare "-" "-") with Eq.
    cbv iota.
    rewrite two_digits_compare by assumption.
    cbn [append String.compare]. change (Ascii.compare "-" "-") with Eq.
    cbv iota.
    change (two_digits d) with (two_digits d ++ "")%string.
    change (two_digits d') with (two_digits d' ++ "")%string.
    rewrite two_digits_compare by assumption. reflexivity. }
  rewrite Hc. clear Hc.
  pose proof (Z.div_mod y 100 ltac:(lia)) as Ey.
  pose proof (Z.div_mod y' 100 ltac:(lia)) as Ey'.
  pose proof (Z.mod_pos_bound y 100 ltac:(lia)) as My.
  pose proof (Z.mod_pos_bound y' 100 ltac:(lia)) as My'.
  destruct (Z.compare_spec (y / 100) (y' / 100));
    destruct (Z.compare_spec (y mod 100) (y' mod 100));
    destruct (Z.compare_spec m m');
    destruct (Z.compare_spec d d');
    cbn [CompOpp]; split; intros Hgoal; try discriminate Hgoal;
    try reflexivity; try lia.
Qed.




End FifoFacts.

(** ** More on the forecast *)

Module ForecastShape.

Import Py Frame Forecasting PyFacts ForecastingFacts.

Local Open Scope Q_scope.


Lemma tail_all {A} (n : nat) (l : list A) :
  (List.length l <= n)%nat -> tail n l = l.
Proof.
  intros H. unfold tail.
  replace (List.length l - n)%nat with 0%nat by lia. reflexivity.
Qed.


Lemma sort_values_date_perm (l : list row) :
  Permutation l (sort_values_date l).
Proof.
  induction l as [| r l IH]; simpl; [constructor |].
  apply (Permutation_trans (perm_skip r IH)).
  generalize (sort_values_date l). clear. intros l.
  induction l as [| x l IH]; simpl; [apply Permutation_refl |].
  destruct (date r <=? date x)%Z; [apply Permutation_refl |].
  apply (Permutation_trans (perm_swap x r l)). now apply perm_skip.
Qed.









(** *** The order of the rows *)

Lemma insert_by_date_sorted (r : row) (l : list row) :
  StronglySorted (fun x y => (date x <= date y)%Z) l ->
  StronglySorted (fun x y => (date x <= date y)%Z) (insert_by_date r l).
Proof.
  induction 1 as [| x l Hs IH Hall]; simpl.
  - repeat constructor.
  - destruct (date r <=? date x)%Z eqn:E.
    + apply Z.leb_le in E. constructor; [now constructor |].
      constructor; [exact E |].
      eapply Forall_impl; [| exact Hall]. simpl. intros y Hy. lia.
    + apply Z.leb_gt in E. constructor; [exact IH |].
      assert (Hperm : Permutation (r :: l) (insert_by_date r l)).
      { clear. induction l as [| y l IH]; simpl; [apply Permutation_refl |].
        destruct (date r <=? date y)%Z; [apply Permutation_refl |].
        apply (Permutation_trans (perm_swap y r l)). now apply perm_skip. }
      eapply Permutation_Forall; [exact Hperm |].
      constructor; [lia | exact Hall].
Qed.

Lemma sort_values_date_sorted (l : list row) :
  StronglySorted (fun x y => (date x <= date y)%Z) (sort_values_date l).
Proof.
  induction l as [| r l IH]; simpl; [constructor |].
  now apply insert_by_date_sorted.
Qed.

Lemma same_date_same_row (l : list row) (x y : row) :
  NoDup (map date l) -> In x l -> In y l -> date x = date y -> x = y.
Proof.
  induction l as [| z l IH]; simpl; intros Hnd Hx Hy Hd; [contradiction |].
  apply NoDup_cons_iff in Hnd. destruct Hnd as [Hfresh Hnd].
  destruct Hx as [-> | Hx], Hy as [-> | Hy]; auto; exfalso; apply Hfresh.
  - rewrite Hd. now apply in_map.
  - rewrite <- Hd. now apply in_map.
Qed.

(** Two orderings by date of the same rows are one, when no two rows
    share a date. *)
Lemma sorted_by_date_unique (l1 : list row) :
  forall l2,
    StronglySorted (fun x y => (date x <= date y)%Z) l1 ->
    StronglySorted (fun x y => (date x <= date y)%Z) l2 ->
    Permutation l1 l2 -> NoDup (map date l1) -> l1 = l2.
Proof.
  induction l1 as [| x l1 IH]; intros l2 Hs1 Hs2 Hperm Hnd.
  - apply Permutation_nil in Hperm. now subst.
  - destruct l2 as [| y l2].
    + apply Permutation_sym, Permutation_nil in Hperm. discriminate.
    + assert (Hxy : x = y).
      { assert (Hy : In y (x :: l1)).
        { eapply Permutation_in; [apply Permutation_sym, Hperm | now left]. }
        assert (Hx : In x (y :: l2)).
        { eapply Permutation_in; [exact Hperm | now left]. }
        destruct Hy as [Hy | Hy]; [exact Hy |].
        destruct Hx as [Hx | Hx]; [now symmetry |].
        inversion Hs1 as [| ? ? _ Hall1]; subst.
        inversion Hs2 as [| ? ? _ Hall2]; subst.
        rewrite Forall_forall in Hall1, Hall2.
        specialize (Hall1 y Hy). specialize (Hall2 x Hx). simpl in *.
        apply (same_date_same_row (x :: l1)); simpl; auto. lia. }
      subst y. f_equal.
      inversion Hs1; inversion Hs2; subst.
      apply IH; auto.
      * eapply Permutation_cons_inv. exact Hperm.
      * simpl in Hnd. now apply NoDup_cons_iff in Hnd.
Qed.

(** X9. The forecast does not depend on the order in which the rows of
    the history arrive, as long as no two rows carry the same date:
    they are put in date order first. *)
Theorem forecast_ignores_row_order :
  forall h h' : list row,
    Permutation h h' ->
    NoDup (map date h) ->
    forecast_demand h = forecast_demand h'.
Proof.
  intros h h' Hperm Hnd.
  assert (Hsort : sort_values_date h = sort_values_date h').
  { apply sorted_by_date_unique.
    - apply sort_values_date_sorted.
    - apply sort_values_date_sorted.
    - eapply Permutation_trans;
        [apply Permutation_sym, sort_values_date_perm |].
      eapply Permutation_trans; [exact Hperm |].
      apply sort_values_date_perm.
    - eapply Permutation_NoDup; [| exact Hnd].
      apply Permutation_map, sort_values_date_perm. }
  unfold forecast_demand. now rewrite Hsort.
Qed.

Lemma forecast_ignores_row_order_witness :
  forecast_demand Samples.three_days
  = forecast_demand (rev Samples.three_days).
Proof.
  apply (forecast_ignores_row_order
           Samples.three_days (rev Samples.three_days)).
  - apply Permutation_rev.
  - repeat constructor; simpl; intuition discriminate.
Defined.

(** *** Steady sales *)

Lemma sumZ_steady (c : Z) (l : list Z) :
  Forall (fun x => x = c) l ->
  sumZ l = (Z.of_nat (List.length l) * c)%Z.
Proof. induction 1; simpl sumZ; simpl List.length; subst; lia. Qed.

Lemma meanQ_steady (c : Z) (l : list Z) :
  l <> [] -> Forall (fun x => x = c) l -> meanQ l == inject_Z c.
Proof.
  intros Hl Hc. unfold meanQ. rewrite (sumZ_steady c l Hc), inject_Z_mult.
  assert (Hn : ~ inject_Z (Z.of_nat (List.length l)) == 0).
  { destruct l as [| x l]; [contradiction |]. simpl List.length.
    unfold Qeq. simpl. lia. }
  field. exact Hn.
Qed.







Lemma tail_nonempty {A} (n : nat) (l : list A) :
  l <> [] -> (0 < n)%nat -> tail n l <> [].
Proof.
  intros Hl Hn E. unfold tail in E.
  apply (f_equal (@List.length A)) in E. rewrite length_skipn in E.
  change (List.length (@nil A)) with 0%nat in E.
  assert (Hpos : (0 < List.length l)%nat)
    by (destruct l; [contradiction | simpl; lia]).
  lia.
Qed.




End ForecastShape.

(** ** More on the two classifiers *)

Module ClassifierFacts.

Import Py Frame PyFacts.

Lemma assess_critical_expiry :
  forall (now : Z) (h : list row) (f : Forecasting.forecast)
         (current_date : option Z) (latest : row) (e : Z),
    InventoryRisk.iloc_last h = inr latest ->
    expiry_date latest = Some e ->
    days_between e (match current_date with Some c => c | None => now end)
    <= 1 ->
    exists r,
      InventoryRisk.assess_inventory_risk now h f current_date = inr r
      /\ InventoryRisk.risk_level r = Risk.HIGH_RISK
      /\ InventoryRisk.expiry_risk r = Expiry.CRITICAL
      /\ InventoryRisk.reason r
         = InventoryRisk.ImmediateClearance
             (days_between e
                (match current_date with Some c => c | None => now end)).
Proof.
  intros now h f current_date latest e Hlast He Hd.
  unfold InventoryRisk.assess_inventory_risk. rewrite Hlast.
  unfold bind. rewrite He. simpl option_map. cbv beta iota.
  unfold InventoryRisk.expiry_level_of.
  apply Z.leb_le in Hd. rewrite Hd.
  eexists. split; [reflexivity |]. simpl. auto.
Qed.

(** X11. In [assess_inventory_risk] an expiry at most one day after the
    current date decides alone: the product is HIGH_RISK with expiry
    risk CRITICAL whatever its stock and demand are, and the reason is
    the clearance message. *)
Theorem critical_expiry_forces_high_risk :
  forall (now : Z) (h : list row) (f : Forecasting.forecast)
         (current_date : option Z) (latest : row) (e : Z),
    InventoryRisk.iloc_last h = inr latest ->
    expiry_date latest = Some e ->
    days_between e (match current_date with Some c => c | None => now end)
    <= 1 ->
    exists r,
      InventoryRisk.assess_inventory_risk now h f current_date = inr r
      /\ InventoryRisk.risk_level r = Risk.HIGH_RISK
      /\ InventoryRisk.expiry_risk r = Expiry.CRITICAL
      /\ InventoryRisk.reason r
         = InventoryRisk.ImmediateClearance
             (days_between e
                (match current_date with Some c => c | None => now end)).
Proof. exact assess_critical_expiry. Qed.

Lemma critical_expiry_forces_high_risk_witness :
  exists r,
    InventoryRisk.assess_inventory_risk 0 [Samples.last_day_before_expiry]
      Samples.three_a_day None = inr r
    /\ InventoryRisk.risk_level r = Risk.HIGH_RISK
    /\ InventoryRisk.expiry_risk r = Expiry.CRITICAL
    /\ InventoryRisk.reason r = InventoryRisk.ImmediateClearance 1.
Proof.
  apply (critical_expiry_forces_high_risk
           0 [Samples.last_day_before_expiry] Samples.three_a_day None
           Samples.last_day_before_expiry Frame.seconds_per_day).
  - reflexivity.
  - reflexivity.
  - vm_compute. discriminate.
Defined.

Import RiskEngine RiskEngineFacts.

Lemma expiry_points_bounds (m : metrics) :
  0 <= snd (fst (expiry_check m)) <= 100.
Proof.
  unfold expiry_check. destruct (RiskEngine.expiry_date m); simpl; [| lia].
  repeat match goal with
         | |- context [if ?c then _ else _] => destruct c; simpl
         end; lia.
Qed.

(** X12. The risk score lies between 0 and 190 and the opportunity
    score between 0 and 90; without an expiry date the risk score stops
    at 90.  The upper end is reached: the score is not confined to the
    0-100 range. *)
Theorem score_ranges :
  (forall (m : metrics) (forecast_growth : Q),
     let c := classify_product_v2 m forecast_growth in
     0 <= risk_score c <= 190
     /\ 0 <= opportunity_score c <= 90
     /\ (RiskEngine.expiry_date m = None -> risk_score c <= 90))
  /\ risk_score (classify_product_v2 Samples.every_risk_at_once 0) = 190.
Proof.
  split; [| reflexivity].
  intros m g c. subst c. unfold classify_product_v2.
  destruct (expiry_check m) as [[lvl pts] msg] eqn:Hcheck.
  destruct (categorize _ _) as [category prio]. simpl.
  pose proof (expiry_points_bounds m) as Hexp.
  unfold risk_score_of, opportunity_score_of.
  pose proof (points_bounds (lt (trend_7d m) (-10)%Q) 30).
  pose proof (points_bounds (gt (days_of_stock m) 25%Q) 25).
  pose proof (points_bounds (gt (stockout_risk m) (3 # 10)%Q) 20).
  pose proof (points_bounds (gt (volatility m) (4 # 10)%Q) 15).
  pose proof (points_bounds (gt (trend_7d m) 15%Q) 30).
  pose proof (points_bounds (lt (days_of_stock m) 7%Q) 25).
  pose proof (points_bounds (ltb 10%Q g) 20).
  pose proof (points_bounds
                (lt (volatility m) (2 # 10)%Q && gt (trend_7d m) 5%Q) 15).
  repeat split; try lia.
  intros Hnone. unfold expiry_check in Hexp |- *. rewrite Hnone in *.
  simpl in *. lia.
Qed.

(** X13. A product that expires within three days is never classified
    OPPORTUNITY: the expiry alone puts at least 50 points of risk on
    it. *)
Theorem expiring_soon_is_no_opportunity :
  forall (m : metrics) (forecast_growth : Q) (e : Z),
    RiskEngine.expiry_date m = Some e ->
    days_between e (RiskEngine.date m) <= 3 ->
    let c := classify_product_v2 m forecast_growth in
    50 <= risk_score c /\ risk_level c <> Risk.OPPORTUNITY.
Proof.
  intros m g e He Hd c. subst c. unfold classify_product_v2.
  assert (Hpts : 50 <= snd (fst (expiry_check m))).
  { unfold expiry_check. rewrite He.
    destruct (days_between e (RiskEngine.date m) <=? 1) eqn:E1; simpl; [lia |].
    apply Z.leb_le in Hd. rewrite Hd. simpl. lia. }
  assert (Hrisk : 50 <= risk_score_of m).
  { unfold risk_score_of.
    pose proof (points_bounds (lt (trend_7d m) (-10)%Q) 30).
    pose proof (points_bounds (gt (days_of_stock m) 25%Q) 25).
    pose proof (points_bounds (gt (stockout_risk m) (3 # 10)%Q) 20).
    pose proof (points_bounds (gt (volatility m) (4 # 10)%Q) 15).
    lia. }
  destruct (expiry_check m) as [[lvl pts] msg].
  destruct (categorize (risk_score_of m) (opportunity_score_of m g))
    as [category prio] eqn:Hcat.
  simpl. split; [exact Hrisk |].
  unfold categorize in Hcat.
  assert (H30 : (risk_score_of m <? 30) = false) by (apply Z.ltb_ge; lia).
  rewrite H30, andb_false_r in Hcat.
  repeat match type of Hcat with
         | (if ?c then _ else _) = _ => destruct c
         end; inversion Hcat; discriminate.
Qed.

Lemma expiring_soon_is_no_opportunity_witness :
  let c := classify_product_v2 Samples.expiring_but_selling 0 in
  50 <= risk_score c /\ risk_level c <> Risk.OPPORTUNITY.
Proof.
  apply (expiring_soon_is_no_opportunity
           Samples.expiring_but_selling 0 Frame.seconds_per_day).
  - reflexivity.
  - vm_compute. discriminate.
Defined.

(** X14. In [classify_product_v2] an expiry at most one day away gives
    the CRITICAL expiry level and at least 100 points of risk, and the
    classification is HIGH_RISK when the opportunity score is below 30
    and MEDIUM_RISK otherwise; it is never OPPORTUNITY or STABLE. *)
Theorem critical_expiry_is_high_or_medium_risk :
  forall (m : metrics) (forecast_growth : Q) (e : Z),
    RiskEngine.expiry_date m = Some e ->
    days_between e (RiskEngine.date m) <= 1 ->
    let c := classify_product_v2 m forecast_growth in
    expiry_risk c = Expiry.CRITICAL
    /\ 100 <= risk_score c
    /\ (opportunity_score c < 30 -> risk_level c = Risk.HIGH_RISK)
    /\ (30 <= opportunity_score c -> risk_level c = Risk.MEDIUM_RISK)
    /\ risk_level c <> Risk.OPPORTUNITY
    /\ risk_level c <> Risk.STABLE.
Proof.
  intros m g e He Hd c.
  destruct (critical_expiry_classification m g e He Hd)
    as (Hlvl & Hrisk & Hhigh & Hmed).
  fold c in Hlvl, Hrisk, Hhigh, Hmed.
  repeat split; auto.
  - destruct (Z.lt_ge_cases (opportunity_score c) 30) as [Hlt | Hge];
      [rewrite (Hhigh Hlt) | rewrite (Hmed Hge)]; discriminate.
  - destruct (Z.lt_ge_cases (opportunity_score c) 30) as [Hlt | Hge];
      [rewrite (Hhigh Hlt) | rewrite (Hmed Hge)]; discriminate.
Qed.

Lemma critical_expiry_is_high_or_medium_risk_witness :
  let c := classify_product_v2 Samples.every_risk_at_once 0 in
  expiry_risk c = Expiry.CRITICAL
  /\ 100 <= risk_score c
  /\ (opportunity_score c < 30 -> risk_level c = Risk.HIGH_RISK)
  /\ (30 <= opportunity_score c -> risk_level c = Risk.MEDIUM_RISK)
  /\ risk_level c <> Risk.OPPORTUNITY
  /\ risk_level c <> Risk.STABLE.
Proof.
  apply (critical_expiry_is_high_or_medium_risk
           Samples.every_risk_at_once 0 Frame.seconds_per_day).
  - reflexivity.
  - vm_compute. discriminate.
Defined.

End ClassifierFacts.

(** ** The metrics behind the classification *)

Module MetricsFacts.

Import Py Frame PyFacts RiskMetrics ForecastShape.

Local Open Scope Q_scope.

Lemma tail_length {A} (n : nat) (l : list A) :
  List.length (tail n l) = Nat.min n (List.length l).
Proof. unfold tail. rewrite length_skipn. lia. Qed.

Lemma iloc_last_tail (n : nat) (l : list row) :
  l <> [] -> (0 < n)%nat ->
  exists r, InventoryRisk.iloc_last (tail n l) = inr r.
Proof.
  intros Hl Hn. apply InventoryRiskFacts.iloc_last_nonempty.
  now apply tail_nonempty.
Qed.

(** With no more than [days] observations there is nothing older to
    compare with. *)
Lemma calculate_trend_single_window (s : list Z) (days : nat) :
  (List.length s <= days)%nat -> calculate_trend s days == 0.
Proof.
  intros Hlen. unfold calculate_trend.
  destruct (List.length s <? days)%nat eqn:E; [reflexivity |].
  apply Nat.ltb_ge in E. assert (Heq : List.length s = days) by lia.
  destruct (days * 2 <=? List.length s)%nat eqn:E2.
  - apply Nat.leb_le in E2.
    destruct s as [| x s]; [| simpl in *; lia].
    rewrite <- Heq. reflexivity.
  - rewrite firstn_all2 by lia. rewrite (tail_all days s) by lia.
    destruct s as [| x s]; [reflexivity |].
    destruct (Qeq_bool _ 0); [reflexivity |].
    unfold Qdiv. ring.
Qed.

(** X15. The metrics are computed on the last 30 rows only, so the
    30-day trend never has an earlier window to compare with and is
    always 0; the 7-day trend is 0 as well for a history of at most
    seven rows. *)
Theorem trend_30d_is_always_zero :
  forall h : list row,
    h <> [] ->
    exists m,
      calculate_metrics h = inr m
      /\ trend_30d m == 0
      /\ ((List.length h <= 7)%nat ->
          exists t, RiskEngine.trend_7d (core m) = Fin t /\ t == 0).
Proof.
  intros h Hh. unfold calculate_metrics.
  destruct (InventoryRiskFacts.iloc_last_nonempty h Hh) as [latest Hlast].
  destruct (iloc_last_tail 30 h Hh ltac:(lia)) as [last_recent Hrecent].
  rewrite Hlast, Hrecent.
  destruct h as [| first h']; [contradiction |].
  unfold bind, iloc_first, ok. eexists. split; [reflexivity |].
  simpl trend_30d. simpl core. cbn [RiskEngine.trend_7d]. split.
  - apply calculate_trend_single_window.
    rewrite length_map, tail_length. lia.
  - intros Hshort. eexists. split; [reflexivity |].
    apply calculate_trend_single_window.
    rewrite length_map, tail_length. lia.
Qed.

Lemma trend_30d_is_always_zero_witness :
  exists m,
    calculate_metrics Samples.three_days = inr m
    /\ trend_30d m == 0
    /\ ((List.length Samples.three_days <= 7)%nat ->
        exists t, RiskEngine.trend_7d (core m) = Fin t /\ t == 0).
Proof.
  apply (trend_30d_is_always_zero Samples.three_days). discriminate.
Defined.

Lemma min_le_first (a b : Q) : Py.min a b <= a.
Proof.
  unfold Py.min. destruct (ltb b a) eqn:E; [| lra].
  apply ltb_lt in E. lra.
Qed.

Lemma max_zero_bounds (y : Q) : y <= 1 -> 0 <= Py.max 0 y <= 1.
Proof.
  intros Hy. unfold Py.max. destruct (ltb 0 y) eqn:E.
  - apply ltb_lt in E. lra.
  - lra.
Qed.

(** X16. The stock-out risk is always a number between 0 and 1.  It is
    0 for a window without sales, and 1 for a window of a single day
    with sales, whose deviation is not a number. *)
Theorem stockout_risk_is_a_probability :
  (forall recent : list row,
     0 <= calculate_stockout_risk recent <= 1)
  /\ (forall recent : list row,
        recent <> [] -> Forall (fun r => sales r = 0%Z) recent ->
        calculate_stockout_risk recent == 0)
  /\ (forall r : row,
        sales r <> 0%Z -> calculate_stockout_risk [r] == 1).
Proof.
  split; [| split].
  - intros recent. unfold calculate_stockout_risk.
    destruct (mean (map sales recent)) as [sm |];
      [| apply max_zero_bounds; lra].
    destruct (Qeq_bool sm 0); [lra |].
    destruct (std (map sales recent)) as [sd |];
      [| apply max_zero_bounds; lra].
    destruct (mean (map inventory recent)) as [im |];
      [| apply max_zero_bounds; lra].
    apply max_zero_bounds. apply min_le_first.
  - intros recent Hne Hzero. unfold calculate_stockout_risk.
    assert (Hs : map sales recent <> []).
    { intros E. now apply map_eq_nil in E. }
    assert (Hc : Forall (fun x => x = 0%Z) (map sales recent)).
    { apply Forall_forall. intros x Hx. apply in_map_iff in Hx.
      destruct Hx as (r & <- & Hr).
      rewrite Forall_forall in Hzero. now apply Hzero. }
    pose proof (meanQ_steady 0 _ Hs Hc) as Hm.
    destruct (map sales recent) as [| x l] eqn:El; [contradiction |].
    change (mean (x :: l)) with (Fin (meanQ (x :: l))).
    change (inject_Z 0) with 0 in Hm.
    apply Qeq_bool_iff in Hm. cbv iota beta. rewrite Hm. reflexivity.
  - intros r Hr. unfold calculate_stockout_risk. simpl.
    destruct (Qeq_bool _ 0) eqn:E; [| reflexivity].
    exfalso. apply Qeq_bool_iff in E. unfold Qeq in E. simpl in E. lia.
Qed.

(** *** A product that does not sell *)

Lemma mean_of_no_sales (l : list Z) :
  l <> [] -> Forall (fun x => x = 0%Z) l ->
  exists v, mean l = Fin v /\ Qeq_bool v 0 = true /\ ltb 0 v = false.
Proof.
  intros Hl Hc. pose proof (meanQ_steady 0 l Hl Hc) as Hm.
  change (inject_Z 0) with 0 in Hm.
  destruct l as [| x l]; [contradiction |].
  exists (meanQ (x :: l)). split; [reflexivity |]. split.
  - now apply Qeq_bool_iff.
  - apply ltb_ge. rewrite Hm. apply Qle_refl.
Qed.

Lemma steady_prefix (n : nat) (l : list Z) :
  Forall (fun x => x = 0%Z) l -> Forall (fun x => x = 0%Z) (firstn n l).
Proof.
  intros H. rewrite <- (firstn_skipn n l) in H.
  apply Forall_app in H. tauto.
Qed.

Lemma steady_suffix (n : nat) (l : list Z) :
  Forall (fun x => x = 0%Z) l -> Forall (fun x => x = 0%Z) (skipn n l).
Proof.
  intros H. rewrite <- (firstn_skipn n l) in H.
  apply Forall_app in H. tauto.
Qed.

Lemma calculate_trend_no_sales (s : list Z) (days : nat) :
  Forall (fun x => x = 0%Z) s -> calculate_trend s days = 0.
Proof.
  intros Hc. unfold calculate_trend.
  destruct (List.length s <? days)%nat; [reflexivity |].
  set (older := if (days * 2 <=? List.length s)%nat
                then firstn days (skipn (List.length s - days * 2) s)
                else firstn days s).
  assert (Ho : Forall (fun x => x = 0%Z) older).
  { subst older. destruct (days * 2 <=? List.length s)%nat.
    - now apply steady_prefix, steady_suffix.
    - now apply steady_prefix. }
  destruct older as [| x l] eqn:E; [reflexivity |].
  assert (Hm : meanQ (x :: l) == 0).
  { apply (meanQ_steady 0); [discriminate | exact Ho]. }
  apply Qeq_bool_iff in Hm. now rewrite Hm.
Qed.

(** X17. A product without a sale in its last 30 rows gets the 999
    days-of-stock sentinel, no volatility, no trend and no stock-out
    risk from [calculate_metrics], and [classify_product_v2] then
    always flags it: MEDIUM_RISK, or HIGH_RISK when it also expires
    within three days; never STABLE or OPPORTUNITY. *)
Theorem unsold_stock_is_flagged :
  forall (h : list row) (forecast_growth : Q),
    h <> [] ->
    Forall (fun r => sales r = 0%Z) (tail 30 h) ->
    exists m,
      calculate_metrics h = inr m
      /\ RiskEngine.days_of_stock (core m) = Fin 999
      /\ RiskEngine.volatility (core m) = Fin 0
      /\ RiskEngine.trend_7d (core m) = Fin 0
      /\ RiskEngine.stockout_risk (core m) = Fin 0
      /\ let c := RiskEngine.classify_product_v2 (core m) forecast_growth in
         (25 <= RiskEngine.risk_score c)%Z
         /\ (RiskEngine.opportunity_score c <= 20)%Z
         /\ (RiskEngine.risk_level c = Risk.MEDIUM_RISK
             \/ RiskEngine.risk_level c = Risk.HIGH_RISK).
Proof.
  intros h g Hh Hzero. unfold calculate_metrics.
  destruct (InventoryRiskFacts.iloc_last_nonempty h Hh) as [latest Hlast].
  destruct (iloc_last_tail 30 h Hh ltac:(lia)) as [last_recent Hrecent].
  rewrite Hlast, Hrecent.
  assert (Hs : map sales (tail 30 h) <> []).
  { intros E. apply map_eq_nil in E.
    now apply (tail_nonempty 30 h Hh ltac:(lia)). }
  assert (Hc : Forall (fun x => x = 0%Z) (map sales (tail 30 h))).
  { apply Forall_forall. intros x Hx. apply in_map_iff in Hx.
    destruct Hx as (r & <- & Hr).
    rewrite Forall_forall in Hzero. now apply Hzero. }
  destruct (mean_of_no_sales _ Hs Hc) as (v & Hmean & Heq & Hlt).
  assert (Hrisk : calculate_stockout_risk (tail 30 h) = 0).
  { unfold calculate_stockout_risk. rewrite Hmean, Heq. reflexivity. }
  destruct h as [| first h']; [contradiction |].
  unfold bind, iloc_first, ok. eexists. split; [reflexivity |].
  cbn [core RiskEngine.days_of_stock RiskEngine.volatility
       RiskEngine.trend_7d RiskEngine.stockout_risk].
  rewrite Hmean, Hrisk, (calculate_trend_no_sales _ 7 Hc).
  unfold gt. rewrite Hlt.
  repeat (split; [reflexivity |]).
  unfold RiskEngine.classify_product_v2.
  destruct (RiskEngine.expiry_check _) as [[lvl pts] msg] eqn:Hcheck.
  destruct (RiskEngine.categorize _ _) as [category prio] eqn:Hcat.
  cbn [RiskEngine.risk_score RiskEngine.opportunity_score
       RiskEngine.risk_level].
  unfold RiskEngine.risk_score_of, RiskEngine.opportunity_score_of in *.
  rewrite Hcheck in *. cbn [fst snd] in *.
  cbn [RiskEngine.days_of_stock RiskEngine.volatility RiskEngine.trend_7d
       RiskEngine.stockout_risk] in *.
  pose proof (ClassifierFacts.expiry_points_bounds
                {|
                  RiskEngine.current_avg := Fin v;
                  RiskEngine.trend_7d := Fin 0;
                  RiskEngine.volatility := Fin 0;
                  RiskEngine.days_of_stock := Fin 999;
                  RiskEngine.stockout_risk := Fin 0;
                  RiskEngine.expiry_date := expiry_date latest;
                  RiskEngine.date := date latest
                |}) as Hpts.
  rewrite Hcheck in Hpts. cbn [fst snd] in Hpts.
  change (lt (Fin 0) (-10)) with false in *.
  change (gt (Fin 999) 25) with true in *.
  change (gt (Fin 0) (3 # 10)) with false in *.
  change (gt (Fin 0) (4 # 10)) with false in *.
  change (gt (Fin 0) 15) with false in *.
  change (lt (Fin 999) 7) with false in *.
  change (gt (Fin 0) 5) with false in *.
  rewrite andb_false_r in *.
  unfold RiskEngine.points in *. cbv iota in *.
  assert (Hg : (0 <= (if ltb 10 g then 20 else 0) <= 20)%Z)
    by (destruct (ltb 10 g); lia).
  split; [lia |]. split; [lia |].
  unfold RiskEngine.categorize in Hcat.
  repeat match type of Hcat with
         | (if ?c then _ else _) = _ => destruct c eqn:?
         end; inversion Hcat; subst; auto;
    repeat match goal with
           | H : (_ && _) = _ |- _ =>
               first [apply andb_true_iff in H; destruct H
                     | apply andb_false_iff in H; destruct H]
           | H : (_ <=? _)%Z = true |- _ => apply Z.leb_le in H
           | H : (_ <=? _)%Z = false |- _ => apply Z.leb_gt in H
           | H : (_ <? _)%Z = true |- _ => apply Z.ltb_lt in H
           | H : (_ <? _)%Z = false |- _ => apply Z.ltb_ge in H
           end; lia.
Qed.

Lemma unsold_stock_is_flagged_witness :
  exists m,
    calculate_metrics Samples.idle_week = inr m
    /\ RiskEngine.days_of_stock (core m) = Fin 999
    /\ RiskEngine.volatility (core m) = Fin 0
    /\ RiskEngine.trend_7d (core m) = Fin 0
    /\ RiskEngine.stockout_risk (core m) = Fin 0
    /\ let c := RiskEngine.classify_product_v2 (core m) 0 in
       (25 <= RiskEngine.risk_score c)%Z
       /\ (RiskEngine.opportunity_score c <= 20)%Z
       /\ (RiskEngine.risk_level c = Risk.MEDIUM_RISK
           \/ RiskEngine.risk_level c = Risk.HIGH_RISK).
Proof.
  apply (unsold_stock_is_flagged Samples.idle_week 0).
  - discriminate.
  - repeat constructor.
Defined.

End MetricsFacts.

(** ** Pricing and the analysis of a product *)

Module PricingFacts.

Import Py Frame PyFacts Pricing.

Local Open Scope Q_scope.






(** X19. The prices before the last one change nothing but the wording
    of the reason and the volatility reported: two histories that end
    on the same price get, for the same forecast and risk, the same
    action, the same suggested change and the same suggested price. *)
Theorem pricing_depends_on_last_price_only :
  forall (h h' : list row) (f : Forecasting.forecast) (v : risk_view)
         (r r' : pricing),
    recommend_pricing h f v = inr r ->
    recommend_pricing h' f v = inr r' ->
    current_price r = current_price r' ->
    pricing_action r = pricing_action r'
    /\ suggested_change_pct r = suggested_change_pct r'
    /\ suggested_price r = suggested_price r'.
Proof.
  intros h h' f v r r'. unfold recommend_pricing.
  destruct (rev (tail 7 (map price h))) as [| p t]; [discriminate |].
  destruct (rev (tail 7 (map price h'))) as [| p' t']; [discriminate |].
  unfold bind, ok.
  repeat match goal with
         | |- context [if ?c then (_, _, _) else _] => destruct c
         end;
    intros H H'; injection H as <-; injection H' as <-; simpl;
    intros ->; auto.
Qed.

Lemma pricing_depends_on_last_price_only_witness :
  exists r r',
    recommend_pricing Samples.three_days Samples.three_a_day
      (mk_risk_view Risk.STABLE (Fin 30)) = inr r
    /\ recommend_pricing [Samples.day 9 1 1] Samples.three_a_day
         (mk_risk_view Risk.STABLE (Fin 30)) = inr r'
    /\ pricing_action r = pricing_action r'
    /\ suggested_change_pct r = suggested_change_pct r'
    /\ suggested_price r = suggested_price r'.
Proof.
  eexists. eexists.
  split; [reflexivity |]. split; [reflexivity |].
  apply (pricing_depends_on_last_price_only
           Samples.three_days [Samples.day 9 1 1] Samples.three_a_day
           (mk_risk_view Risk.STABLE (Fin 30))); reflexivity.
Defined.

End PricingFacts.

(** ** The analysis chain *)

Module AnalysisFacts.

Import Py Frame PyFacts Analysis.






Lemma iloc_last_rows (h : list row) (latest : row) :
  InventoryRisk.iloc_last h = inr latest -> h <> [].
Proof. intros H E. subst h. discriminate. Qed.









End AnalysisFacts.

(** ** The arithmetic of the simulations *)

Module SimulatorAlgebra.

Import Py Simulator PyFacts.

Local Open Scope Q_scope.

Lemma round_upper (x : Q) (n : nat) (k : Z) :
  x <= inject_Z k / inject_Z (10 ^ Z.of_nat n) ->
  round x n <= inject_Z k / inject_Z (10 ^ Z.of_nat n).
Proof.
  intros H. pose proof (scale_positive n) as Hs.
  assert (Hneg : inject_Z (- k) / inject_Z (10 ^ Z.of_nat n) <= - x).
  { rewrite inject_Z_opp.
    setoid_replace (- inject_Z k / inject_Z (10 ^ Z.of_nat n))
      with (- (inject_Z k / inject_Z (10 ^ Z.of_nat n))) by (field; lra).
    lra. }
  apply (round_lower _ n) in Hneg. rewrite round_opp, inject_Z_opp in Hneg.
  setoid_replace (- inject_Z k / inject_Z (10 ^ Z.of_nat n))
    with (- (inject_Z k / inject_Z (10 ^ Z.of_nat n))) in Hneg
    by (field; lra).
  lra.
Qed.

Lemma round_nonpositive (x : Q) (n : nat) : x <= 0 -> round x n <= 0.
Proof.
  intros H.
  assert (Hz : inject_Z 0 / inject_Z (10 ^ Z.of_nat n) == 0)
    by (unfold Qdiv; ring).
  rewrite <- Hz. apply round_upper. now rewrite Hz.
Qed.

Lemma scaled_sign (b y : Q) : 0 < b -> (0 < b * y <-> 0 < y).
Proof.
  intros Hb. split; intros H.
  - destruct (Qlt_le_dec 0 y) as [Hy | Hy]; [exact Hy |]. exfalso. nra.
  - nra.
Qed.

Lemma hump (x : Q) : 0 < x * (1 - 2 * x) <-> 0 < x /\ x < 1 # 2.
Proof.
  split.
  - intros H. split.
    + destruct (Qlt_le_dec 0 x) as [Hx | Hx]; [exact Hx |]. exfalso. nra.
    + destruct (Qlt_le_dec x (1 # 2)) as [Hx | Hx]; [exact Hx |]. exfalso.
      destruct (Qlt_le_dec 0 x) as [Hx0 | Hx0]; nra.
  - intros [H1 H2]. nra.
Qed.

(** X23. For a price and daily sales between a millionth and a
    million, a duration of 1 to a million days and a discount between
    -100 and 100 percent, the promotion simulation returns, with a lift
    of twice the discount.  A discount from 1 to 49 percent is reported
    profitable and answered RUN; a discount of 0 has a revenue impact
    of 0 and is answered MODIFY; a discount of -1 percent or less, or
    of 51 percent or more, is reported unprofitable and answered
    MODIFY.  The revenue change is
    [sales * duration * price * d * (1 - 2 * d)] for [d] the discount
    over 100, so that its sign turns at 0 and at 50 percent; the
    statement leaves one percent on either side of both. *)
Theorem promotion_pays_between_0_and_50 :
  forall (price discount : Q) (duration : Z) (sales : Q),
    1 # 1000000 <= price <= 1000000 ->
    1 # 1000000 <= sales <= 1000000 ->
    (1 <= duration <= 1000000)%Z ->
    - (100) <= discount <= 100 ->
    exists r,
      simulate_promotion price discount duration sales = inr r
      /\ lift_pct r == 2 * discount
      /\ (1 <= discount <= 49 ->
          is_profitable r = true /\ promotion_recommendation r = RUN)
      /\ (discount == 0 ->
          revenue_impact r == 0
          /\ is_profitable r = false /\ promotion_recommendation r = MODIFY)
      /\ (discount <= - (1) \/ 51 <= discount ->
          is_profitable r = false /\ promotion_recommendation r = MODIFY).
Proof.
  intros price discount duration sales [Hp _] [Hs _] [Hd _] _.
  unfold simulate_promotion, ok. eexists. split; [reflexivity |].
  cbn [lift_pct is_profitable promotion_recommendation revenue_impact].
  set (change := sales * (1 + discount * 2 / 100) * inject_Z duration
                 * (price * (1 - discount / 100))
                 - sales * inject_Z duration * price).
  assert (Hchange : change
                    == sales * inject_Z duration * price
                       * (discount / 100 * (1 - 2 * (discount / 100)))).
  { subst change. field. }
  assert (Hbase : 0 < sales * inject_Z duration * price).
  { assert (0 < inject_Z duration).
    { change 0 with (inject_Z 0). rewrite <- Zlt_Qlt. lia. }
    apply Qmult_lt_0_compat; [apply Qmult_lt_0_compat |]; lra. }
  assert (Hsign : 0 < change <-> 0 < discount /\ discount < 50).
  { rewrite Hchange, (scaled_sign _ _ Hbase), hump.
    unfold Qdiv. change (/ 100) with (1 # 100).
    split; intros [H1 H2]; split; lra. }
  assert (Hyes : 0 < discount /\ discount < 50 -> ltb 0 change = true).
  { intros H. apply ltb_lt. now apply Hsign. }
  assert (Hno : discount <= 0 \/ 50 <= discount -> ltb 0 change = false).
  { intros H. apply ltb_ge.
    destruct (Qlt_le_dec 0 change) as [Hc | Hc]; [| exact Hc].
    apply Hsign in Hc. lra. }
  split; [ring |]. split; [| split].
  - intros H. rewrite Hyes by lra. split; reflexivity.
  - intros H0. rewrite Hno by lra. split; [| split; reflexivity].
    rewrite (round_comp change 0 2); [reflexivity |].
    rewrite Hchange, H0. unfold Qdiv. ring.
  - intros H. rewrite Hno by lra. split; reflexivity.
Qed.

Lemma promotion_pays_between_0_and_50_witness :
  exists r,
    simulate_promotion 100 10 7 5 = inr r
    /\ lift_pct r == 2 * 10
    /\ (1 <= 10 <= 49 ->
        is_profitable r = true /\ promotion_recommendation r = RUN)
    /\ (10 == 0 ->
        revenue_impact r == 0
        /\ is_profitable r = false /\ promotion_recommendation r = MODIFY)
    /\ (10 <= - (1) \/ 51 <= 10 ->
        is_profitable r = false /\ promotion_recommendation r = MODIFY).
Proof.
  apply (promotion_pays_between_0_and_50 100 10 7 5);
    split; vm_compute; discriminate.
Defined.

(** X24. With the default elasticity of 1.0, a current price and a
    current demand between a millionth and a million and a new price
    and a forecast of at most a million, the price simulation returns
    and reports a revenue change of zero or less.  An unchanged price
    is answered HOLD, and a price moved by a thousandth of the current
    price or more, either way, is never answered INCREASE: the
    projected revenue change is [-100 * ((new - current) / current)^2]
    percent. *)
Theorem default_elasticity_never_recommends_increase :
  forall current_price new_price current_demand forecast_demand : Q,
    1 # 1000000 <= current_price <= 1000000 ->
    0 <= new_price <= 1000000 ->
    1 # 1000000 <= current_demand <= 1000000 ->
    0 <= forecast_demand <= 1000000 ->
    exists r,
      simulate_price_impact current_price new_price current_demand
        forecast_demand None = inr r
      /\ revenue_change_pct r <= 0
      /\ (new_price == current_price -> price_recommendation r = HOLD)
      /\ (current_price / 1000 <= Qabs (new_price - current_price) ->
          price_recommendation r <> INCREASE).
Proof.
  intros cp np cd fd [Hcp _] _ [Hcd _] _. unfold simulate_price_impact.
  rewrite div_nonzero by lra. unfold bind, ok, default_elasticity.
  eexists. split; [reflexivity |].
  cbn [price_recommendation revenue_change_pct].
  assert (Hrev : ltb 0 (cd * cp) = true) by (apply ltb_lt; nra).
  rewrite Hrev.
  set (pct := (cd * (1 + - (1) * ((np - cp) / cp * 100) / 100) * np
               - cd * cp) / (cd * cp) * 100).
  assert (Hform : pct == - (100) * (((np - cp) / cp) * ((np - cp) / cp))).
  { subst pct. field. split; lra. }
  assert (Hpct : pct <= 0).
  { rewrite Hform.
    assert (0 <= (np - cp) / cp * ((np - cp) / cp)) by nra.
    lra. }
  assert (Hnot : ltb 0 pct = false) by now apply ltb_ge.
  rewrite Hnot.
  split; [now apply round_nonpositive |]. split.
  - intros Hsame.
    assert (Hzero : pct == 0).
    { rewrite Hform, Hsame. field. lra. }
    assert (Hfive : ltb pct (-5) = false) by (apply ltb_ge; lra).
    now rewrite Hfive.
  - intros _. destruct (ltb pct (-5)); discriminate.
Qed.

Lemma default_elasticity_never_recommends_increase_witness :
  exists r,
    simulate_price_impact 100 90 5 5 None = inr r
    /\ revenue_change_pct r <= 0
    /\ (90 == 100 -> price_recommendation r = HOLD)
    /\ (100 / 1000 <= Qabs (90 - 100) ->
        price_recommendation r <> INCREASE).
Proof.
  apply (default_elasticity_never_recommends_increase 100 90 5 5);
    split; vm_compute; discriminate.
Defined.

(** X25. For a price and daily sales between a millionth and a
    million, a spend of at most a billion and a lift between -100 and
    10000 percent, the marketing simulation returns.  Without a
    positive lift the break-even is the sentinel 999 days and the
    answer REDUCE_COST.  With a lift of a hundredth of a percent or
    more, a spend of at most 6.99 days of the gained daily revenue is
    answered RUN_CAMPAIGN and a spend of 7.01 days of it or more
    REDUCE_COST; the test in the code is a break-even under 7 days. *)
Theorem campaign_runs_when_paid_back_within_a_week :
  forall price sales spend lift : Q,
    1 # 1000000 <= price <= 1000000 ->
    1 # 1000000 <= sales <= 1000000 ->
    0 <= spend <= 1000000000 ->
    - (100) <= lift <= 10000 ->
    let gain := sales * (lift / 100) * price in
    exists r,
      simulate_marketing_campaign price sales spend lift = inr r
      /\ (lift <= 0 ->
          break_even_days r == 999
          /\ marketing_recommendation r = REDUCE_COST)
      /\ (1 # 100 <= lift -> 100 * spend <= 699 * gain ->
          marketing_recommendation r = RUN_CAMPAIGN)
      /\ (1 # 100 <= lift -> 701 * gain <= 100 * spend ->
          marketing_recommendation r = REDUCE_COST).
Proof.
  intros price sales spend lift [Hp _] [Hs _] [Hsp _] _ gain.
  unfold simulate_marketing_campaign.
  set (g := (sales * (1 + lift / 100) - sales) * price).
  assert (Hg : g == gain) by (subst g gain; field).
  assert (Hsp' : 0 < sales * price) by nra.
  assert (Hsign : 0 < gain <-> 0 < lift).
  { subst gain.
    setoid_replace (sales * (lift / 100) * price)
      with (sales * price * (lift * (1 # 100))) by field.
    rewrite (scaled_sign _ _ Hsp'). split; intros; lra. }
  destruct (ltb 0 g) eqn:E.
  - apply ltb_lt in E. rewrite div_nonzero by lra. unfold bind, ok.
    eexists. split; [reflexivity |].
    cbn [marketing_recommendation break_even_days].
    assert (Hweek : spend / g < 7 <-> spend < 7 * g).
    { split; intros H.
      - apply (Qmult_lt_compat_r _ _ g) in H; [| exact E].
        setoid_replace (spend / g * g) with spend in H by (field; lra).
        exact H.
      - apply Qlt_shift_div_r; assumption. }
    split; [| split].
    + intros Hl. exfalso. rewrite Hg in E. apply Hsign in E. lra.
    + intros _ Hpay.
      assert (H7 : ltb (spend / g) 7 = true).
      { apply ltb_lt, Hweek. lra. }
      now rewrite H7.
    + intros _ Hpay.
      assert (H7 : ltb (spend / g) 7 = false).
      { apply ltb_ge.
        destruct (Qlt_le_dec (spend / g) 7) as [H | H]; [| exact H].
        apply Hweek in H. lra. }
      now rewrite H7.
  - apply ltb_ge in E. unfold bind, ok. eexists. split; [reflexivity |].
    cbn [marketing_recommendation break_even_days].
    split; [| split].
    + intros _. split; reflexivity.
    + intros Hl _. exfalso.
      assert (0 < gain) by (apply Hsign; lra). lra.
    + intros _ _. reflexivity.
Qed.

Lemma campaign_runs_when_paid_back_within_a_week_witness :
  exists r,
    simulate_marketing_campaign 2 50 35 10 = inr r
    /\ (10 <= 0 ->
        break_even_days r == 999
        /\ marketing_recommendation r = REDUCE_COST)
    /\ (1 # 100 <= 10 -> 100 * 35 <= 699 * (50 * (10 / 100) * 2) ->
        marketing_recommendation r = RUN_CAMPAIGN)
    /\ (1 # 100 <= 10 -> 701 * (50 * (10 / 100) * 2) <= 100 * 35 ->
        marketing_recommendation r = REDUCE_COST).
Proof.
  apply (campaign_runs_when_paid_back_within_a_week 2 50 35 10);
    split; vm_compute; discriminate.
Defined.

Lemma min_forty (y : Q) : 20 < Py.min 40 y <-> 20 < y.
Proof.
  unfold Py.min. destruct (ltb y 40) eqn:E.
  - reflexivity.
  - apply ltb_ge in E. split; intros; lra.
Qed.

(** X26. With a positive number of days in stock, and neither demand
    nor price negative, the inventory simulation answers INCREASE
    exactly when the new level is more than a quarter above the
    current one, and it never answers DECREASE: lowering the stock
    lowers the holding cost, which the DECREASE test wants above 10. *)
Theorem inventory_simulation_never_recommends_decrease :
  forall current_days new_days demand price : Q,
    0 < current_days -> 0 <= demand -> 0 <= price ->
    exists r,
      simulate_inventory_change current_days new_days demand price = inr r
      /\ (inventory_recommendation r = INCREASE
          <-> (5 # 4) * current_days < new_days)
      /\ inventory_recommendation r <> DECREASE.
Proof.
  intros cur new dem price Hcur Hdem Hprice.
  unfold simulate_inventory_change.
  rewrite div_nonzero by lra. unfold bind, ok.
  eexists. split; [reflexivity |].
  cbn [inventory_recommendation].
  set (pct := (new - cur) / cur * 100).
  set (cost := (new - cur) * dem * price * (1 # 1000)).
  assert (Hpos : 0 < pct <-> cur < new).
  { subst pct. split; intros H.
    - destruct (Qlt_le_dec cur new) as [Hlt | Hge]; [exact Hlt |]. exfalso.
      assert (Hr : (new - cur) / cur <= 0).
      { apply Qle_shift_div_r; lra. }
      lra.
    - assert (Hr : 0 < (new - cur) / cur).
      { apply Qlt_shift_div_l; lra. }
      lra. }
  assert (Hquarter : 20 < pct * (8 # 10) <-> (5 # 4) * cur < new).
  { subst pct. split; intros H.
    - assert (Hr : 1 # 4 < (new - cur) / cur) by lra.
      apply (Qmult_lt_compat_r _ _ cur) in Hr; [| exact Hcur].
      setoid_replace ((new - cur) / cur * cur) with (new - cur) in Hr
        by (field; lra).
      lra.
    - assert (Hr : 1 # 4 < (new - cur) / cur).
      { apply Qlt_shift_div_l; lra. }
      lra. }
  split.
  - destruct (ltb 0 pct) eqn:E; cbn [andb].
    + apply ltb_lt in E.
      assert (Habs : Py.abs pct == pct) by (apply Qabs_pos; lra).
      destruct (ltb 20 (Py.min 40 (Py.abs pct * (8 # 10)))) eqn:E20.
      * apply ltb_lt in E20. apply (proj1 (min_forty _)) in E20.
        split; [intros _; apply Hquarter; lra | reflexivity].
      * split.
        -- destruct (ltb pct 0 && ltb 10 cost); discriminate.
        -- intros H. apply Hquarter in H.
           assert (Hq : 20 < Py.abs pct * (8 # 10)) by lra.
           apply (proj2 (min_forty _)) in Hq.
           apply (proj2 (ltb_lt _ _)) in Hq. congruence.
    + apply ltb_ge in E. split.
      * destruct (ltb pct 0 && ltb 10 cost); discriminate.
      * intros H. assert (cur < new) by lra. apply Hpos in H0. lra.
  - destruct (ltb 0 pct && _); [discriminate |].
    destruct (ltb pct 0) eqn:En; cbn [andb]; [| discriminate].
    destruct (ltb 10 cost) eqn:Ec; [| discriminate].
    exfalso. apply ltb_lt in En, Ec.
    assert (new <= cur).
    { destruct (Qlt_le_dec cur new) as [Hlt | Hge]; [| exact Hge].
      apply Hpos in Hlt. lra. }
    subst cost.
    assert (0 <= (cur - new) * dem * price).
    { apply Qmult_le_0_compat; [apply Qmult_le_0_compat |]; lra. }
    lra.
Qed.

Lemma inventory_simulation_never_recommends_decrease_witness :
  exists r,
    simulate_inventory_change 10 4 5 2 = inr r
    /\ (inventory_recommendation r = INCREASE <-> (5 # 4) * 10 < 4)
    /\ inventory_recommendation r <> DECREASE.
Proof.
  apply (inventory_simulation_never_recommends_decrease 10 4 5 2);
    [reflexivity | discriminate | discriminate].
Defined.

End SimulatorAlgebra.

(** ** The store-wide scenario *)

Module StoreSimulationFacts.

Import Py Frame StoreSimulation.

Local Open Scope Q_scope.

Section Service.

Variable get_product_data : string -> result (list row).

(** The dictionary of a price simulation has no entry
    ['current_demand']. *)
Lemma price_dict_lacks_current_demand (p : string) (np : Q) (res : dict) :
  simulate_price_change get_product_data p np = inr res ->
  entry res "current_demand" = inl (KeyError "current_demand").
Proof.
  unfold simulate_price_change, andthen.
  destruct (python (get_product_data p)) as [|data]; [discriminate |].
  destruct (python (InventoryRisk.iloc_last data)) as [|latest];
    [discriminate |].
  destruct (python (Forecasting.forecast_demand data)) as [|f];
    [discriminate |].
  destruct (price_impact _ _ _ _ _) as [|items] eqn:Hitems; [discriminate |].
  intros H. injection H as <-.
  unfold price_impact, andthen in Hitems.
  destruct (to_int _); [discriminate |].
  destruct (to_int _); [discriminate |].
  injection Hitems as <-. reflexivity.
Qed.

Lemma price_change_step_skips (ps : params) (p : string) (t : totals) :
  price_change_step get_product_data ps p t = t.
Proof.
  unfold price_change_step, attempt.
  destruct (pct_change ps) as [|pct]; [reflexivity |].
  destruct (python (get_product_data p)) as [|data]; [reflexivity |].
  destruct (python (InventoryRisk.iloc_last data)) as [|latest];
    [reflexivity |].
  destruct (simulate_price_change _ _ _) as [|res] eqn:Hres; [reflexivity |].
  rewrite (price_dict_lacks_current_demand _ _ _ Hres). reflexivity.
Qed.

Lemma fold_skips (step : totals -> string -> totals) (l : list string)
    (t : totals) :
  (forall t p, step t p = t) -> fold_left step l t = t.
Proof.
  intros Hstep. induction l as [|p l IH]; cbn [fold_left].
  - reflexivity.
  - rewrite Hstep. exact IH.
Qed.












Lemma marketing_step_value (ps : params) (a l : Q) (p : string)
    (t : totals) (data : list row) (latest : row) :
  ad_spend ps = inr a -> lift_pct ps = inr l ->
  get_product_data p = inr data ->
  InventoryRisk.iloc_last data = inr latest ->
  marketing_step get_product_data ps p t
  = add_daily_lift (Numpy.Real (marketing_lift get_product_data l p)) t.
Proof.
  intros Ha Hl Hdata Hlast.
  unfold marketing_step, marketing_lift, simulate_marketing_campaign,
    attempt, andthen, python.
  rewrite Ha, Hl, Hdata, Hlast.
  unfold Simulator.simulate_marketing_campaign.
  destruct (ltb 0 _) eqn:E.
  - apply PyFacts.ltb_lt in E. rewrite PyFacts.div_nonzero by lra.
    reflexivity.
  - reflexivity.
Qed.

Lemma marketing_step_without_rows (ps : params) (p : string) (t : totals) :
  (forall data latest,
     get_product_data p = inr data ->
     InventoryRisk.iloc_last data <> inr latest) ->
  marketing_step get_product_data ps p t = t.
Proof.
  intros Hnone.
  unfold marketing_step, simulate_marketing_campaign, attempt, andthen,
    python.
  destruct (ad_spend ps); [reflexivity |].
  destruct (lift_pct ps); [reflexivity |].
  destruct (get_product_data p) as [| data]; [reflexivity |].
  destruct (InventoryRisk.iloc_last data) as [| latest] eqn:E;
    [reflexivity |].
  exfalso. exact (Hnone data latest eq_refl E).
Qed.

Lemma marketing_fold (ps : params) (a l : Q) (sample : list string) :
  ad_spend ps = inr a -> lift_pct ps = inr l ->
  forall (t : totals) (x : Q),
    marketing_daily_lift t = Numpy.Real x ->
    exists x',
      marketing_daily_lift
        (fold_left (scenario_step get_product_data "marketing" ps) sample t)
      = Numpy.Real x'
      /\ x' == x + sumQ (map (marketing_lift get_product_data l) sample).
Proof.
  intros Ha Hl. induction sample as [| p sample IH]; intros t x Hx.
  - exists x. split; [exact Hx | cbn; ring].
  - cbn [fold_left map sumQ fold_right].
    change (scenario_step get_product_data "marketing" ps t p)
      with (marketing_step get_product_data ps p t).
    assert (Hstep : exists x1,
              marketing_daily_lift (marketing_step get_product_data ps p t)
              = Numpy.Real x1
              /\ x1 == x + marketing_lift get_product_data l p).
    { destruct (get_product_data p) as [err | data] eqn:Hdata.
      { rewrite marketing_step_without_rows.
        - exists x. split; [exact Hx |].
          unfold marketing_lift. rewrite Hdata. ring.
        - intros data latest H. rewrite Hdata in H. discriminate. }
      destruct (InventoryRisk.iloc_last data) as [err | latest] eqn:Hlast.
      { rewrite marketing_step_without_rows.
        - exists x. split; [exact Hx |].
          unfold marketing_lift. rewrite Hdata, Hlast. ring.
        - intros data' latest H. rewrite Hdata in H. injection H as <-.
          rewrite Hlast. discriminate. }
      rewrite (marketing_step_value ps a l p t data latest Ha Hl Hdata Hlast).
      cbn [marketing_daily_lift add_daily_lift]. rewrite Hx.
      eexists. split; [reflexivity | ring]. }
    destruct Hstep as (x1 & Hx1 & Hsum1).
    destruct (IH _ x1 Hx1) as (x2 & Hx2 & Hsum2).
    exists x2. split; [exact Hx2 |].
    rewrite Hsum2, Hsum1. unfold sumQ. ring.
Qed.

(** [promotion_impact] and [marketing_lift] are the entries of the
    per-product simulations. *)
Lemma promotion_impact_is_the_entry (p : string) (d : Q) (n : Z)
    (res : dict) :
  simulate_promotion get_product_data p d n = inr res ->
  entry res "revenue_impact"
  = inr (Numpy.Real (promotion_impact get_product_data d n p))
  /\ entry res "lift_pct" = inr (Numpy.Real (d * 2)).
Proof.
  unfold simulate_promotion, promotion_impact, andthen, python.
  destruct (get_product_data p) as [| data]; [discriminate |].
  destruct (InventoryRisk.iloc_last data) as [| latest]; [discriminate |].
  intros H. injection H as <-. split; reflexivity.
Qed.

Lemma marketing_lift_is_the_entry (p : string) (spend l : Q) (res : dict) :
  simulate_marketing_campaign get_product_data p spend l = inr res ->
  entry res "daily_revenue_increase"
  = inr (Numpy.Real (marketing_lift get_product_data l p)).
Proof.
  unfold simulate_marketing_campaign, marketing_lift, andthen, python.
  destruct (get_product_data p) as [| data]; [discriminate |].
  destruct (InventoryRisk.iloc_last data) as [| latest]; [discriminate |].
  unfold Simulator.simulate_marketing_campaign.
  destruct (ltb 0 _) eqn:E.
  - apply PyFacts.ltb_lt in E. rewrite PyFacts.div_nonzero by lra.
    intros H. injection H as <-. reflexivity.
  - intros H. injection H as <-. reflexivity.
Qed.

End Service.

(** X27. The store-wide scenario ['price_change'] reports no change at
    all, whatever the products, their data and the percentage asked
    for: the loop reads [res['current_demand']], a key the price
    simulation does not return, so every product is skipped by
    [except Exception: continue].  The totals stay 0, the action is
    NEGATIVE, and the skipped products are still counted as
    impacted. *)
Theorem store_wide_price_change_reports_no_change :
  forall (get_product_data : string -> result (list row)) (ps : params)
    (products : list string),
    exists s,
      simulate_global_scenario get_product_data "price_change" ps products
      = inr (mk_report
               (List.length
                  (SimulatorService.target_products (segment ps) products))
               s)
      /\ Numpy.same (total_revenue_change s) (Numpy.Real 0)
      /\ Numpy.same (revenue_change_pct s) (Numpy.Real 0)
      /\ Numpy.same (demand_change_pct s) (Numpy.Real 0)
      /\ net_profit_impact s = None
      /\ action s = NEGATIVE.
Proof.
  intros gpd ps products. unfold simulate_global_scenario.
  rewrite fold_skips.
  - cbn. eexists. split; [reflexivity |].
    cbn. repeat split; vm_compute; reflexivity.
  - intros t p. unfold scenario_step. cbn [String.eqb].
    apply price_change_step_skips.
Qed.



(** Without a lift no product of the sample adds to the daily total. *)
Lemma marketing_lift_without_lift
    (get_product_data : string -> result (list row)) (lift : Q) (p : string) :
  lift <= 0 ->
  (forall data latest,
     get_product_data p = inr data ->
     InventoryRisk.iloc_last data = inr latest ->
     0 <= price latest /\ 0 <= recent_demand data) ->
  marketing_lift get_product_data lift p <= 0.
Proof.
  intros Hlift Hrows. unfold marketing_lift.
  destruct (get_product_data p) as [| data] eqn:Hdata; [lra |].
  destruct (InventoryRisk.iloc_last data) as [| latest] eqn:Hlast; [lra |].
  destruct (Hrows data latest eq_refl Hlast) as [Hp Hd].
  apply SimulatorAlgebra.round_nonpositive.
  set (cd := recent_demand data) in *. set (cp := price latest) in *.
  setoid_replace ((cd * (1 + lift / 100) - cd) * cp)
    with (- (cd * cp * (- lift * (1 # 100)))) by field.
  assert (0 <= cd * cp) by (apply Qmult_le_0_compat; assumption).
  assert (0 <= cd * cp * (- lift * (1 # 100))).
  { apply Qmult_le_0_compat; [assumption | lra]. }
  lra.
Qed.

Lemma daily_total_without_lift
    (get_product_data : string -> result (list row)) (lift : Q)
    (sample : list string) :
  lift <= 0 ->
  (forall p data latest,
     In p sample ->
     get_product_data p = inr data ->
     InventoryRisk.iloc_last data = inr latest ->
     0 <= price latest /\ 0 <= recent_demand data) ->
  sumQ (map (marketing_lift get_product_data lift) sample) <= 0.
Proof.
  intros Hlift. induction sample as [| p sample IH]; intros Hrows.
  - cbn. lra.
  - cbn [map sumQ fold_right].
    fold (sumQ (map (marketing_lift get_product_data lift) sample)).
    assert (H1 : marketing_lift get_product_data lift p <= 0).
    { apply marketing_lift_without_lift; [exact Hlift |].
      intros data latest Hd Hl. apply (Hrows p data latest); auto.
      now left. }
    assert (H2 : sumQ (map (marketing_lift get_product_data lift) sample)
                 <= 0).
    { apply IH. intros q data latest Hin. apply Hrows. now right. }
    lra.
Qed.

(** X29. For a spend of at most a billion and a lift between -100 and
    1000 percent that parse, and sampled products priced at most 10000
    that sold at most 100000 a day over their last week, the store-wide
    scenario ['marketing'] answers.  The spend is charged once,
    whatever the number of products: the action is POSITIVE exactly
    when the reported total revenue change exceeds the spend, the net
    profit impact is that total less the spend, and the demand change
    is the lift asked for.  The total is thirty times the sum of the
    [daily_revenue_increase] of the sampled products' own simulations,
    to within 31 hundredths for each sampled product: each increase is
    rounded to the cent before it is added, and a cent either way is
    thirty hundredths in the month.  Without a lift the total is not
    positive and the action is NEGATIVE. *)
Theorem store_wide_campaign_charges_the_spend_once :
  forall (get_product_data : string -> result (list row)) (ps : params)
    (products : list string) (spend lift : Q),
    ad_spend ps = inr spend -> lift_pct ps = inr lift ->
    0 <= spend <= 1000000000 -> - (100) <= lift <= 1000 ->
    let sample := SimulatorService.target_products (segment ps) products in
    (forall p data latest,
       In p sample ->
       get_product_data p = inr data ->
       InventoryRisk.iloc_last data = inr latest ->
       0 <= price latest <= 10000 /\ 0 <= recent_demand data <= 100000) ->
    let monthly :=
      30 * sumQ (map (marketing_lift get_product_data lift) sample) in
    exists s total net,
      simulate_global_scenario get_product_data "marketing" ps products
      = inr (mk_report (List.length sample) s)
      /\ total_revenue_change s = Numpy.Real total
      /\ net_profit_impact s = Some (Numpy.Real net)
      /\ Numpy.same (demand_change_pct s) (Numpy.Real lift)
      /\ (action s = POSITIVE <-> spend < total)
      /\ Qabs (net - (total - spend))
         <= (Qabs total + spend) / inject_Z (10 ^ 15)
      /\ Qabs (total - monthly)
         <= (31 # 100) * inject_Z (Z.of_nat (List.length sample))
      /\ (lift <= 0 -> total <= 0 /\ action s = NEGATIVE).
Proof.
  intros gpd ps products spend lift Hspend Hlift [Hs0 _] _ sample Hrows
    monthly.
  unfold simulate_global_scenario. fold sample.
  destruct (marketing_fold gpd ps spend lift sample Hspend Hlift no_totals 0
              eq_refl) as (x & Hx & Hsum).
  assert (Hmonthly : x * 30 == monthly).
  { unfold monthly. rewrite Hsum. ring. }
  change (String.eqb "marketing" "marketing") with true. cbv iota.
  rewrite Hspend, Hlift, Hx. unfold andthen, done.
  cbn [Numpy.mul Numpy.sub Numpy.add Numpy.opp].
  exists (mk_summary (Numpy.Real (x * 30))
            (Numpy.round
               (Numpy.mul
                  (Numpy.div (Numpy.Real (x * 30))
                     (Numpy.Real (if ltb 0 spend then spend else 1)))
                  (Numpy.Real 100)) 1)
            (Numpy.Real lift)
            (Some (Numpy.Real (x * 30 + - spend)))
            (if Numpy.gt (Numpy.Real (x * 30 + - spend)) 0 then POSITIVE
             else NEGATIVE)),
    (x * 30), (x * 30 + - spend).
  split; [reflexivity |].
  cbn [total_revenue_change net_profit_impact action demand_change_pct
       Numpy.same Numpy.gt].
  split; [reflexivity |]. split; [reflexivity |]. split; [reflexivity |].
  split; [| split; [| split]].
  - destruct (ltb 0 (x * 30 + - spend)) eqn:E.
    + apply PyFacts.ltb_lt in E. split; [intros _; lra | reflexivity].
    + apply PyFacts.ltb_ge in E. split; [discriminate | intros H; lra].
  - setoid_replace (x * 30 + - spend - (x * 30 - spend)) with 0 by ring.
    change (Qabs 0) with 0.
    apply Qle_shift_div_l.
    + change 0 with (inject_Z 0). rewrite <- Zlt_Qlt. reflexivity.
    + pose proof (Qabs_nonneg (x * 30)). lra.
  - rewrite Hmonthly.
    setoid_replace (monthly - monthly) with 0 by ring.
    change (Qabs 0) with 0.
    apply Qmult_le_0_compat; [discriminate |].
    change 0 with (inject_Z 0). rewrite <- Zle_Qle. lia.
  - intros Hno.
    assert (Hdaily : sumQ (map (marketing_lift gpd lift) sample) <= 0).
    { apply daily_total_without_lift; [exact Hno |].
      intros p data latest Hin Hd Hl.
      destruct (Hrows p data latest Hin Hd Hl) as [[H1 _] [H2 _]].
      split; assumption. }
    assert (Htotal : x * 30 <= 0) by (rewrite Hsum; lra).
    split; [exact Htotal |].
    destruct (ltb 0 (x * 30 + - spend)) eqn:E; [| reflexivity].
    apply PyFacts.ltb_lt in E. lra.
Qed.

Lemma store_wide_campaign_charges_the_spend_once_witness :
  let sample :=
    SimulatorService.target_products (segment Samples.campaign)
      Samples.shelf_names in
  let monthly := 30 * sumQ (map (marketing_lift Samples.shelf 5) sample) in
  exists s total net,
    simulate_global_scenario Samples.shelf "marketing" Samples.campaign
      Samples.shelf_names
    = inr (mk_report (List.length sample) s)
    /\ total_revenue_change s = Numpy.Real total
    /\ net_profit_impact s = Some (Numpy.Real net)
    /\ Numpy.same (demand_change_pct s) (Numpy.Real 5)
    /\ (action s = POSITIVE <-> 100 < total)
    /\ Qabs (net - (total - 100)) <= (Qabs total + 100) / inject_Z (10 ^ 15)
    /\ Qabs (total - monthly)
       <= (31 # 100) * inject_Z (Z.of_nat (List.length sample))
    /\ (5 <= 0 -> total <= 0 /\ action s = NEGATIVE).
Proof.
  apply (store_wide_campaign_charges_the_spend_once Samples.shelf
           Samples.campaign Samples.shelf_names 100 5).
  - reflexivity.
  - reflexivity.
  - split; vm_compute; discriminate.
  - split; vm_compute; discriminate.
  - intros p data latest Hin Hdata Hlast.
    vm_compute in Hin.
    destruct Hin as [<- | [<- | [<- | []]]]; vm_compute in Hdata;
      try discriminate Hdata;
      injection Hdata as <-; vm_compute in Hlast; injection Hlast as <-;
      (split; split; vm_compute; discriminate).
Defined.

(** The revenue change of a price simulation at elasticity 1.2, in
    percent: [20 * (1 - x) * (6 * x - 5)] for [x] the new price over
    the current one. *)
Lemma revenue_change_at_elasticity_12 (cp np cd : Q) :
  0 < cp -> 0 < cd ->
  (cd * (1 + - (12 # 10) * ((np - cp) / cp * 100) / 100) * np
   + - (cd * cp)) / (cd * cp) * 100
  == (cp - np) * (6 * np - 5 * cp) * (20 / (cp * cp)).
Proof. intros Hcp Hcd. field. split; lra. Qed.

Lemma to_int_max0_real (x : Q) :
  exists z, to_int (Numpy.max0 (Numpy.Real x)) = inr z.
Proof.
  unfold Numpy.max0, Numpy.gt. destruct (ltb 0 x); eexists; reflexivity.
Qed.

(** X30. [SimulatorService.simulate_price_change] runs the price
    simulation with elasticity 1.2 on the latest price and the mean of
    the last seven days of sales.  For a product priced between a
    hundredth and a million with positive recent sales of at most a
    billion a day, and a new price of at most a million, it returns.
    Its recommendation is INCREASE for a cut of 1 to 16 percent, HOLD
    for an unchanged price, and DECREASE or HOLD for a cut of 17
    percent or more and for a rise of 1 percent or more: the revenue
    change turns positive below the current price and negative again
    at five sixths of it. *)
Theorem service_price_simulation_rewards_small_cuts :
  forall (get_product_data : string -> result (list row)) (p : string)
    (new_price : Q) (product_data : list row) (latest : row),
    get_product_data p = inr product_data ->
    InventoryRisk.iloc_last product_data = inr latest ->
    1 # 100 <= price latest <= 1000000 ->
    0 < recent_demand product_data <= 1000000000 ->
    0 <= new_price <= 1000000 ->
    exists res,
      simulate_price_change get_product_data p new_price = inr res
      /\ getitem res "current_price" = inr (Float (Numpy.Real (price latest)))
      /\ getitem res "new_price" = inr (Float (Numpy.Real new_price))
      /\ ((84 # 100) * price latest <= new_price <= (99 # 100) * price latest ->
          getitem res "recommendation" = inr (Str "INCREASE"))
      /\ (new_price == price latest ->
          getitem res "recommendation" = inr (Str "HOLD"))
      /\ (new_price <= (83 # 100) * price latest
          \/ (101 # 100) * price latest <= new_price ->
          getitem res "recommendation" = inr (Str "DECREASE")
          \/ getitem res "recommendation" = inr (Str "HOLD")).
Proof.
  intros gpd p np data latest Hdata Hlast [Hcp _] [Hcd _] _.
  unfold simulate_price_change, python. rewrite Hdata. cbn [andthen].
  rewrite Hlast. cbn [andthen].
  destruct (ForecastingFacts.forecast_demand_returns data
              (AnalysisFacts.iloc_last_rows data latest Hlast))
    as (days & a & Hf).
  rewrite Hf. cbn [andthen].
  set (cp := price latest) in *. set (cd := recent_demand data) in *.
  assert (Hcp0 : 0 < cp) by lra.
  unfold price_impact.
  assert (Hne : Qeq_bool cp 0 = false).
  { destruct (Qeq_bool cp 0) eqn:Q; [| reflexivity].
    apply Qeq_bool_eq in Q. lra. }
  assert (Hrev : 0 < cd * cp) by nra.
  assert (Hne' : Qeq_bool (cd * cp) 0 = false).
  { destruct (Qeq_bool (cd * cp) 0) eqn:Q; [| reflexivity].
    apply Qeq_bool_eq in Q. lra. }
  cbn [Numpy.div Numpy.mul Numpy.add Numpy.sub Numpy.opp]. rewrite Hne.
  cbn [Numpy.div Numpy.mul Numpy.add Numpy.sub Numpy.opp].
  change (Qeq_bool 100 0) with false. cbv iota.
  cbn [Numpy.div Numpy.mul Numpy.add Numpy.sub Numpy.opp].
  rewrite Hne', (proj2 (PyFacts.ltb_lt 0 (cd * cp)) Hrev).
  cbn [Numpy.mul Numpy.gt Numpy.lt Numpy.round].
  destruct (to_int_max0_real
              (cd * (1 + - (12 # 10) * ((np - cp) / cp * 100) / 100)))
    as [nd ->].
  match goal with
  | |- context [to_int (Numpy.max0 (Numpy.Real ?x))] =>
      destruct (to_int_max0_real x) as [fn ->]
  end.
  cbn [andthen]. unfold done. eexists. split; [reflexivity |].
  split; [reflexivity |]. split; [reflexivity |].
  pose proof (revenue_change_at_elasticity_12 cp np cd Hcp0 Hcd) as Hr.
  match type of Hr with
  | ?r0 == _ => set (r := r0) in *
  end.
  match goal with
  | |- context [getitem ?d0 "recommendation"] =>
      assert (Hrec : getitem d0 "recommendation"
                     = inr (Str (if ltb 0 r then "INCREASE"%string
                                 else if ltb r (-5) then "DECREASE"%string
                                 else "HOLD"%string))) by reflexivity;
      rewrite !Hrec; clear Hrec
  end.
  assert (Hk : 0 < 20 / (cp * cp)).
  { apply Qlt_shift_div_l; nra. }
  set (k := 20 / (cp * cp)) in *. clearbody k r.
  split; [| split].
  - intros [Hlow Hhigh].
    assert (Hpos : 0 < r).
    { rewrite Hr.
      apply Qmult_lt_0_compat; [apply Qmult_lt_0_compat |]; lra. }
    apply PyFacts.ltb_lt in Hpos. now rewrite Hpos.
  - intros Hsame.
    assert (Hzero : r == 0) by (rewrite Hr, Hsame; ring).
    assert (H0 : ltb 0 r = false) by (apply PyFacts.ltb_ge; lra).
    assert (H5 : ltb r (-5) = false) by (apply PyFacts.ltb_ge; lra).
    now rewrite H0, H5.
  - intros Hout.
    assert (Hneg : r <= 0).
    { rewrite Hr.
      assert (0 <= (np - cp) * (6 * np - 5 * cp) * k).
      { apply Qmult_le_0_compat; [| lra].
        destruct Hout as [Hout | Hout].
        - setoid_replace ((np - cp) * (6 * np - 5 * cp))
            with ((cp - np) * (5 * cp - 6 * np)) by ring.
          apply Qmult_le_0_compat; lra.
        - apply Qmult_le_0_compat; lra. }
      lra. }
    assert (H0 : ltb 0 r = false) by (apply PyFacts.ltb_ge; lra).
    rewrite H0. destruct (ltb r (-5)); [left | right]; reflexivity.
Qed.

Lemma service_price_simulation_rewards_small_cuts_witness :
  exists res,
    simulate_price_change Samples.shelf "Milk" (9 # 4) = inr res
    /\ getitem res "current_price"
       = inr (Float (Numpy.Real (price (Samples.day 2 4 10))))
    /\ getitem res "new_price" = inr (Float (Numpy.Real (9 # 4)))
    /\ ((84 # 100) * price (Samples.day 2 4 10) <= 9 # 4
        <= (99 # 100) * price (Samples.day 2 4 10) ->
        getitem res "recommendation" = inr (Str "INCREASE"))
    /\ (9 # 4 == price (Samples.day 2 4 10) ->
        getitem res "recommendation" = inr (Str "HOLD"))
    /\ (9 # 4 <= (83 # 100) * price (Samples.day 2 4 10)
        \/ (101 # 100) * price (Samples.day 2 4 10) <= 9 # 4 ->
        getitem res "recommendation" = inr (Str "DECREASE")
        \/ getitem res "recommendation" = inr (Str "HOLD")).
Proof.
  apply (service_price_simulation_rewards_small_cuts Samples.shelf "Milk"
           (9 # 4) Samples.three_days (Samples.day 2 4 10));
    [reflexivity | reflexivity | | |]; split; vm_compute;
    first [reflexivity | discriminate].
Defined.

End StoreSimulationFacts.
